(** * Doom.NET Renderer: device bring-up, frame rendering and teardown

    A shallow embedding of [Renderer::InitDevice], [Renderer::Render] and
    [Renderer::CleanupDevice] (Renderer/src/Renderer.cpp).

    The renderer talks to Direct3D 11 / DXGI through COM interface pointers.
    The embedding keeps the member fields of the [Renderer] object in a
    record, threads that record together with a chronological log of the
    platform calls through a small state monad, and takes the platform as
    an oracle: each entry point answers from the calls seen so far and the
    arguments of the current call.  Invoking a method through a null
    interface pointer stops the run ([Crash]). *)

From Stdlib Require Import String ZArith List Bool Lia QArith.
Import ListNotations.
Local Open Scope Z_scope.

(** ** Platform data types (windows.h, d3d11.h, dxgi1_2.h) *)

(** An interface pointer or a window handle; [nullptr] is 0. *)
Definition ptr := Z.
Definition HWND := Z.
Definition nullptr : ptr := 0.

Definition is_null (p : ptr) : bool := p =? nullptr.

(** HRESULT is a signed 32-bit value: negative values are failures. *)
Definition HRESULT := Z.
Definition S_OK : HRESULT := 0.
Definition E_FAIL : HRESULT := -2147467259.        (* 0x80004005 *)
Definition E_INVALIDARG : HRESULT := -2147024809.  (* 0x80070057 *)
Definition SUCCEEDED (hr : HRESULT) : bool := 0 <=? hr.
Definition FAILED (hr : HRESULT) : bool := hr <? 0.

(** BOOL *)
Definition TRUE : Z := 1.

Record RECT := mkRECT { rc_left : Z; rc_top : Z; rc_right : Z; rc_bottom : Z }.

(** [UINT x = a - b;] on LONG operands: the difference reduced modulo 2^32. *)
Definition to_UINT (x : Z) : Z := x mod 2 ^ 32.

Inductive D3D_DRIVER_TYPE :=
| D3D_DRIVER_TYPE_UNKNOWN
| D3D_DRIVER_TYPE_HARDWARE
| D3D_DRIVER_TYPE_REFERENCE
| D3D_DRIVER_TYPE_NULL
| D3D_DRIVER_TYPE_SOFTWARE
| D3D_DRIVER_TYPE_WARP.

Inductive D3D_FEATURE_LEVEL :=
| D3D_FEATURE_LEVEL_9_1
| D3D_FEATURE_LEVEL_9_2
| D3D_FEATURE_LEVEL_9_3
| D3D_FEATURE_LEVEL_10_0
| D3D_FEATURE_LEVEL_10_1
| D3D_FEATURE_LEVEL_11_0
| D3D_FEATURE_LEVEL_11_1.

(** The interface identifiers passed as [__uuidof(...)]. *)
Inductive IID :=
| IID_IDXGIDevice
| IID_IDXGIFactory1
| IID_IDXGIFactory2
| IID_ID3D11Device1
| IID_ID3D11DeviceContext1
| IID_IDXGISwapChain
| IID_ID3D11Texture2D.

Definition D3D11_SDK_VERSION : Z := 7.
Definition D3D11_CREATE_DEVICE_DEBUG : Z := 2.
Definition DXGI_FORMAT_R8G8B8A8_UNORM : Z := 28.
Definition DXGI_USAGE_RENDER_TARGET_OUTPUT : Z := 32.  (* 0x20 *)
Definition DXGI_MWA_NO_ALT_ENTER : Z := 2.

Record DXGI_SAMPLE_DESC := mkSampleDesc { Count : Z; Quality : Z }.

Record DXGI_RATIONAL := mkRational { Numerator : Z; Denominator : Z }.

(** DXGI 1.2 swap-chain description (per-window creation path). *)
Record DXGI_SWAP_CHAIN_DESC1 := mkDesc1 {
  sd1_Width : Z;
  sd1_Height : Z;
  sd1_Format : Z;
  sd1_Stereo : Z;
  sd1_SampleDesc : DXGI_SAMPLE_DESC;
  sd1_BufferUsage : Z;
  sd1_BufferCount : Z;
  sd1_Scaling : Z;
  sd1_SwapEffect : Z;
  sd1_AlphaMode : Z;
  sd1_Flags : Z
}.

Record DXGI_MODE_DESC := mkModeDesc {
  md_Width : Z;
  md_Height : Z;
  md_RefreshRate : DXGI_RATIONAL;
  md_Format : Z;
  md_ScanlineOrdering : Z;
  md_Scaling : Z
}.

(** Legacy swap-chain description. *)
Record DXGI_SWAP_CHAIN_DESC := mkDesc {
  sd_BufferDesc : DXGI_MODE_DESC;
  sd_SampleDesc : DXGI_SAMPLE_DESC;
  sd_BufferUsage : Z;
  sd_BufferCount : Z;
  sd_OutputWindow : HWND;
  sd_Windowed : Z;
  sd_SwapEffect : Z;
  sd_Flags : Z
}.

(** A FLOAT is modelled by the rational number it denotes (no NaN or
    infinity arises in this program). *)
Definition FLOAT := Q.

(** Conversion of a UINT to single precision: 24 significant bits, round
    to nearest, ties to even.  Every UINT below 2^24 is kept as it is. *)
Definition round_to_FLOAT (w : Z) : Z :=
  if w <? 2 ^ 24 then w
  else
    let e := Z.log2 w - 23 in
    let q := Z.shiftr w e in
    let r := Z.land w (Z.ones e) in
    let half := Z.shiftl 1 (e - 1) in
    let q' := if (half <? r) || ((r =? half) && Z.odd q) then q + 1 else q in
    Z.shiftl q' e.

Definition FLOAT_of_UINT (w : Z) : FLOAT := inject_Z (round_to_FLOAT w).

Arguments round_to_FLOAT : simpl never.
Arguments to_UINT : simpl never.

Record D3D11_VIEWPORT := mkViewport {
  TopLeftX : FLOAT;
  TopLeftY : FLOAT;
  Width : FLOAT;
  Height : FLOAT;
  MinDepth : FLOAT;
  MaxDepth : FLOAT
}.

Record XMVECTORF32 := mkColor { f_r : FLOAT; f_g : FLOAT; f_b : FLOAT; f_a : FLOAT }.

(** [DirectX::Colors::MidnightBlue] of DirectXColors.h:
    [{0.098039225f, 0.098039225f, 0.439215720f, 1.0f}], each component the
    single-precision value of its literal. *)
Definition MidnightBlue : XMVECTORF32 :=
  mkColor (6579301 # 67108864) (6579301 # 67108864) (7368817 # 16777216) 1%Q.

(** ** Platform calls and the platform oracle *)

(** One platform call: its arguments and what the callee handed back
    (the HRESULT and the values stored through the out-parameters). *)
Inductive Event :=
| EvGetClientRect (hWnd : HWND) (rc : RECT)
| EvD3D11CreateDevice (DriverType : D3D_DRIVER_TYPE) (Flags : Z)
    (pFeatureLevels : list D3D_FEATURE_LEVEL) (SDKVersion : Z)
    (hr : HRESULT) (ppDevice : ptr) (pFeatureLevel : D3D_FEATURE_LEVEL)
    (ppImmediateContext : ptr)
| EvQueryInterface (this : ptr) (riid : IID) (hr : HRESULT) (ppvObject : ptr)
| EvGetAdapter (this : ptr) (hr : HRESULT) (pAdapter : ptr)
| EvGetParent (this : ptr) (riid : IID) (hr : HRESULT) (ppParent : ptr)
| EvRelease (this : ptr)
| EvCreateSwapChainForHwnd (this pDevice : ptr) (hWnd : HWND)
    (pDesc : DXGI_SWAP_CHAIN_DESC1) (hr : HRESULT) (ppSwapChain : ptr)
| EvCreateSwapChain (this pDevice : ptr) (pDesc : DXGI_SWAP_CHAIN_DESC)
    (hr : HRESULT) (ppSwapChain : ptr)
| EvMakeWindowAssociation (this : ptr) (WindowHandle : HWND) (Flags : Z)
    (hr : HRESULT)
| EvGetBuffer (this : ptr) (Buffer : Z) (riid : IID) (hr : HRESULT)
    (ppSurface : ptr)
| EvCreateRenderTargetView (this pResource : ptr) (hr : HRESULT)
    (ppRTView : ptr)
| EvOMSetRenderTargets (this : ptr) (ppRenderTargetViews : list ptr)
    (pDepthStencilView : ptr)
| EvRSSetViewports (this : ptr) (pViewports : list D3D11_VIEWPORT)
| EvClearRenderTargetView (this pRenderTargetView : ptr)
    (ColorRGBA : XMVECTORF32)
| EvPresent (this : ptr) (SyncInterval Flags : Z) (hr : HRESULT)
| EvClearState (this : ptr).

(** The platform: every entry point answers from the log of the calls made
    so far and from its arguments. *)
Record Platform := mkPlatform {
  p_GetClientRect : list Event -> HWND -> RECT;
  p_D3D11CreateDevice :
    list Event -> D3D_DRIVER_TYPE -> Z -> list D3D_FEATURE_LEVEL -> Z ->
    HRESULT * ptr * D3D_FEATURE_LEVEL * ptr;
  p_QueryInterface : list Event -> ptr -> IID -> HRESULT * ptr;
  p_GetAdapter : list Event -> ptr -> HRESULT * ptr;
  p_GetParent : list Event -> ptr -> IID -> HRESULT * ptr;
  p_CreateSwapChainForHwnd :
    list Event -> ptr -> ptr -> HWND -> DXGI_SWAP_CHAIN_DESC1 -> HRESULT * ptr;
  p_CreateSwapChain :
    list Event -> ptr -> ptr -> DXGI_SWAP_CHAIN_DESC -> HRESULT * ptr;
  p_MakeWindowAssociation : list Event -> ptr -> HWND -> Z -> HRESULT;
  p_GetBuffer : list Event -> ptr -> Z -> IID -> HRESULT * ptr;
  p_CreateRenderTargetView : list Event -> ptr -> ptr -> HRESULT * ptr;
  p_Present : list Event -> ptr -> Z -> Z -> HRESULT
}.

(** ** The Renderer object *)

Record Renderer := mkRenderer {
  m_hWnd : HWND;
  m_driverType : D3D_DRIVER_TYPE;
  m_featureLevel : D3D_FEATURE_LEVEL;
  m_pDevice : ptr;
  m_pDevice1 : ptr;
  m_pImmediateContext : ptr;
  m_pImmediateContext1 : ptr;
  m_pSwapChain : ptr;
  m_pSwapChain1 : ptr;
  m_pRenderTargetView : ptr
}.

Definition set_m_driverType (v : D3D_DRIVER_TYPE) (r : Renderer) : Renderer :=
  mkRenderer (m_hWnd r) v (m_featureLevel r) (m_pDevice r) (m_pDevice1 r)
    (m_pImmediateContext r) (m_pImmediateContext1 r) (m_pSwapChain r)
    (m_pSwapChain1 r) (m_pRenderTargetView r).

Definition set_m_featureLevel (v : D3D_FEATURE_LEVEL) (r : Renderer) : Renderer :=
  mkRenderer (m_hWnd r) (m_driverType r) v (m_pDevice r) (m_pDevice1 r)
    (m_pImmediateContext r) (m_pImmediateContext1 r) (m_pSwapChain r)
    (m_pSwapChain1 r) (m_pRenderTargetView r).

Definition set_m_pDevice (v : ptr) (r : Renderer) : Renderer :=
  mkRenderer (m_hWnd r) (m_driverType r) (m_featureLevel r) v (m_pDevice1 r)
    (m_pImmediateContext r) (m_pImmediateContext1 r) (m_pSwapChain r)
    (m_pSwapChain1 r) (m_pRenderTargetView r).

Definition set_m_pDevice1 (v : ptr) (r : Renderer) : Renderer :=
  mkRenderer (m_hWnd r) (m_driverType r) (m_featureLevel r) (m_pDevice r) v
    (m_pImmediateContext r) (m_pImmediateContext1 r) (m_pSwapChain r)
    (m_pSwapChain1 r) (m_pRenderTargetView r).

Definition set_m_pImmediateContext (v : ptr) (r : Renderer) : Renderer :=
  mkRenderer (m_hWnd r) (m_driverType r) (m_featureLevel r) (m_pDevice r)
    (m_pDevice1 r) v (m_pImmediateContext1 r) (m_pSwapChain r)
    (m_pSwapChain1 r) (m_pRenderTargetView r).

Definition set_m_pImmediateContext1 (v : ptr) (r : Renderer) : Renderer :=
  mkRenderer (m_hWnd r) (m_driverType r) (m_featureLevel r) (m_pDevice r)
    (m_pDevice1 r) (m_pImmediateContext r) v (m_pSwapChain r)
    (m_pSwapChain1 r) (m_pRenderTargetView r).

Definition set_m_pSwapChain (v : ptr) (r : Renderer) : Renderer :=
  mkRenderer (m_hWnd r) (m_driverType r) (m_featureLevel r) (m_pDevice r)
    (m_pDevice1 r) (m_pImmediateContext r) (m_pImmediateContext1 r) v
    (m_pSwapChain1 r) (m_pRenderTargetView r).

Definition set_m_pSwapChain1 (v : ptr) (r : Renderer) : Renderer :=
  mkRenderer (m_hWnd r) (m_driverType r) (m_featureLevel r) (m_pDevice r)
    (m_pDevice1 r) (m_pImmediateContext r) (m_pImmediateContext1 r)
    (m_pSwapChain r) v (m_pRenderTargetView r).

Definition set_m_pRenderTargetView (v : ptr) (r : Renderer) : Renderer :=
  mkRenderer (m_hWnd r) (m_driverType r) (m_featureLevel r) (m_pDevice r)
    (m_pDevice1 r) (m_pImmediateContext r) (m_pImmediateContext1 r)
    (m_pSwapChain r) (m_pSwapChain1 r) v.

(** ** The execution monad *)

(** The object's fields and the chronological log of platform calls. *)
Record State := mkState { renderer : Renderer; log : list Event }.

(** A run either returns a value or stops at a call through a null
    interface pointer; both keep the state reached. *)
Inductive outcome (A : Type) :=
| Done (a : A) (s : State)
| Crash (s : State).
Arguments Done {A} a s.
Arguments Crash {A} s.

Definition M (A : Type) := State -> outcome A.

Definition ret {A} (a : A) : M A := fun s => Done a s.

Definition bind {A B} (c : M A) (k : A -> M B) : M B :=
  fun s => match c s with
           | Done a s' => k a s'
           | Crash s' => Crash s'
           end.

Declare Scope monad_scope.
Delimit Scope monad_scope with monad.
Notation "x <- c ;; k" := (bind c (fun x => k))
  (at level 61, c at next level, right associativity) : monad_scope.
Notation "' pat <- c ;; k" := (bind c (fun x => match x with pat => k end))
  (at level 61, pat pattern, c at next level, right associativity) : monad_scope.
Notation "c ;; k" := (bind c (fun _ => k))
  (at level 61, right associativity) : monad_scope.
Local Open Scope monad_scope.

Definition final {A} (o : outcome A) : State :=
  match o with Done _ s => s | Crash s => s end.

Definition returned {A} (o : outcome A) : option A :=
  match o with Done a _ => Some a | Crash _ => None end.

(** Reading and writing a member field. *)
Definition member {A} (f : Renderer -> A) : M A :=
  fun s => Done (f (renderer s)) s.

Definition assign (f : Renderer -> Renderer) : M unit :=
  fun s => Done tt (mkState (f (renderer s)) (log s)).

Definition emit (e : Event) (s : State) : State :=
  mkState (renderer s) (log s ++ [e]).

(** [this->method(...)]: a call through a null pointer stops the run. *)
Definition deref {A} (this : ptr) (c : M A) : M A :=
  fun s => if is_null this then Crash s else c s.

(** ** The program *)

Section Program.

(** The build configuration ([#ifdef _DEBUG]) and the platform. *)
Variable _DEBUG : bool.
Variable P : Platform.

(** *** Platform calls as monadic operations *)

Definition GetClientRect (hWnd : HWND) : M RECT :=
  fun s =>
    let rc := p_GetClientRect P (log s) hWnd in
    Done rc (emit (EvGetClientRect hWnd rc) s).

(** [D3D11CreateDevice(nullptr, DriverType, nullptr, Flags, pFeatureLevels,
    FeatureLevels, SDKVersion, &m_pDevice, &m_featureLevel,
    &m_pImmediateContext)]: the three out-parameters are members. *)
Definition D3D11CreateDevice (DriverType : D3D_DRIVER_TYPE) (Flags : Z)
    (pFeatureLevels : list D3D_FEATURE_LEVEL) (SDKVersion : Z) : M HRESULT :=
  fun s =>
    match p_D3D11CreateDevice P (log s) DriverType Flags pFeatureLevels SDKVersion with
    | (hr, dev, fl, ctx) =>
        Done hr
          (mkState
             (set_m_pImmediateContext ctx
                (set_m_featureLevel fl (set_m_pDevice dev (renderer s))))
             (log s ++ [EvD3D11CreateDevice DriverType Flags pFeatureLevels
                          SDKVersion hr dev fl ctx]))
    end.

Definition QueryInterface (this : ptr) (riid : IID) : M (HRESULT * ptr) :=
  deref this (fun s =>
    match p_QueryInterface P (log s) this riid with
    | (hr, out) => Done (hr, out) (emit (EvQueryInterface this riid hr out) s)
    end).

Definition GetAdapter (this : ptr) : M (HRESULT * ptr) :=
  deref this (fun s =>
    match p_GetAdapter P (log s) this with
    | (hr, out) => Done (hr, out) (emit (EvGetAdapter this hr out) s)
    end).

Definition GetParent (this : ptr) (riid : IID) : M (HRESULT * ptr) :=
  deref this (fun s =>
    match p_GetParent P (log s) this riid with
    | (hr, out) => Done (hr, out) (emit (EvGetParent this riid hr out) s)
    end).

Definition Release (this : ptr) : M unit :=
  deref this (fun s => Done tt (emit (EvRelease this) s)).

Definition CreateSwapChainForHwnd (this pDevice : ptr) (hWnd : HWND)
    (pDesc : DXGI_SWAP_CHAIN_DESC1) : M (HRESULT * ptr) :=
  deref this (fun s =>
    match p_CreateSwapChainForHwnd P (log s) this pDevice hWnd pDesc with
    | (hr, out) =>
        Done (hr, out) (emit (EvCreateSwapChainForHwnd this pDevice hWnd pDesc hr out) s)
    end).

Definition CreateSwapChain (this pDevice : ptr) (pDesc : DXGI_SWAP_CHAIN_DESC)
    : M (HRESULT * ptr) :=
  deref this (fun s =>
    match p_CreateSwapChain P (log s) this pDevice pDesc with
    | (hr, out) => Done (hr, out) (emit (EvCreateSwapChain this pDevice pDesc hr out) s)
    end).

Definition MakeWindowAssociation (this : ptr) (WindowHandle : HWND) (Flags : Z)
    : M HRESULT :=
  deref this (fun s =>
    let hr := p_MakeWindowAssociation P (log s) this WindowHandle Flags in
    Done hr (emit (EvMakeWindowAssociation this WindowHandle Flags hr) s)).

Definition GetBuffer (this : ptr) (Buffer : Z) (riid : IID) : M (HRESULT * ptr) :=
  deref this (fun s =>
    match p_GetBuffer P (log s) this Buffer riid with
    | (hr, out) => Done (hr, out) (emit (EvGetBuffer this Buffer riid hr out) s)
    end).

Definition CreateRenderTargetView (this pResource : ptr) : M (HRESULT * ptr) :=
  deref this (fun s =>
    match p_CreateRenderTargetView P (log s) this pResource with
    | (hr, out) => Done (hr, out) (emit (EvCreateRenderTargetView this pResource hr out) s)
    end).

Definition OMSetRenderTargets (this : ptr) (ppRenderTargetViews : list ptr)
    (pDepthStencilView : ptr) : M unit :=
  deref this (fun s =>
    Done tt (emit (EvOMSetRenderTargets this ppRenderTargetViews pDepthStencilView) s)).

Definition RSSetViewports (this : ptr) (pViewports : list D3D11_VIEWPORT) : M unit :=
  deref this (fun s => Done tt (emit (EvRSSetViewports this pViewports) s)).

Definition ClearRenderTargetView (this pRenderTargetView : ptr)
    (ColorRGBA : XMVECTORF32) : M unit :=
  deref this (fun s =>
    Done tt (emit (EvClearRenderTargetView this pRenderTargetView ColorRGBA) s)).

Definition Present (this : ptr) (SyncInterval Flags : Z) : M HRESULT :=
  deref this (fun s =>
    let hr := p_Present P (log s) this SyncInterval Flags in
    Done hr (emit (EvPresent this SyncInterval Flags hr) s)).

Definition ClearState (this : ptr) : M unit :=
  deref this (fun s => Done tt (emit (EvClearState this) s)).

(** *** Renderer::InitDevice *)

Definition driverTypes : list D3D_DRIVER_TYPE :=
  [ D3D_DRIVER_TYPE_HARDWARE; D3D_DRIVER_TYPE_WARP; D3D_DRIVER_TYPE_REFERENCE ].

Definition featureLevels : list D3D_FEATURE_LEVEL :=
  [ D3D_FEATURE_LEVEL_11_1; D3D_FEATURE_LEVEL_11_0;
    D3D_FEATURE_LEVEL_10_1; D3D_FEATURE_LEVEL_10_0 ].

Definition numFeatureLevels : nat := length featureLevels.

(** [&a[i]] with a count [n]: the [n] elements of [a] from index [i]. *)
Definition array_from {A} (a : list A) (i n : nat) : list A := firstn n (skipn i a).

Definition createDeviceFlags : Z :=
  if _DEBUG then Z.lor 0 D3D11_CREATE_DEVICE_DEBUG else 0.

(** The [for] loop over [driverTypes] (lines 97-115); [types] is the part
    of the array not yet visited and [hr] the current value of the local. *)
Fixpoint create_device_loop (types : list D3D_DRIVER_TYPE) (hr : HRESULT)
    : M HRESULT :=
  match types with
  | [] => ret hr
  | driverType :: rest =>
      assign (set_m_driverType driverType) ;;
      drv <- member m_driverType ;;
      hr <- D3D11CreateDevice drv createDeviceFlags featureLevels
              D3D11_SDK_VERSION ;;
      hr <- (if hr =? E_INVALIDARG
             then
               (* DirectX 11.0 platforms will not recognize
                  D3D_FEATURE_LEVEL_11_1 so we need to retry without it *)
               drv <- member m_driverType ;;
               D3D11CreateDevice drv createDeviceFlags
                 (array_from featureLevels 1 (numFeatureLevels - 1))
                 D3D11_SDK_VERSION
             else ret hr) ;;
      if SUCCEEDED hr then ret hr (* break *)
      else create_device_loop rest hr
  end.

(** Obtain DXGI factory from device (lines 123-141): the HRESULT and the
    local [dxgiFactory]. *)
Definition obtain_factory : M (HRESULT * ptr) :=
  let dxgiFactory := nullptr in
  let dxgiDevice := nullptr in
  pDevice <- member m_pDevice ;;
  '(hr, dxgiDevice) <- QueryInterface pDevice IID_IDXGIDevice ;;
  if SUCCEEDED hr then
    let adapter := nullptr in
    '(hr, adapter) <- GetAdapter dxgiDevice ;;
    '(hr, dxgiFactory) <-
       (if SUCCEEDED hr then
          '(hr, dxgiFactory) <- GetParent adapter IID_IDXGIFactory1 ;;
          Release adapter ;;
          ret (hr, dxgiFactory)
        else ret (hr, dxgiFactory)) ;;
    Release dxgiDevice ;;
    ret (hr, dxgiFactory)
  else ret (hr, dxgiFactory).

(** [DXGI_SWAP_CHAIN_DESC1 sd = {};] followed by the assignments of lines
    164-170. *)
Definition swap_chain_desc1 (width height : Z) : DXGI_SWAP_CHAIN_DESC1 :=
  {| sd1_Width := width;
     sd1_Height := height;
     sd1_Format := DXGI_FORMAT_R8G8B8A8_UNORM;
     sd1_Stereo := 0;
     sd1_SampleDesc := {| Count := 1; Quality := 0 |};
     sd1_BufferUsage := DXGI_USAGE_RENDER_TARGET_OUTPUT;
     sd1_BufferCount := 1;
     sd1_Scaling := 0;
     sd1_SwapEffect := 0;
     sd1_AlphaMode := 0;
     sd1_Flags := 0 |}.

(** [DXGI_SWAP_CHAIN_DESC sd = {};] followed by the assignments of lines
    185-195. *)
Definition swap_chain_desc (width height : Z) (hWnd : HWND) : DXGI_SWAP_CHAIN_DESC :=
  {| sd_BufferDesc :=
       {| md_Width := width;
          md_Height := height;
          md_RefreshRate := {| Numerator := 60; Denominator := 1 |};
          md_Format := DXGI_FORMAT_R8G8B8A8_UNORM;
          md_ScanlineOrdering := 0;
          md_Scaling := 0 |};
     sd_SampleDesc := {| Count := 1; Quality := 0 |};
     sd_BufferUsage := DXGI_USAGE_RENDER_TARGET_OUTPUT;
     sd_BufferCount := 1;
     sd_OutputWindow := hWnd;
     sd_Windowed := TRUE;
     sd_SwapEffect := 0;
     sd_Flags := 0 |}.

(** Create swap chain (lines 149-198): the value of [hr] when the branch
    is left. *)
Definition create_swap_chain (width height : Z) (dxgiFactory : ptr) : M HRESULT :=
  let dxgiFactory2 := nullptr in
  '(hr, dxgiFactory2) <- QueryInterface dxgiFactory IID_IDXGIFactory2 ;;
  if negb (is_null dxgiFactory2) then
    (* DirectX 11.1 or later *)
    pDevice <- member m_pDevice ;;
    '(hr, pDevice1) <- QueryInterface pDevice IID_ID3D11Device1 ;;
    assign (set_m_pDevice1 pDevice1) ;;
    (if SUCCEEDED hr then
       pImmediateContext <- member m_pImmediateContext ;;
       '(_, pImmediateContext1) <-
          QueryInterface pImmediateContext IID_ID3D11DeviceContext1 ;;
       assign (set_m_pImmediateContext1 pImmediateContext1)
     else ret tt) ;;
    let sd := swap_chain_desc1 width height in
    pDevice <- member m_pDevice ;;
    hWnd <- member m_hWnd ;;
    '(hr, pSwapChain1) <- CreateSwapChainForHwnd dxgiFactory2 pDevice hWnd sd ;;
    assign (set_m_pSwapChain1 pSwapChain1) ;;
    hr <- (if SUCCEEDED hr then
             pSwapChain1 <- member m_pSwapChain1 ;;
             '(hr, pSwapChain) <- QueryInterface pSwapChain1 IID_IDXGISwapChain ;;
             assign (set_m_pSwapChain pSwapChain) ;;
             ret hr
           else ret hr) ;;
    Release dxgiFactory2 ;;
    ret hr
  else
    (* DirectX 11.0 systems *)
    hWnd <- member m_hWnd ;;
    let sd := swap_chain_desc width height hWnd in
    pDevice <- member m_pDevice ;;
    '(hr, pSwapChain) <- CreateSwapChain dxgiFactory pDevice sd ;;
    assign (set_m_pSwapChain pSwapChain) ;;
    ret hr.

(** [D3D11_VIEWPORT vp;] with the assignments of lines 230-235; the fields
    are FLOAT, so the UINT sizes are converted. *)
Definition viewport (width height : Z) : D3D11_VIEWPORT :=
  {| TopLeftX := inject_Z 0;
     TopLeftY := inject_Z 0;
     Width := FLOAT_of_UINT width;
     Height := FLOAT_of_UINT height;
     MinDepth := 0%Q;
     MaxDepth := 1%Q |}.

(** Lines 122-238: everything after a device has been created. *)
Definition init_with_device (width height : Z) : M HRESULT :=
  (* Obtain DXGI factory from device *)
  '(hr, dxgiFactory) <- obtain_factory ;;
  if FAILED hr then ret hr else
  (* Create swap chain *)
  hr <- create_swap_chain width height dxgiFactory ;;
  hWnd <- member m_hWnd ;;
  MakeWindowAssociation dxgiFactory hWnd DXGI_MWA_NO_ALT_ENTER ;;
  Release dxgiFactory ;;
  if FAILED hr then ret hr else
  (* Create a render target view *)
  let pBackBuffer := nullptr in
  pSwapChain <- member m_pSwapChain ;;
  '(hr, pBackBuffer) <- GetBuffer pSwapChain 0 IID_ID3D11Texture2D ;;
  if FAILED hr then ret hr else
  pDevice <- member m_pDevice ;;
  '(hr, pRenderTargetView) <- CreateRenderTargetView pDevice pBackBuffer ;;
  assign (set_m_pRenderTargetView pRenderTargetView) ;;
  Release pBackBuffer ;;
  if FAILED hr then ret hr else
  pImmediateContext <- member m_pImmediateContext ;;
  pRenderTargetView <- member m_pRenderTargetView ;;
  OMSetRenderTargets pImmediateContext [pRenderTargetView] nullptr ;;
  (* Setup the viewport *)
  let vp := viewport width height in
  pImmediateContext <- member m_pImmediateContext ;;
  RSSetViewports pImmediateContext [vp] ;;
  ret S_OK.

Definition InitDevice : M HRESULT :=
  let hr := S_OK in
  hWnd <- member m_hWnd ;;
  rc <- GetClientRect hWnd ;;
  let width := to_UINT (rc_right rc - rc_left rc) in
  let height := to_UINT (rc_bottom rc - rc_top rc) in
  hr <- create_device_loop driverTypes hr ;;
  if FAILED hr then ret hr else
  init_with_device width height.

(** *** Renderer::Render *)

Definition Render : M unit :=
  (* Just clear the backbuffer *)
  pImmediateContext <- member m_pImmediateContext ;;
  pRenderTargetView <- member m_pRenderTargetView ;;
  ClearRenderTargetView pImmediateContext pRenderTargetView MidnightBlue ;;
  pSwapChain <- member m_pSwapChain ;;
  Present pSwapChain 0 0 ;;
  ret tt.

(** *** Renderer::CleanupDevice *)

(** [if (p) { p->Release(); }] *)
Definition release_if_set (f : Renderer -> ptr) : M unit :=
  p <- member f ;;
  if negb (is_null p) then Release p else ret tt.

Definition CleanupDevice : M unit :=
  pImmediateContext <- member m_pImmediateContext ;;
  (if negb (is_null pImmediateContext) then ClearState pImmediateContext
   else ret tt) ;;
  release_if_set m_pRenderTargetView ;;
  release_if_set m_pSwapChain ;;
  release_if_set m_pSwapChain1 ;;
  release_if_set m_pImmediateContext ;;
  release_if_set m_pImmediateContext1 ;;
  release_if_set m_pDevice ;;
  release_if_set m_pDevice1.

End Program.

(** ** Observations on a log *)

Definition is_create (e : Event) : bool :=
  match e with EvD3D11CreateDevice _ _ _ _ _ _ _ _ => true | _ => false end.

Definition is_client_rect (e : Event) : bool :=
  match e with EvGetClientRect _ _ => true | _ => false end.

Definition is_swap_chain_creation (e : Event) : bool :=
  match e with
  | EvCreateSwapChainForHwnd _ _ _ _ _ _ => true
  | EvCreateSwapChain _ _ _ _ _ => true
  | _ => false
  end.

(** The first call of a log that satisfies [f], with the calls after it. *)
Fixpoint find_call (f : Event -> bool) (evs : list Event)
    : option (Event * list Event) :=
  match evs with
  | [] => None
  | e :: evs' => if f e then Some (e, evs') else find_call f evs'
  end.

Definition IID_eqb (a b : IID) : bool :=
  match a, b with
  | IID_IDXGIDevice, IID_IDXGIDevice => true
  | IID_IDXGIFactory1, IID_IDXGIFactory1 => true
  | IID_IDXGIFactory2, IID_IDXGIFactory2 => true
  | IID_ID3D11Device1, IID_ID3D11Device1 => true
  | IID_ID3D11DeviceContext1, IID_ID3D11DeviceContext1 => true
  | IID_IDXGISwapChain, IID_IDXGISwapChain => true
  | IID_ID3D11Texture2D, IID_ID3D11Texture2D => true
  | _, _ => false
  end.

Definition is_query (iid : IID) (e : Event) : bool :=
  match e with EvQueryInterface _ riid _ _ => IID_eqb riid iid | _ => false end.

Definition is_window_association (e : Event) : bool :=
  match e with EvMakeWindowAssociation _ _ _ _ => true | _ => false end.

(** What the calls of a log yield under a partial observation [f]. *)
Definition collect {A} (f : Event -> option A) (evs : list Event) : list A :=
  flat_map (fun e => match f e with Some a => [a] | None => [] end) evs.

(** The device-creation attempts of a log: driver type and HRESULT. *)
Definition creation_of (e : Event) : option (D3D_DRIVER_TYPE * HRESULT) :=
  match e with
  | EvD3D11CreateDevice d _ _ _ hr _ _ _ => Some (d, hr)
  | _ => None
  end.

Definition creations : list Event -> list (D3D_DRIVER_TYPE * HRESULT) :=
  collect creation_of.

(** The driver types of successive attempts follow the array: each
    element visited gets one call or two (the retry), and the visit may
    stop anywhere. *)
Inductive attempts_follow : list D3D_DRIVER_TYPE -> list D3D_DRIVER_TYPE -> Prop :=
| follow_stop types : attempts_follow types []
| follow_once d types ds :
    attempts_follow types ds -> attempts_follow (d :: types) (d :: ds)
| follow_retry d types ds :
    attempts_follow types ds -> attempts_follow (d :: types) (d :: d :: ds).

(** The viewports bound by a log: context and array passed. *)
Definition viewport_of (e : Event) : option (ptr * list D3D11_VIEWPORT) :=
  match e with
  | EvRSSetViewports ctx vps => Some (ctx, vps)
  | _ => None
  end.

Definition viewport_calls : list Event -> list (ptr * list D3D11_VIEWPORT) :=
  collect viewport_of.

(** The sizes of the swap chains requested by a log, on either path. *)
Definition swap_chain_size_of (e : Event) : option (Z * Z) :=
  match e with
  | EvCreateSwapChainForHwnd _ _ _ sd _ _ => Some (sd1_Width sd, sd1_Height sd)
  | EvCreateSwapChain _ _ sd _ _ =>
      Some (md_Width (sd_BufferDesc sd), md_Height (sd_BufferDesc sd))
  | _ => None
  end.

Definition swap_chain_sizes : list Event -> list (Z * Z) :=
  collect swap_chain_size_of.

(** The client rectangles read by a log. *)
Definition client_rect_of (e : Event) : option RECT :=
  match e with
  | EvGetClientRect _ rc => Some rc
  | _ => None
  end.

Definition client_rects : list Event -> list RECT := collect client_rect_of.

(** The HRESULT of a call whose result InitDevice tests once the
    swap-chain stage has been entered. *)
Definition checked_hr (e : Event) : option HRESULT :=
  match e with
  | EvCreateSwapChainForHwnd _ _ _ _ hr _ => Some hr
  | EvCreateSwapChain _ _ _ hr _ => Some hr
  | EvQueryInterface _ IID_IDXGISwapChain hr _ => Some hr
  | EvGetBuffer _ _ _ hr _ => Some hr
  | EvCreateRenderTargetView _ _ hr _ => Some hr
  | _ => None
  end.

(** The HRESULT of the last tested call of a log. *)
Definition last_checked (evs : list Event) : option HRESULT :=
  last (map Some (collect checked_hr evs)) None.

(** COM reference accounting: a non-null pointer stored through an
    out-parameter hands one reference to the caller, [Release] gives one
    back. *)
Definition hands_out (p : ptr) (q : ptr) : nat :=
  if negb (is_null p) && (p =? q) then 1%nat else 0%nat.

Definition acquired_by (p : ptr) (e : Event) : nat :=
  match e with
  | EvD3D11CreateDevice _ _ _ _ _ dev _ ctx => (hands_out p dev + hands_out p ctx)%nat
  | EvQueryInterface _ _ _ q => hands_out p q
  | EvGetAdapter _ _ q => hands_out p q
  | EvGetParent _ _ _ q => hands_out p q
  | EvCreateSwapChainForHwnd _ _ _ _ _ q => hands_out p q
  | EvCreateSwapChain _ _ _ _ q => hands_out p q
  | EvGetBuffer _ _ _ _ q => hands_out p q
  | EvCreateRenderTargetView _ _ _ q => hands_out p q
  | _ => 0%nat
  end.

Definition released_by (p : ptr) (e : Event) : nat :=
  match e with
  | EvRelease q => if p =? q then 1%nat else 0%nat
  | _ => 0%nat
  end.

Definition acquired (p : ptr) (evs : list Event) : nat :=
  list_sum (map (acquired_by p) evs).

Definition released (p : ptr) (evs : list Event) : nat :=
  list_sum (map (released_by p) evs).

(** What one CleanupDevice asks of the platform for a given object:
    ClearState on the context, then one Release per handle that is set,
    in the order of the source. *)
Definition set_handles (l : list ptr) : list ptr :=
  filter (fun p => negb (is_null p)) l.

Definition cleanup_calls (r : Renderer) : list Event :=
  map EvClearState (set_handles [m_pImmediateContext r]) ++
  map EvRelease
    (set_handles
       [ m_pRenderTargetView r; m_pSwapChain r; m_pSwapChain1 r;
         m_pImmediateContext r; m_pImmediateContext1 r;
         m_pDevice r; m_pDevice1 r ]).

(** The platform stores a non-null view whenever CreateRenderTargetView
    succeeds (the COM rule for out-parameters). *)
Definition creates_view (P : Platform) : Prop :=
  forall l this pResource,
    0 <= fst (p_CreateRenderTargetView P l this pResource) ->
    snd (p_CreateRenderTargetView P l this pResource) <> nullptr.

(** The sizes of the viewports bound by a log. *)
Definition viewport_sizes (evs : list Event) : list (FLOAT * FLOAT) :=
  flat_map (fun c => map (fun vp => (Width vp, Height vp)) (snd c))
    (viewport_calls evs).

Definition is_get_parent (e : Event) : bool :=
  match e with EvGetParent _ _ _ _ => true | _ => false end.

(** The handles a log releases, and those among them it releases more
    often than it acquired them. *)
Definition release_of (e : Event) : option ptr :=
  match e with EvRelease p => Some p | _ => None end.

Definition released_handles (evs : list Event) : list ptr :=
  nodup Z.eq_dec (collect release_of evs).

Definition over_released (evs : list Event) : list ptr :=
  filter (fun p => (acquired p evs <? released p evs)%nat) (released_handles evs).

(** ** A concrete host, for running the program *)

Definition E_NOINTERFACE : HRESULT := -2147467262.  (* 0x80004002 *)

Definition h_device : ptr := 16.
Definition h_device1 : ptr := 17.
Definition h_context : ptr := 32.
Definition h_context1 : ptr := 33.
Definition h_dxgiDevice : ptr := 48.
Definition h_adapter : ptr := 64.
Definition h_factory : ptr := 80.
Definition h_factory2 : ptr := 81.
Definition h_swapChain : ptr := 96.
Definition h_swapChain1 : ptr := 97.
Definition h_backBuffer : ptr := 112.
Definition h_renderTargetView : ptr := 128.

(** What a host answers to [QueryInterface], per interface. *)
Definition query_dxgi12 (riid : IID) : HRESULT * ptr :=
  match riid with
  | IID_IDXGIDevice => (S_OK, h_dxgiDevice)
  | IID_IDXGIFactory1 => (S_OK, h_factory)
  | IID_IDXGIFactory2 => (S_OK, h_factory2)
  | IID_ID3D11Device1 => (S_OK, h_device1)
  | IID_ID3D11DeviceContext1 => (S_OK, h_context1)
  | IID_IDXGISwapChain => (S_OK, h_swapChain)
  | IID_ID3D11Texture2D => (E_NOINTERFACE, nullptr)
  end.

Definition query_dxgi11 (riid : IID) : HRESULT * ptr :=
  match riid with
  | IID_IDXGIDevice => (S_OK, h_dxgiDevice)
  | IID_IDXGIFactory1 => (S_OK, h_factory)
  | _ => (E_NOINTERFACE, nullptr)
  end.

(** A host whose answers do not depend on the history: [create] decides
    device creation per driver type and feature-level list, [query] the
    interface queries; every other call succeeds. *)
Definition host (rc : RECT)
    (create : D3D_DRIVER_TYPE -> list D3D_FEATURE_LEVEL -> HRESULT)
    (query : IID -> HRESULT * ptr) : Platform :=
  {| p_GetClientRect := fun _ _ => rc;
     p_D3D11CreateDevice := fun _ drv _ lv _ =>
       let hr := create drv lv in
       if SUCCEEDED hr then (hr, h_device, hd D3D_FEATURE_LEVEL_9_1 lv, h_context)
       else (hr, nullptr, D3D_FEATURE_LEVEL_9_1, nullptr);
     p_QueryInterface := fun _ _ riid => query riid;
     p_GetAdapter := fun _ _ => (S_OK, h_adapter);
     p_GetParent := fun _ _ _ => (S_OK, h_factory);
     p_CreateSwapChainForHwnd := fun _ _ _ _ _ => (S_OK, h_swapChain1);
     p_CreateSwapChain := fun _ _ _ _ => (S_OK, h_swapChain);
     p_MakeWindowAssociation := fun _ _ _ _ => S_OK;
     p_GetBuffer := fun _ _ _ _ => (S_OK, h_backBuffer);
     p_CreateRenderTargetView := fun _ _ _ => (S_OK, h_renderTargetView);
     p_Present := fun _ _ _ _ => S_OK |}.

Definition rc_1280x720 : RECT := mkRECT 0 0 1280 720.

Definition create_any (_ : D3D_DRIVER_TYPE) (_ : list D3D_FEATURE_LEVEL) : HRESULT := S_OK.

(** A DirectX 11.0 runtime: the list that starts with 11_1 is rejected. *)
Definition create_dx11_0 (_ : D3D_DRIVER_TYPE) (lv : list D3D_FEATURE_LEVEL) : HRESULT :=
  match lv with
  | D3D_FEATURE_LEVEL_11_1 :: _ => E_INVALIDARG
  | _ => S_OK
  end.

(** No hardware device, WARP available. *)
Definition create_warp_only (drv : D3D_DRIVER_TYPE) (_ : list D3D_FEATURE_LEVEL) : HRESULT :=
  match drv with
  | D3D_DRIVER_TYPE_WARP => S_OK
  | _ => E_FAIL
  end.

Definition create_none (_ : D3D_DRIVER_TYPE) (_ : list D3D_FEATURE_LEVEL) : HRESULT := E_FAIL.

(** A freshly constructed Renderer whose window has been created. *)
Definition h_window : HWND := 4096.
Definition fresh_renderer : Renderer :=
  mkRenderer h_window D3D_DRIVER_TYPE_NULL D3D_FEATURE_LEVEL_11_0
    nullptr nullptr nullptr nullptr nullptr nullptr nullptr.
Definition fresh : State := mkState fresh_renderer [].

Definition host_dx11_0 : Platform := host rc_1280x720 create_dx11_0 query_dxgi11.

Definition host_dxgi12 : Platform := host rc_1280x720 create_any query_dxgi12.

(** A DXGI 1.2 host whose device does not offer the extended interface. *)
Definition query_dxgi12_no_v1 (riid : IID) : HRESULT * ptr :=
  match riid with
  | IID_ID3D11Device1 => (E_NOINTERFACE, nullptr)
  | IID_ID3D11DeviceContext1 => (E_NOINTERFACE, nullptr)
  | _ => query_dxgi12 riid
  end.

Definition host_no_v1 : Platform := host rc_1280x720 create_any query_dxgi12_no_v1.

(** A DirectX 11.0 host on which the legacy swap-chain creation fails. *)
Definition host_no_swap_chain : Platform :=
  {| p_GetClientRect := p_GetClientRect host_dx11_0;
     p_D3D11CreateDevice := p_D3D11CreateDevice host_dx11_0;
     p_QueryInterface := p_QueryInterface host_dx11_0;
     p_GetAdapter := p_GetAdapter host_dx11_0;
     p_GetParent := p_GetParent host_dx11_0;
     p_CreateSwapChainForHwnd := p_CreateSwapChainForHwnd host_dx11_0;
     p_CreateSwapChain := fun _ _ _ _ => (E_FAIL, nullptr);
     p_MakeWindowAssociation := p_MakeWindowAssociation host_dx11_0;
     p_GetBuffer := p_GetBuffer host_dx11_0;
     p_CreateRenderTargetView := p_CreateRenderTargetView host_dx11_0;
     p_Present := p_Present host_dx11_0 |}.

(** The Renderer after a successful InitDevice on the DXGI 1.2 host. *)
Definition initialized : State := final (InitDevice false host_dxgi12 fresh).

(** ** The device-creation loop as a relation on its calls *)

(** What one D3D11CreateDevice call leaves in the object: the loop has
    selected the driver type and the callee has stored the three
    out-parameters. *)
Definition apply_create (r : Renderer) (e : Event) : Renderer :=
  match e with
  | EvD3D11CreateDevice d _ _ _ _ dev fl ctx =>
      set_m_pImmediateContext ctx
        (set_m_featureLevel fl (set_m_pDevice dev (set_m_driverType d r)))
  | _ => r
  end.

(** [loop_run flags types evs hr0 hr]: visiting [types] with [hr0] in the
    local [hr], the loop makes the calls [evs] and leaves [hr]. *)
Inductive loop_run (flags : Z) :
    list D3D_DRIVER_TYPE -> list Event -> HRESULT -> HRESULT -> Prop :=
| run_exhausted hr : loop_run flags [] [] hr hr
| run_created d rest hr0 hr1 dev fl ctx :
    hr1 <> E_INVALIDARG -> 0 <= hr1 ->
    loop_run flags (d :: rest)
      [EvD3D11CreateDevice d flags featureLevels D3D11_SDK_VERSION hr1 dev fl ctx]
      hr0 hr1
| run_next d rest hr0 hr1 dev fl ctx evs hr :
    hr1 <> E_INVALIDARG -> hr1 < 0 ->
    loop_run flags rest evs hr1 hr ->
    loop_run flags (d :: rest)
      (EvD3D11CreateDevice d flags featureLevels D3D11_SDK_VERSION hr1 dev fl ctx
         :: evs)
      hr0 hr
| run_retry_created d rest hr0 dev fl ctx hr2 dev2 fl2 ctx2 :
    0 <= hr2 ->
    loop_run flags (d :: rest)
      [EvD3D11CreateDevice d flags featureLevels D3D11_SDK_VERSION
         E_INVALIDARG dev fl ctx;
       EvD3D11CreateDevice d flags (tl featureLevels) D3D11_SDK_VERSION
         hr2 dev2 fl2 ctx2]
      hr0 hr2
| run_retry_next d rest hr0 dev fl ctx hr2 dev2 fl2 ctx2 evs hr :
    hr2 < 0 ->
    loop_run flags rest evs hr2 hr ->
    loop_run flags (d :: rest)
      (EvD3D11CreateDevice d flags featureLevels D3D11_SDK_VERSION
         E_INVALIDARG dev fl ctx
         :: EvD3D11CreateDevice d flags (tl featureLevels) D3D11_SDK_VERSION
              hr2 dev2 fl2 ctx2
         :: evs)
      hr0 hr.

(** ** Further observations on a log *)

(** The HRESULT of a call that InitDevice tests after the device has been
    created: the three steps to the factory, swap-chain creation and its
    adaptation, the back buffer and the view. *)
Definition stage_hr (e : Event) : option HRESULT :=
  match e with
  | EvQueryInterface _ IID_IDXGIDevice hr _ => Some hr
  | EvQueryInterface _ IID_IDXGISwapChain hr _ => Some hr
  | EvGetAdapter _ hr _ => Some hr
  | EvGetParent _ _ hr _ => Some hr
  | EvCreateSwapChainForHwnd _ _ _ _ hr _ => Some hr
  | EvCreateSwapChain _ _ _ hr _ => Some hr
  | EvGetBuffer _ _ _ hr _ => Some hr
  | EvCreateRenderTargetView _ _ hr _ => Some hr
  | _ => None
  end.

(** The HRESULT of any call whose result InitDevice tests. *)
Definition tested_hr (e : Event) : option HRESULT :=
  match e with
  | EvD3D11CreateDevice _ _ _ _ hr _ _ _ => Some hr
  | _ => stage_hr e
  end.

Definition last_tested (evs : list Event) : option HRESULT :=
  last (map Some (collect tested_hr evs)) None.

(** One reference on [q] seen from handle [p]: 1 when they are the same
    pointer, else 0. *)
Definition same (p q : ptr) : nat := if p =? q then 1%nat else 0%nat.

(** The platform stores null through an out-parameter whenever the call
    fails (the COM rule for out-parameters). *)
Definition stores_null_on_failure (P : Platform) : Prop :=
  (forall l d f lv sdk,
     fst (fst (fst (p_D3D11CreateDevice P l d f lv sdk))) < 0 ->
     snd (fst (fst (p_D3D11CreateDevice P l d f lv sdk))) = nullptr /\
     snd (p_D3D11CreateDevice P l d f lv sdk) = nullptr) /\
  (forall l this riid,
     fst (p_QueryInterface P l this riid) < 0 ->
     snd (p_QueryInterface P l this riid) = nullptr) /\
  (forall l this,
     fst (p_GetAdapter P l this) < 0 -> snd (p_GetAdapter P l this) = nullptr) /\
  (forall l this riid,
     fst (p_GetParent P l this riid) < 0 ->
     snd (p_GetParent P l this riid) = nullptr) /\
  (forall l this dev hWnd sd,
     fst (p_CreateSwapChainForHwnd P l this dev hWnd sd) < 0 ->
     snd (p_CreateSwapChainForHwnd P l this dev hWnd sd) = nullptr) /\
  (forall l this dev sd,
     fst (p_CreateSwapChain P l this dev sd) < 0 ->
     snd (p_CreateSwapChain P l this dev sd) = nullptr) /\
  (forall l this n riid,
     fst (p_GetBuffer P l this n riid) < 0 ->
     snd (p_GetBuffer P l this n riid) = nullptr) /\
  (forall l this res,
     fst (p_CreateRenderTargetView P l this res) < 0 ->
     snd (p_CreateRenderTargetView P l this res) = nullptr).

(** A Renderer that holds no interface pointer yet. *)
Definition no_handles (r : Renderer) : Prop :=
  m_pDevice r = nullptr /\ m_pDevice1 r = nullptr /\
  m_pImmediateContext r = nullptr /\ m_pImmediateContext1 r = nullptr /\
  m_pSwapChain r = nullptr /\ m_pSwapChain1 r = nullptr /\
  m_pRenderTargetView r = nullptr.

(** The references the handles of a Renderer stand for. *)
Definition held (p : ptr) (r : Renderer) : nat :=
  list_sum
    (map (hands_out p)
       [ m_pRenderTargetView r; m_pSwapChain r; m_pSwapChain1 r;
         m_pImmediateContext r; m_pImmediateContext1 r;
         m_pDevice r; m_pDevice1 r ]).

Definition is_get_buffer (e : Event) : bool :=
  match e with EvGetBuffer _ _ _ _ _ => true | _ => false end.

(** The window a call is made for, when it takes one. *)
Definition window_of (e : Event) : option HWND :=
  match e with
  | EvGetClientRect hWnd _ => Some hWnd
  | EvCreateSwapChainForHwnd _ _ hWnd _ _ _ => Some hWnd
  | EvCreateSwapChain _ _ sd _ _ => Some (sd_OutputWindow sd)
  | EvMakeWindowAssociation _ hWnd _ _ => Some hWnd
  | _ => None
  end.

(** ** Window creation and the window procedure *)

(** Constants of winuser.h. *)
Definition FALSE : Z := 0.
Definition CS_VREDRAW : Z := 1.
Definition CS_HREDRAW : Z := 2.
Definition IDI_APPLICATION : Z := 32512.
Definition IDC_ARROW : Z := 32512.
Definition COLOR_WINDOW : Z := 5.
Definition WS_OVERLAPPED : Z := 0.
Definition WS_CAPTION : Z := 12582912.        (* 0x00C00000 *)
Definition WS_SYSMENU : Z := 524288.          (* 0x00080000 *)
Definition WS_THICKFRAME : Z := 262144.       (* 0x00040000 *)
Definition WS_MINIMIZEBOX : Z := 131072.      (* 0x00020000 *)
Definition WS_MAXIMIZEBOX : Z := 65536.       (* 0x00010000 *)
Definition WS_OVERLAPPEDWINDOW : Z :=
  Z.lor WS_OVERLAPPED
    (Z.lor WS_CAPTION
       (Z.lor WS_SYSMENU
          (Z.lor WS_THICKFRAME (Z.lor WS_MINIMIZEBOX WS_MAXIMIZEBOX)))).
Definition CW_USEDEFAULT : Z := -2147483648.  (* (int)0x80000000 *)
Definition WM_DESTROY : Z := 2.
Definition WM_PAINT : Z := 15.

(** [a - b] on LONG operands passed as an int: the difference reduced to
    the signed 32-bit range. *)
Definition to_int (x : Z) : Z := (x + 2 ^ 31) mod 2 ^ 32 - 2 ^ 31.

Arguments to_int : simpl never.

(** The window procedure a class names. *)
Inductive WNDPROC :=
| WNDPROC_null
| WNDPROC_WndProc.   (* Renderer::WndProc *)

Record WNDCLASSEX := mkWNDCLASSEX {
  cbSize : Z;
  style : Z;
  lpfnWndProc : WNDPROC;
  cbClsExtra : Z;
  cbWndExtra : Z;
  hInstance : Z;
  hIcon : Z;
  hCursor : Z;
  hbrBackground : Z;
  lpszMenuName : option string;
  lpszClassName : string;
  hIconSm : Z
}.

(** One call to the windowing system: arguments and what came back. *)
Inductive WinEvent :=
| WLoadIcon (hInst : Z) (lpIconName : Z) (icon : Z)
| WLoadCursor (hInst : Z) (lpCursorName : Z) (cursor : Z)
| WRegisterClassEx (wcex : WNDCLASSEX) (atom : Z)
| WAdjustWindowRect (rc : RECT) (dwStyle : Z) (bMenu : Z) (adjusted : RECT)
| WCreateWindow (lpClassName lpWindowName : string) (dwStyle : Z)
    (x y nWidth nHeight : Z) (hWndParent hMenu hInst lpParam : Z) (hWnd : HWND)
| WShowWindow (hWnd : HWND) (nCmdShow : Z)
| WBeginPaint (hWnd : HWND) (ps : Z) (hdc : Z)
| WEndPaint (hWnd : HWND) (ps : Z)
| WPostQuitMessage (nExitCode : Z)
| WDefWindowProc (hWnd : HWND) (Msg wParam lParam : Z) (result : Z).

(** The windowing system, answering from the calls made so far. *)
Record Win32 := mkWin32 {
  w_LoadIcon : list WinEvent -> Z -> Z -> Z;
  w_LoadCursor : list WinEvent -> Z -> Z -> Z;
  w_RegisterClassEx : list WinEvent -> WNDCLASSEX -> Z;
  w_AdjustWindowRect : list WinEvent -> RECT -> Z -> Z -> RECT;
  w_CreateWindow :
    list WinEvent -> string -> string -> Z -> Z -> Z -> Z -> Z ->
    Z -> Z -> Z -> Z -> HWND;
  w_BeginPaint : list WinEvent -> HWND -> Z * Z;
  w_DefWindowProc : list WinEvent -> HWND -> Z -> Z -> Z -> Z
}.

(** The Renderer object together with the member only InitWindow uses,
    and the log of the calls to the windowing system. *)
Record WState := mkWState {
  m_hInstance : Z;
  object : Renderer;
  wlog : list WinEvent
}.

Definition set_m_hWnd (v : HWND) (r : Renderer) : Renderer :=
  mkRenderer v (m_driverType r) (m_featureLevel r) (m_pDevice r) (m_pDevice1 r)
    (m_pImmediateContext r) (m_pImmediateContext1 r) (m_pSwapChain r)
    (m_pSwapChain1 r) (m_pRenderTargetView r).

Definition wemit (e : WinEvent) (s : WState) : WState :=
  mkWState (m_hInstance s) (object s) (wlog s ++ [e]).

Section Window.

(** [sizeof(WNDCLASSEX)] of the target and the windowing system. *)
Variable sizeof_WNDCLASSEX : Z.
Variable W : Win32.

(** *** Renderer::InitWindow *)

Definition InitWindow (hInst : Z) (nCmdShow : Z) (s : WState)
    : HRESULT * WState :=
  (* Register class *)
  let icon := w_LoadIcon W (wlog s) hInst IDI_APPLICATION in
  let s := wemit (WLoadIcon hInst IDI_APPLICATION icon) s in
  let cursor := w_LoadCursor W (wlog s) 0 IDC_ARROW in
  let s := wemit (WLoadCursor 0 IDC_ARROW cursor) s in
  let iconSm := w_LoadIcon W (wlog s) hInst IDI_APPLICATION in
  let s := wemit (WLoadIcon hInst IDI_APPLICATION iconSm) s in
  let wcex :=
    {| cbSize := sizeof_WNDCLASSEX;
       style := Z.lor CS_HREDRAW CS_VREDRAW;
       lpfnWndProc := WNDPROC_WndProc;
       cbClsExtra := 0;
       cbWndExtra := 0;
       hInstance := hInst;
       hIcon := icon;
       hCursor := cursor;
       hbrBackground := COLOR_WINDOW + 1;
       lpszMenuName := None;
       lpszClassName := "DoomNETWindowClass"%string;
       hIconSm := iconSm |} in
  let atom := w_RegisterClassEx W (wlog s) wcex in
  let s := wemit (WRegisterClassEx wcex atom) s in
  if atom =? 0 then (E_FAIL, s)
  else
    (* Create window *)
    let s := mkWState hInst (object s) (wlog s) in
    let rc := mkRECT 0 0 1280 720 in
    let adjusted := w_AdjustWindowRect W (wlog s) rc WS_OVERLAPPEDWINDOW FALSE in
    let s := wemit (WAdjustWindowRect rc WS_OVERLAPPEDWINDOW FALSE adjusted) s in
    let rc := adjusted in
    let dwStyle :=
      Z.lor (Z.lor (Z.lor WS_OVERLAPPED WS_CAPTION) WS_SYSMENU) WS_MINIMIZEBOX in
    let nWidth := to_int (rc_right rc - rc_left rc) in
    let nHeight := to_int (rc_bottom rc - rc_top rc) in
    let hWnd :=
      w_CreateWindow W (wlog s) "DoomNETWindowClass"%string "Doom.NET"%string
        dwStyle CW_USEDEFAULT CW_USEDEFAULT nWidth nHeight 0 0 hInst 0 in
    let s :=
      wemit (WCreateWindow "DoomNETWindowClass"%string "Doom.NET"%string
               dwStyle CW_USEDEFAULT CW_USEDEFAULT nWidth nHeight 0 0 hInst 0
               hWnd) s in
    let s := mkWState (m_hInstance s) (set_m_hWnd hWnd (object s)) (wlog s) in
    if hWnd =? 0 then (E_FAIL, s)
    else
      let s := wemit (WShowWindow (m_hWnd (object s)) nCmdShow) s in
      (S_OK, s).

(** *** Renderer::WndProc *)

Definition WndProc (hWnd : HWND) (message wParam lParam : Z)
    (l : list WinEvent) : Z * list WinEvent :=
  if message =? WM_PAINT then
    let '(ps, hdc) := w_BeginPaint W l hWnd in
    (0, l ++ [WBeginPaint hWnd ps hdc; WEndPaint hWnd ps])
  else if message =? WM_DESTROY then
    (0, l ++ [WPostQuitMessage 0])
  else
    let result := w_DefWindowProc W l hWnd message wParam lParam in
    (result, l ++ [WDefWindowProc hWnd message wParam lParam result]).

End Window.

(** Observations on the calls to the windowing system. *)
Definition is_post_quit (e : WinEvent) : bool :=
  match e with WPostQuitMessage _ => true | _ => false end.

Definition is_def_window_proc (e : WinEvent) : bool :=
  match e with WDefWindowProc _ _ _ _ _ => true | _ => false end.

Definition is_create_window (e : WinEvent) : bool :=
  match e with WCreateWindow _ _ _ _ _ _ _ _ _ _ _ _ => true | _ => false end.

Definition is_show_window (e : WinEvent) : bool :=
  match e with WShowWindow _ _ => true | _ => false end.

(** A windowing system on which everything succeeds. *)
Definition win32_ok : Win32 :=
  {| w_LoadIcon := fun _ _ _ => 7;
     w_LoadCursor := fun _ _ _ => 9;
     w_RegisterClassEx := fun _ _ => 49152;
     w_AdjustWindowRect := fun _ rc _ _ =>
       mkRECT (rc_left rc - 8) (rc_top rc - 31) (rc_right rc + 8) (rc_bottom rc + 8);
     w_CreateWindow := fun _ _ _ _ _ _ _ _ _ _ _ _ => h_window;
     w_BeginPaint := fun _ _ => (1, 2);
     w_DefWindowProc := fun _ _ _ _ _ => 0 |}.

(** Windowing systems that refuse the class, or the window. *)
Definition win32_no_class : Win32 :=
  {| w_LoadIcon := w_LoadIcon win32_ok;
     w_LoadCursor := w_LoadCursor win32_ok;
     w_RegisterClassEx := fun _ _ => 0;
     w_AdjustWindowRect := w_AdjustWindowRect win32_ok;
     w_CreateWindow := w_CreateWindow win32_ok;
     w_BeginPaint := w_BeginPaint win32_ok;
     w_DefWindowProc := w_DefWindowProc win32_ok |}.

Definition win32_no_window : Win32 :=
  {| w_LoadIcon := w_LoadIcon win32_ok;
     w_LoadCursor := w_LoadCursor win32_ok;
     w_RegisterClassEx := w_RegisterClassEx win32_ok;
     w_AdjustWindowRect := w_AdjustWindowRect win32_ok;
     w_CreateWindow := fun _ _ _ _ _ _ _ _ _ _ _ _ => nullptr;
     w_BeginPaint := w_BeginPaint win32_ok;
     w_DefWindowProc := w_DefWindowProc win32_ok |}.

(** The class InitWindow registers on [win32_ok] for instance 1 with a
    WNDCLASSEX of 80 bytes. *)
Definition the_class : WNDCLASSEX :=
  {| cbSize := 80; style := 3; lpfnWndProc := WNDPROC_WndProc;
     cbClsExtra := 0; cbWndExtra := 0; hInstance := 1; hIcon := 7;
     hCursor := 9; hbrBackground := 6; lpszMenuName := None;
     lpszClassName := "DoomNETWindowClass"%string; hIconSm := 7 |}.

(** A freshly constructed object before any window exists. *)
Definition unborn : WState :=
  mkWState 0 (set_m_hWnd 0 fresh_renderer) [].

(** ** Symbolic execution *)

Ltac run_unfold :=
  cbv beta iota zeta delta
    [InitDevice init_with_device obtain_factory create_swap_chain Render
     CleanupDevice release_if_set
     GetClientRect D3D11CreateDevice QueryInterface GetAdapter GetParent
     Release CreateSwapChainForHwnd CreateSwapChain MakeWindowAssociation
     GetBuffer CreateRenderTargetView OMSetRenderTargets RSSetViewports
     ClearRenderTargetView Present ClearState
     bind ret member assign deref emit FAILED SUCCEEDED negb
     final returned renderer log
     m_hWnd m_driverType m_featureLevel m_pDevice m_pDevice1
     m_pImmediateContext m_pImmediateContext1 m_pSwapChain m_pSwapChain1
     m_pRenderTargetView
     set_m_driverType set_m_featureLevel set_m_pDevice set_m_pDevice1
     set_m_pImmediateContext set_m_pImmediateContext1 set_m_pSwapChain
     set_m_pSwapChain1 set_m_pRenderTargetView].

Ltac run_step :=
  match goal with
  | H : ?x = _ |- context [match ?x with _ => _ end] => rewrite H
  | |- context [match ?x with _ => _ end] =>
      lazymatch x with
      | context [match _ with _ => _ end] => fail
      | _ => destruct x eqn:?
      end
  end.

Ltac run := run_unfold; repeat (run_step; run_unfold).

Ltac zlia := unfold E_INVALIDARG, S_OK, nullptr in *; lia.
Ltac absurd_hr := exfalso; zlia.

Ltac log_eq := first [reflexivity | symmetry; apply app_nil_r].

Ltac norm_log := repeat rewrite <- app_assoc; cbn [app].

(** ** Renderer::Render *)

(** C7.  With a context and a swap chain in place, one Render makes
    exactly two calls, in this order: ClearRenderTargetView on the
    immediate context for the render target view with the constant
    MidnightBlue, then Present on the swap chain with sync interval 0 and
    flags 0.  It returns no value and leaves the object as it was,
    whatever HRESULT Present answered. *)
Theorem Render_clear_then_present P s :
  m_pImmediateContext (renderer s) <> nullptr ->
  m_pSwapChain (renderer s) <> nullptr ->
  let r := renderer s in
  let clear :=
    EvClearRenderTargetView (m_pImmediateContext r) (m_pRenderTargetView r)
      MidnightBlue in
  Render P s =
  Done tt
    (mkState r
       (log s ++
        [clear;
         EvPresent (m_pSwapChain r) 0 0
           (p_Present P (log s ++ [clear]) (m_pSwapChain r) 0 0)])).
Proof.
  destruct s as [r l].
  destruct r as [hWnd0 drv0 lvl0 dev0 dev1_0 ctx0 ctx1_0 sc0 sc1_0 rtv0].
  cbn [renderer log m_pImmediateContext m_pSwapChain m_pRenderTargetView].
  intros Hc Hs. apply Z.eqb_neq in Hc, Hs.
  fold (is_null ctx0) in Hc. fold (is_null sc0) in Hs.
  run. norm_log. reflexivity.
Qed.

Lemma Render_clear_then_present_witness :
  Render host_dxgi12 initialized =
  Done tt
    (mkState (renderer initialized)
       (log initialized ++
        [EvClearRenderTargetView (m_pImmediateContext (renderer initialized))
           (m_pRenderTargetView (renderer initialized)) MidnightBlue;
         EvPresent (m_pSwapChain (renderer initialized)) 0 0
           (p_Present host_dxgi12
              (log initialized ++
               [EvClearRenderTargetView
                  (m_pImmediateContext (renderer initialized))
                  (m_pRenderTargetView (renderer initialized)) MidnightBlue])
              (m_pSwapChain (renderer initialized)) 0 0)])).
Proof.
  apply (Render_clear_then_present host_dxgi12 initialized).
  - vm_compute. discriminate.
  - vm_compute. discriminate.
Defined.

(** ** Renderer::CleanupDevice *)

Lemma CleanupDevice_calls s :
  CleanupDevice s =
  Done tt (mkState (renderer s) (log s ++ cleanup_calls (renderer s))).
Proof.
  destruct s as [r l].
  destruct r as [hWnd0 drv0 lvl0 dev0 dev1_0 ctx0 ctx1_0 sc0 sc1_0 rtv0].
  unfold cleanup_calls, set_handles.
  cbn [renderer log filter map m_pDevice m_pDevice1 m_pImmediateContext
       m_pImmediateContext1 m_pSwapChain m_pSwapChain1 m_pRenderTargetView].
  run; norm_log; rewrite ?app_nil_r; reflexivity.
Qed.

(** C1, as the code has it.  One CleanupDevice never calls through a null
    handle and returns: it calls ClearState on the immediate context if
    that is set, then Release once on every handle that is set, in the
    order render target view, swap chain, swap chain 1, context,
    context 1, device, device 1, and skips the handles that are null.  It
    leaves every handle as it was, so a second CleanupDevice in a row
    makes the same calls again. *)
Theorem CleanupDevice_single_call s :
  CleanupDevice s =
    Done tt (mkState (renderer s) (log s ++ cleanup_calls (renderer s))) /\
  bind CleanupDevice (fun _ => CleanupDevice) s =
    Done tt
      (mkState (renderer s)
         (log s ++ cleanup_calls (renderer s) ++ cleanup_calls (renderer s))).
Proof.
  split; [apply CleanupDevice_calls|].
  unfold bind. rewrite CleanupDevice_calls, CleanupDevice_calls.
  cbn [renderer log]. rewrite <- app_assoc. reflexivity.
Qed.

(** C1 fails on two calls in a row: after InitDevice on the DXGI 1.2 host
    the first CleanupDevice gives back exactly the references held, and
    the second releases all seven handles once more; the device handle,
    acquired once, has then been released twice. *)
Lemma CleanupDevice_twice_over_releases :
  exists s1 s2,
    InitDevice false host_dxgi12 fresh = Done S_OK initialized /\
    CleanupDevice initialized = Done tt s1 /\
    CleanupDevice s1 = Done tt s2 /\
    over_released (log s1) = [] /\
    over_released (log s2) =
      [ h_renderTargetView; h_swapChain; h_swapChain1; h_context; h_context1;
        h_device; h_device1 ] /\
    acquired h_device (log s2) = 1%nat /\
    released h_device (log s2) = 2%nat.
Proof.
  eexists. eexists.
  split; [vm_compute; reflexivity|].
  split; [apply CleanupDevice_calls|].
  split; [apply CleanupDevice_calls|].
  vm_compute. repeat split.
Qed.

(** ** The device-creation loop *)

Lemma create_device_loop_run D P types : forall hr0 r l,
  exists evs hr,
    create_device_loop D P types hr0 (mkState r l) =
      Done hr (mkState (fold_left apply_create evs r) (l ++ evs)) /\
    loop_run (createDeviceFlags D) types evs hr0 hr.
Proof.
  induction types as [|d rest IH]; intros hr0 r l.
  - exists [], hr0. cbn. rewrite app_nil_r. split; [reflexivity | constructor].
  - destruct r. cbn [create_device_loop]. run;
      try match goal with
          | |- context [create_device_loop D P rest ?h (mkState ?r' ?l')] =>
              destruct (IH h r' l') as (evs & hr & -> & R)
          end;
      norm_log;
      match goal with
      | |- exists evs hr, Done ?h (mkState _ (l ++ ?ev)) = _ /\ _ => exists ev, h
      end;
      (split; [reflexivity|]).
    + apply Z.eqb_eq in Heqb. subst.
      apply run_retry_created. apply Z.leb_le; assumption.
    + apply Z.eqb_eq in Heqb. subst.
      apply run_retry_next; [apply Z.leb_gt; assumption | exact R].
    + apply Z.eqb_neq in Heqb.
      apply run_created; [assumption | apply Z.leb_le; assumption].
    + apply Z.eqb_neq in Heqb.
      apply run_next; [assumption | apply Z.leb_gt; assumption | exact R].
Qed.

Lemma loop_run_creates flags types evs hr0 hr :
  loop_run flags types evs hr0 hr -> Forall (fun e => is_create e = true) evs.
Proof. induction 1; repeat constructor; assumption. Qed.

Lemma loop_run_follow flags types evs hr0 hr :
  loop_run flags types evs hr0 hr ->
  attempts_follow types (map fst (creations evs)).
Proof.
  induction 1; cbn.
  - apply follow_stop.
  - apply follow_once, follow_stop.
  - apply follow_once; assumption.
  - apply follow_retry, follow_stop.
  - apply follow_retry; assumption.
Qed.

Lemma loop_run_success_last flags types evs hr0 hr :
  loop_run flags types evs hr0 hr ->
  forall pre d fl lv sdk h dev lvl ctx post,
    evs = pre ++ EvD3D11CreateDevice d fl lv sdk h dev lvl ctx :: post ->
    0 <= h -> post = [] /\ hr = h.
Proof.
  unfold E_INVALIDARG.
  induction 1; intros pre d' fl' lv sdk h dev' lvl ctx' post E Hh.
  - destruct pre; discriminate.
  - destruct pre as [|? [|? ?]]; inversion E; subst; auto.
  - destruct pre as [|? pre]; inversion E; subst; [absurd_hr | eauto].
  - destruct pre as [|? [|? [|? ?]]]; inversion E; subst; auto; absurd_hr.
  - destruct pre as [|? [|? pre]]; inversion E; subst;
      [absurd_hr | absurd_hr | eauto].
Qed.

Lemma loop_run_retry flags types evs hr0 hr :
  loop_run flags types evs hr0 hr ->
  forall pre d fl sdk dev lvl ctx post,
    evs = pre ++ EvD3D11CreateDevice d fl featureLevels sdk E_INVALIDARG dev lvl ctx
                   :: post ->
    exists hr2 dev2 lvl2 ctx2 post',
      post = EvD3D11CreateDevice d fl (tl featureLevels) sdk hr2 dev2 lvl2 ctx2
               :: post' /\
      (0 <= hr2 -> post' = [] /\ hr = hr2).
Proof.
  induction 1; intros pre d' fl' sdk dev' lvl ctx' post E.
  - destruct pre; discriminate.
  - destruct pre as [|? [|? ?]]; inversion E; subst; congruence.
  - destruct pre as [|? pre]; inversion E; subst; [congruence | eauto].
  - destruct pre as [|? [|? [|? ?]]]; inversion E; subst.
    do 5 eexists. split; [reflexivity | auto].
  - destruct pre as [|? [|? pre]]; inversion E; subst.
    + do 5 eexists. split; [reflexivity | intros; absurd_hr].
    + eauto.
Qed.

Lemma last_cons_default {A} (l : list A) : forall a d, last (a :: l) d = last l a.
Proof.
  induction l as [|b l IH]; intros a d; [reflexivity|].
  change (last (a :: b :: l) d) with (last (b :: l) d).
  rewrite !IH. reflexivity.
Qed.

Lemma loop_run_all_fail flags types evs hr0 hr :
  loop_run flags types evs hr0 hr ->
  (forall c, In c (creations evs) -> snd c < 0) ->
  hr = last (map snd (creations evs)) hr0 /\
  (forall d, In d types -> In d (map fst (creations evs))).
Proof.
  induction 1; intros F.
  - split; [reflexivity | intros ? []].
  - specialize (F (d, hr1) (or_introl eq_refl)). cbn in F. lia.
  - destruct IHloop_run as [E C].
    { intros c Hc. apply F. right. exact Hc. }
    split.
    + change (creations (?a :: ?b)) with (creations [a] ++ creations b); cbn [creations collect flat_map creation_of app map snd].
      rewrite E, !last_cons_default. reflexivity.
    + cbn. intros d' [->|Hd]; [left; reflexivity | right; auto].
  - specialize (F (d, hr2) (or_intror (or_introl eq_refl))). cbn in F. lia.
  - destruct IHloop_run as [E C].
    { intros c Hc. apply F. right. right. exact Hc. }
    split.
    + change (creations (?a :: ?b)) with (creations [a] ++ creations b); cbn [creations collect flat_map creation_of app map snd].
      rewrite E, !last_cons_default. reflexivity.
    + cbn. intros d' [->|Hd]; [left; reflexivity | right; right; auto].
Qed.

Lemma last_In {A} (l : list A) d : l <> [] -> In (last l d) l.
Proof.
  induction l as [|a [|b l] IH]; intros H; [congruence | left; reflexivity |].
  right. apply IH. discriminate.
Qed.

Lemma collect_app {A} (f : Event -> option A) a b :
  collect f (a ++ b) = collect f a ++ collect f b.
Proof. apply flat_map_app. Qed.

Lemma collect_none {A} (f : Event -> option A) evs :
  Forall (fun e => f e = None) evs -> collect f evs = [].
Proof.
  induction 1 as [|e evs He _ IH]; [reflexivity|].
  cbn. rewrite He. exact IH.
Qed.

Lemma collect_cons_none {A} (f : Event -> option A) e evs :
  f e = None -> collect f (e :: evs) = collect f evs.
Proof. intros H. cbn. rewrite H. reflexivity. Qed.

(** A device-creation call is invisible to an observation that does not
    look at device creation. *)
Lemma collect_created {A} (f : Event -> option A) evs :
  (forall e, is_create e = true -> f e = None) ->
  Forall (fun e => is_create e = true) evs -> collect f evs = [].
Proof.
  intros Hf H. apply collect_none. revert H. apply Forall_impl. exact Hf.
Qed.

Lemma creations_app a b : creations (a ++ b) = creations a ++ creations b.
Proof. apply collect_app. Qed.

Lemma creations_none evs :
  Forall (fun e => is_create e = false) evs -> creations evs = [].
Proof.
  intros H. apply collect_none. revert H. apply Forall_impl.
  intros e He. destruct e; cbn in *; congruence.
Qed.

Lemma find_call_skip f a b :
  Forall (fun e => f e = false) a -> find_call f (a ++ b) = find_call f b.
Proof.
  induction 1 as [|e a He _ IH]; [reflexivity|].
  cbn. rewrite He. exact IH.
Qed.

(** A call of one kind inside [a ++ b], where [a] holds only calls of that
    kind and [b] none, lies in [a]. *)
Lemma split_in_prefix (f : Event -> bool) a b pre e post :
  Forall (fun x => f x = true) a ->
  Forall (fun x => f x = false) b ->
  f e = true ->
  a ++ b = pre ++ e :: post ->
  exists post_a, a = pre ++ e :: post_a /\ post = post_a ++ b.
Proof.
  intros Ha Hb He. revert pre.
  induction Ha as [|x a Hx Ha IH]; intros pre E; cbn in E.
  - exfalso. subst b. apply Forall_app in Hb. destruct Hb as [_ Hb].
    inversion Hb; congruence.
  - destruct pre as [|y pre]; cbn in E; inversion E; subst.
    + exists a. split; reflexivity.
    + destruct (IH pre H1) as (post_a & -> & ->).
      exists post_a. split; reflexivity.
Qed.

Lemma created_frame evs : forall r,
  let r' := fold_left apply_create evs r in
  m_hWnd r' = m_hWnd r /\ m_pDevice1 r' = m_pDevice1 r /\
  m_pImmediateContext1 r' = m_pImmediateContext1 r /\
  m_pSwapChain r' = m_pSwapChain r /\ m_pSwapChain1 r' = m_pSwapChain1 r /\
  m_pRenderTargetView r' = m_pRenderTargetView r.
Proof.
  induction evs as [|e evs IH]; intros r; cbn; [tauto|].
  destruct (IH (apply_create r e)) as (H1 & H2 & H3 & H4 & H5 & H6).
  cbv zeta in *. rewrite H1, H2, H3, H4, H5, H6.
  destruct e, r; cbn; tauto.
Qed.

Lemma created_last pre d fl lv sdk hr dev lvl ctx r :
  let r' := fold_left apply_create
              (pre ++ [EvD3D11CreateDevice d fl lv sdk hr dev lvl ctx]) r in
  m_driverType r' = d /\ m_pDevice r' = dev /\ m_featureLevel r' = lvl /\
  m_pImmediateContext r' = ctx.
Proof.
  cbv zeta. rewrite fold_left_app. cbn.
  destruct (fold_left apply_create pre r); cbn; tauto.
Qed.

(** The loop on two concrete hosts: without a hardware device the WARP
    driver is the one kept; when nothing can be created the HRESULT of the
    last attempt comes back and only the attempts were made. *)
Example InitDevice_falls_back_to_warp :
  let o := InitDevice false (host rc_1280x720 create_warp_only query_dxgi11) fresh in
  returned o = Some S_OK /\
  m_driverType (renderer (final o)) = D3D_DRIVER_TYPE_WARP /\
  map fst (creations (log (final o))) =
    [D3D_DRIVER_TYPE_HARDWARE; D3D_DRIVER_TYPE_WARP].
Proof. vm_compute. repeat split. Qed.

Example InitDevice_no_driver :
  let o := InitDevice false (host rc_1280x720 create_none query_dxgi11) fresh in
  returned o = Some E_FAIL /\
  map fst (creations (log (final o))) =
    [D3D_DRIVER_TYPE_HARDWARE; D3D_DRIVER_TYPE_WARP; D3D_DRIVER_TYPE_REFERENCE] /\
  length (log (final o)) = 4%nat.
Proof. vm_compute. repeat split. Qed.

(** ** Renderer::InitDevice, stage by stage *)

Lemma InitDevice_stages D P r l :
  let hWnd := m_hWnd r in
  let rc := p_GetClientRect P l hWnd in
  exists evs hr,
    loop_run (createDeviceFlags D) driverTypes evs S_OK hr /\
    InitDevice D P (mkState r l) =
      let s1 := mkState (fold_left apply_create evs r)
                  (l ++ EvGetClientRect hWnd rc :: evs) in
      if hr <? 0 then Done hr s1
      else init_with_device P (to_UINT (rc_right rc - rc_left rc))
             (to_UINT (rc_bottom rc - rc_top rc)) s1.
Proof.
  cbv zeta.
  destruct (create_device_loop_run D P driverTypes S_OK r
              (l ++ [EvGetClientRect (m_hWnd r) (p_GetClientRect P l (m_hWnd r))]))
    as (evs & hr & E & R).
  exists evs, hr. split; [exact R|].
  unfold InitDevice.
  cbv beta iota zeta delta [bind member GetClientRect emit ret FAILED].
  cbn [renderer log]. rewrite E. norm_log.
  destruct (hr <? 0); reflexivity.
Qed.

(** What the stages after device creation leave alone. *)
Lemma init_with_device_frame P w h r l :
  let o := init_with_device P w h (mkState r l) in
  exists evs,
    log (final o) = l ++ evs /\
    Forall (fun e => is_create e = false) evs /\
    Forall (fun e => is_client_rect e = false) evs /\
    m_hWnd (renderer (final o)) = m_hWnd r /\
    m_driverType (renderer (final o)) = m_driverType r /\
    m_featureLevel (renderer (final o)) = m_featureLevel r /\
    m_pDevice (renderer (final o)) = m_pDevice r /\
    m_pImmediateContext (renderer (final o)) = m_pImmediateContext r.
Proof.
  cbv zeta. destruct r. run; norm_log;
    (eexists; split; [log_eq|]);
    cbn; repeat split; repeat constructor.
Qed.

(** The calls of a whole InitDevice: the client-rectangle query, the
    device-creation attempts of the loop, then calls of other kinds. *)
Lemma InitDevice_calls D P r l :
  let o := InitDevice D P (mkState r l) in
  let hWnd := m_hWnd r in
  let rc := p_GetClientRect P l hWnd in
  exists levs hr revs,
    loop_run (createDeviceFlags D) driverTypes levs S_OK hr /\
    log (final o) = l ++ EvGetClientRect hWnd rc :: levs ++ revs /\
    Forall (fun e => is_create e = false) revs /\
    Forall (fun e => is_client_rect e = false) revs /\
    (hr < 0 ->
     revs = [] /\
     o = Done hr (mkState (fold_left apply_create levs r)
                    (l ++ EvGetClientRect hWnd rc :: levs))) /\
    (0 <= hr ->
     o = init_with_device P (to_UINT (rc_right rc - rc_left rc))
           (to_UINT (rc_bottom rc - rc_top rc))
           (mkState (fold_left apply_create levs r)
              (l ++ EvGetClientRect hWnd rc :: levs))) /\
    m_hWnd (renderer (final o)) = m_hWnd r /\
    m_driverType (renderer (final o)) =
      m_driverType (fold_left apply_create levs r) /\
    m_featureLevel (renderer (final o)) =
      m_featureLevel (fold_left apply_create levs r) /\
    m_pDevice (renderer (final o)) = m_pDevice (fold_left apply_create levs r) /\
    m_pImmediateContext (renderer (final o)) =
      m_pImmediateContext (fold_left apply_create levs r).
Proof.
  cbv zeta.
  destruct (InitDevice_stages D P r l) as (levs & hr & R & E).
  cbv zeta in E. rewrite E. clear E.
  exists levs, hr.
  destruct (hr <? 0) eqn:Hhr.
  - exists []. cbn [final renderer log]. rewrite app_nil_r.
    apply Z.ltb_lt in Hhr.
    repeat split; auto; try (intros; absurd_hr).
    destruct (created_frame levs r) as (H & _). exact H.
  - match goal with |- context [init_with_device P ?w ?h (mkState ?r' ?l')] =>
      destruct (init_with_device_frame P w h r' l')
        as (revs & E1 & F1 & F2 & H1 & H2 & H3 & H4 & H5)
    end.
    cbv zeta in *. exists revs. rewrite E1. norm_log.
    apply Z.ltb_ge in Hhr.
    repeat split; auto; try (intros; absurd_hr).
    rewrite H1. destruct (created_frame levs r) as (H & _). exact H.
Qed.

(** C3.  InitDevice attempts device creation over the driver types in the
    fixed order hardware, WARP, reference.  A successful attempt is the
    last one made and its driver type is the one the object keeps.  When
    every attempt fails, all three driver types have been tried, InitDevice
    returns the HRESULT of the last attempt, and it has made no call other
    than the client-rectangle query and the attempts: no swap chain, view
    or extended handle is created. *)
Theorem InitDevice_driver_type_fallback D P s :
  let o := InitDevice D P s in
  exists evs,
    log (final o) = log s ++ evs /\
    attempts_follow
      [D3D_DRIVER_TYPE_HARDWARE; D3D_DRIVER_TYPE_WARP; D3D_DRIVER_TYPE_REFERENCE]
      (map fst (creations evs)) /\
    (forall pre d fl lv sdk hr dev lvl ctx post,
       evs = pre ++ EvD3D11CreateDevice d fl lv sdk hr dev lvl ctx :: post ->
       0 <= hr ->
       creations post = [] /\ m_driverType (renderer (final o)) = d) /\
    ((forall c, In c (creations evs) -> snd c < 0) ->
     (forall d, In d driverTypes -> In d (map fst (creations evs))) /\
     exists hr,
       hr < 0 /\ last (map snd (creations evs)) S_OK = hr /\
       returned o = Some hr /\
       Forall (fun e => is_create e = true) (tl evs) /\
       m_pSwapChain (renderer (final o)) = m_pSwapChain (renderer s) /\
       m_pSwapChain1 (renderer (final o)) = m_pSwapChain1 (renderer s) /\
       m_pRenderTargetView (renderer (final o)) =
         m_pRenderTargetView (renderer s) /\
       m_pDevice1 (renderer (final o)) = m_pDevice1 (renderer s) /\
       m_pImmediateContext1 (renderer (final o)) =
         m_pImmediateContext1 (renderer s)).
Proof.
  destruct s as [r l]. cbv zeta. cbn [log renderer].
  destruct (InitDevice_calls D P r l)
    as (levs & hr & revs & R & E & F1 & F2 & Hneg & Hpos & H1 & H2 & _).
  cbv zeta in *.
  set (o := InitDevice D P (mkState r l)) in *.
  eexists. split; [exact E|].
  assert (C : creations (EvGetClientRect (m_hWnd r) (p_GetClientRect P l (m_hWnd r))
                           :: levs ++ revs) = creations levs).
  { unfold creations. rewrite collect_cons_none by reflexivity.
    rewrite collect_app. fold creations.
    rewrite (creations_none revs F1). apply app_nil_r. }
  rewrite C.
  split; [exact (loop_run_follow _ _ _ _ _ R)|].
  split.
  - intros pre d fl lv sdk h dev lvl ctx post Epre Hh.
    destruct pre as [|g pre]; [discriminate|].
    cbn [app] in Epre. injection Epre as Eg Erest.
    destruct (split_in_prefix is_create levs revs pre
                (EvD3D11CreateDevice d fl lv sdk h dev lvl ctx) post
                (loop_run_creates _ _ _ _ _ R) F1 eq_refl Erest)
      as (post_l & El & ->).
    destruct (loop_run_success_last _ _ _ _ _ R _ _ _ _ _ _ _ _ _ _ El Hh)
      as [-> _].
    cbn [app]. split; [apply creations_none; exact F1|].
    rewrite H2, El. apply created_last.
  - intros Fail.
    destruct (loop_run_all_fail _ _ _ _ _ R Fail) as [Ehr Cover].
    split; [exact Cover|].
    assert (Hhr : hr < 0).
    { rewrite Ehr. 
      assert (In (last (map snd (creations levs)) S_OK) (map snd (creations levs))).
      { apply last_In. specialize (Cover D3D_DRIVER_TYPE_HARDWARE (or_introl eq_refl)).
        destruct (creations levs); [destruct Cover | discriminate]. }
      apply in_map_iff in H. destruct H as (c & <- & Hc). apply Fail; exact Hc. }
    destruct (Hneg Hhr) as [-> Eo].
    exists hr. rewrite Eo. cbn [final returned renderer tl]. rewrite app_nil_r.
    destruct (created_frame levs r) as (_ & G2 & G3 & G4 & G5 & G6).
    cbv zeta in *.
    repeat split; auto. exact (loop_run_creates _ _ _ _ _ R).
Qed.

(** C2.  Whenever a device-creation call with the full feature-level list
    returns E_INVALIDARG, the very next call InitDevice makes is a
    device-creation call for the same driver type with the topmost feature
    level removed; when that retry succeeds no further device-creation
    call is made and the object keeps that driver type together with the
    device and context the retry stored. *)
Theorem InitDevice_retry_same_driver D P s pre d fl sdk dev lvl ctx post :
  log (final (InitDevice D P s)) =
    log s ++ pre ++
    EvD3D11CreateDevice d fl
      [D3D_FEATURE_LEVEL_11_1; D3D_FEATURE_LEVEL_11_0;
       D3D_FEATURE_LEVEL_10_1; D3D_FEATURE_LEVEL_10_0]
      sdk E_INVALIDARG dev lvl ctx :: post ->
  exists hr2 dev2 lvl2 ctx2 post',
    post =
      EvD3D11CreateDevice d fl
        [D3D_FEATURE_LEVEL_11_0; D3D_FEATURE_LEVEL_10_1; D3D_FEATURE_LEVEL_10_0]
        sdk hr2 dev2 lvl2 ctx2 :: post' /\
    (0 <= hr2 ->
     creations post' = [] /\
     m_driverType (renderer (final (InitDevice D P s))) = d /\
     m_pDevice (renderer (final (InitDevice D P s))) = dev2 /\
     m_pImmediateContext (renderer (final (InitDevice D P s))) = ctx2).
Proof.
  destruct s as [r l]. cbn [log renderer]. intros E.
  destruct (InitDevice_calls D P r l)
    as (levs & hr & revs & R & E' & F1 & _ & _ & _ & _ & H2 & _ & H4 & H5).
  cbv zeta in *. rewrite E' in E. apply app_inv_head in E.
  destruct pre as [|g pre]; [discriminate|].
  cbn [app] in E. injection E as _ E.
  match type of E with _ = _ ++ ?e :: _ =>
    destruct (split_in_prefix is_create levs revs pre e post
                (loop_run_creates _ _ _ _ _ R) F1 eq_refl E)
      as (post_l & El & ->)
  end.
  destruct (loop_run_retry _ _ _ _ _ R _ _ _ _ _ _ _ _ El)
    as (hr2 & dev2 & lvl2 & ctx2 & post_l' & -> & Hok).
  exists hr2, dev2, lvl2, ctx2, (post_l' ++ revs).
  split; [reflexivity|].
  intros Hhr2. destruct (Hok Hhr2) as [-> _].
  cbn [app]. split; [apply creations_none; exact F1|].
  rewrite H2, H4, H5, El.
  match goal with |- context [pre ++ [?a; ?b]] =>
    replace (pre ++ [a; b]) with ((pre ++ [a]) ++ [b])
      by (rewrite <- app_assoc; reflexivity)
  end.
  match goal with |- context [fold_left apply_create (?p ++ [EvD3D11CreateDevice ?a ?b ?c ?d ?e ?f ?g ?h]) r] =>
    destruct (created_last p a b c d e f g h r) as (G1 & G2 & _ & G4)
  end.
  cbv zeta in *. auto.
Qed.

Lemma InitDevice_retry_same_driver_witness :
  exists hr2 dev2 lvl2 ctx2 post',
    skipn 2 (log (final (InitDevice false host_dx11_0 fresh))) =
      EvD3D11CreateDevice D3D_DRIVER_TYPE_HARDWARE 0
        [D3D_FEATURE_LEVEL_11_0; D3D_FEATURE_LEVEL_10_1; D3D_FEATURE_LEVEL_10_0]
        7 hr2 dev2 lvl2 ctx2 :: post' /\
    (0 <= hr2 ->
     creations post' = [] /\
     m_driverType (renderer (final (InitDevice false host_dx11_0 fresh))) =
       D3D_DRIVER_TYPE_HARDWARE /\
     m_pDevice (renderer (final (InitDevice false host_dx11_0 fresh))) = dev2 /\
     m_pImmediateContext (renderer (final (InitDevice false host_dx11_0 fresh))) =
       ctx2).
Proof.
  apply (InitDevice_retry_same_driver false host_dx11_0 fresh
           [EvGetClientRect h_window rc_1280x720]
           D3D_DRIVER_TYPE_HARDWARE 0 7 nullptr D3D_FEATURE_LEVEL_9_1 nullptr
           (skipn 2 (log (final (InitDevice false host_dx11_0 fresh))))).
  reflexivity.
Defined.

(** A returning InitDevice either failed in the loop or ran the later
    stages from the state the loop left. *)
Lemma InitDevice_done D P r l hr s' :
  InitDevice D P (mkState r l) = Done hr s' ->
  let hWnd := m_hWnd r in
  let rc := p_GetClientRect P l hWnd in
  exists levs hr1,
    loop_run (createDeviceFlags D) driverTypes levs S_OK hr1 /\
    let s1 := mkState (fold_left apply_create levs r)
                (l ++ EvGetClientRect hWnd rc :: levs) in
    (hr1 < 0 /\ hr = hr1 /\ s' = s1 \/
     0 <= hr1 /\
     init_with_device P (to_UINT (rc_right rc - rc_left rc))
       (to_UINT (rc_bottom rc - rc_top rc)) s1 = Done hr s').
Proof.
  intros E. cbv zeta.
  destruct (InitDevice_stages D P r l) as (levs & hr1 & R & E1).
  cbv zeta in E1. rewrite E1 in E. clear E1.
  exists levs, hr1. split; [exact R|].
  destruct (hr1 <? 0) eqn:Hhr.
  - left. apply Z.ltb_lt in Hhr. injection E as <- <-. auto.
  - right. apply Z.ltb_ge in Hhr. auto.
Qed.

Lemma outcome_done {A} (o : outcome A) (Q : A -> State -> Prop) :
  match o with Done a s => Q a s | Crash _ => True end ->
  forall a s, o = Done a s -> Q a s.
Proof. intros H a s ->. exact H. Qed.

Ltac run_done :=
  match goal with
  | |- forall a s, ?o = Done a s -> @?Q a s => refine (outcome_done o Q _)
  end;
  run; try exact I.

Ltac arith_hyps :=
  repeat match goal with
         | H : (_ <? 0) = true |- _ => apply Z.ltb_lt in H
         | H : (_ <? 0) = false |- _ => apply Z.ltb_ge in H
         | H : (0 <=? _) = true |- _ => apply Z.leb_le in H
         | H : (0 <=? _) = false |- _ => apply Z.leb_gt in H
         | H : is_null _ = false |- _ => apply Z.eqb_neq in H
         | H : is_null _ = true |- _ => apply Z.eqb_eq in H
         end.

Lemma init_with_device_handles P w h r l :
  creates_view P ->
  forall hr s',
  init_with_device P w h (mkState r l) = Done hr s' ->
  0 <= hr ->
  m_pDevice (renderer s') <> nullptr /\
  m_pImmediateContext (renderer s') <> nullptr /\
  m_pSwapChain (renderer s') <> nullptr /\
  m_pRenderTargetView (renderer s') <> nullptr.
Proof.
  intros V. destruct r. run_done.
  all: intros Hhr; arith_hyps; try absurd_hr.
  all: repeat split; auto.
  all: match goal with
       | H : p_CreateRenderTargetView _ ?l' ?this ?res = (?hv, ?v) |- ?v <> nullptr =>
           let C := fresh in
           pose proof (V l' this res) as C; rewrite H in C; apply C; assumption
       end.
Qed.

(** C8.  On a platform that stores a non-null view whenever
    CreateRenderTargetView succeeds, an InitDevice that returns success
    leaves the device, the immediate context, the swap chain and the
    render target view all non-null. *)
Theorem InitDevice_success_all_resources D P s hr s' :
  creates_view P ->
  InitDevice D P s = Done hr s' ->
  0 <= hr ->
  m_pDevice (renderer s') <> nullptr /\
  m_pImmediateContext (renderer s') <> nullptr /\
  m_pSwapChain (renderer s') <> nullptr /\
  m_pRenderTargetView (renderer s') <> nullptr.
Proof.
  intros V E Hhr. destruct s as [r l].
  destruct (InitDevice_done D P r l hr s' E) as (levs & hr1 & R & [(H1 & -> & _)|(H1 & E1)]).
  - absurd_hr.
  - exact (init_with_device_handles P _ _ _ _ V hr s' E1 Hhr).
Qed.

(** ** Sizes: swap chain and viewport *)

Lemma to_UINT_small x : 0 <= x < 2 ^ 32 -> to_UINT x = x.
Proof. intros H. unfold to_UINT. apply Z.mod_small. exact H. Qed.

Lemma round_to_FLOAT_exact w : w < 2 ^ 24 -> round_to_FLOAT w = w.
Proof.
  intros H. unfold round_to_FLOAT.
  destruct (w <? 2 ^ 24) eqn:E; [reflexivity|].
  apply Z.ltb_ge in E. lia.
Qed.

Lemma FLOAT_of_UINT_exact w : w < 2 ^ 24 -> FLOAT_of_UINT w = inject_Z w.
Proof. intros H. unfold FLOAT_of_UINT. rewrite round_to_FLOAT_exact; auto. Qed.

(** Whatever the later stages do, a swap chain is requested with the size
    they were given and a viewport is bound with that size. *)
Lemma init_with_device_sizes P w h r l :
  let o := init_with_device P w h (mkState r l) in
  exists revs,
    log (final o) = l ++ revs /\
    Forall (fun sz => sz = (w, h)) (swap_chain_sizes revs) /\
    Forall (fun c => snd c = [viewport w h]) (viewport_calls revs).
Proof.
  cbv zeta. destruct r as [hWnd0 drv0 lvl0 dev0 dev1_0 ctx0 ctx1_0 sc0 sc1_0 rtv0]. run; norm_log;
    (eexists; split; [log_eq|]);
    cbn [swap_chain_sizes viewport_calls collect flat_map swap_chain_size_of
         viewport_of app snd sd1_Width sd1_Height md_Width md_Height
         sd_BufferDesc swap_chain_desc swap_chain_desc1];
    repeat constructor.
Qed.

Lemma init_with_device_viewport P w h r l :
  forall hr s',
  init_with_device P w h (mkState r l) = Done hr s' ->
  0 <= hr ->
  exists revs,
    log s' = l ++ revs /\
    swap_chain_sizes revs = [(w, h)] /\
    viewport_calls revs = [(m_pImmediateContext r, [viewport w h])] /\
    m_pImmediateContext (renderer s') = m_pImmediateContext r.
Proof.
  destruct r as [hWnd0 drv0 lvl0 dev0 dev1_0 ctx0 ctx1_0 sc0 sc1_0 rtv0]. run_done.
  all: intros Hhr; arith_hyps; try absurd_hr.
  all: norm_log; (eexists; split; [log_eq|]);
    cbn [swap_chain_sizes viewport_calls collect flat_map swap_chain_size_of
         viewport_of app snd sd1_Width sd1_Height md_Width md_Height
         sd_BufferDesc swap_chain_desc swap_chain_desc1
         renderer m_pImmediateContext];
    auto.
Qed.

(** The loop adds nothing to an observation that ignores device creation. *)
Lemma collect_stages {A} (f : Event -> option A) flags types levs hr0 hr g revs :
  loop_run flags types levs hr0 hr ->
  (forall e, is_create e = true -> f e = None) ->
  collect f (g :: levs ++ revs) = collect f [g] ++ collect f revs.
Proof.
  intros R Hf. change (g :: levs ++ revs) with ([g] ++ levs ++ revs).
  rewrite !collect_app.
  rewrite (collect_created f levs Hf (loop_run_creates _ _ _ _ _ R)).
  reflexivity.
Qed.

Lemma viewport_of_create e : is_create e = true -> viewport_of e = None.
Proof. destruct e; cbn; congruence. Qed.

Lemma swap_chain_size_of_create e : is_create e = true -> swap_chain_size_of e = None.
Proof. destruct e; cbn; congruence. Qed.

Lemma client_rect_of_create e : is_create e = true -> client_rect_of e = None.
Proof. destruct e; cbn; congruence. Qed.

(** C5.  After InitDevice succeeds, exactly one RSSetViewports call has
    been made, on the immediate context, with exactly one viewport: top
    left (0,0), width and height those of the client rectangle read at
    entry, depth range 0 to 1.  (The sizes are below 2^24, so the FLOAT
    fields of the viewport hold them exactly.) *)
Theorem InitDevice_viewport D P s hr s' evs :
  InitDevice D P s = Done hr s' ->
  0 <= hr ->
  log s' = log s ++ evs ->
  let rc := p_GetClientRect P (log s) (m_hWnd (renderer s)) in
  0 <= rc_right rc - rc_left rc < 2 ^ 24 ->
  0 <= rc_bottom rc - rc_top rc < 2 ^ 24 ->
  viewport_calls evs =
    [ (m_pImmediateContext (renderer s'),
       [ {| TopLeftX := 0%Q; TopLeftY := 0%Q;
            Width := inject_Z (rc_right rc - rc_left rc);
            Height := inject_Z (rc_bottom rc - rc_top rc);
            MinDepth := 0%Q; MaxDepth := 1%Q |} ]) ].
Proof.
  intros E Hhr El rc Hw Hh. destruct s as [r l]. subst rc. cbn [log renderer] in El, Hw, Hh.
  destruct (InitDevice_done D P r l hr s' E) as (levs & hr1 & R & [(H1 & -> & _)|(H1 & E1)]).
  - absurd_hr.
  - cbv zeta in E1.
    destruct (init_with_device_viewport P _ _ _ _ hr s' E1 Hhr)
      as (revs & El' & _ & Hv & Hc).
    cbn [log renderer] in El'. rewrite El' in El. rewrite <- app_assoc in El.
    apply app_inv_head in El. cbn [app] in El. subst evs.
    unfold viewport_calls in *.
    rewrite (collect_stages viewport_of _ _ _ _ _ _ _ R viewport_of_create).
    cbn [collect flat_map viewport_of app]. rewrite Hv, Hc.
    unfold viewport.
    rewrite !to_UINT_small by lia.
    rewrite !FLOAT_of_UINT_exact by lia.
    reflexivity.
Qed.

Lemma InitDevice_viewport_witness :
  viewport_calls (log (final (InitDevice false host_dxgi12 fresh))) =
    [ (h_context,
       [ {| TopLeftX := 0%Q; TopLeftY := 0%Q;
            Width := 1280%Q; Height := 720%Q;
            MinDepth := 0%Q; MaxDepth := 1%Q |} ]) ].
Proof.
  apply (InitDevice_viewport false host_dxgi12 fresh S_OK
           (final (InitDevice false host_dxgi12 fresh))
           (log (final (InitDevice false host_dxgi12 fresh)))).
  - vm_compute. reflexivity.
  - unfold S_OK. lia.
  - vm_compute. reflexivity.
  - vm_compute. split; [discriminate | reflexivity].
  - vm_compute. split; [discriminate | reflexivity].
Defined.

Lemma returned_done {A} (o : outcome A) a : returned o = Some a -> o = Done a (final o).
Proof. destruct o; cbn; intros E; [injection E as ->; reflexivity | discriminate]. Qed.

Lemma client_rects_none evs :
  Forall (fun e => is_client_rect e = false) evs -> client_rects evs = [].
Proof.
  intros H. apply collect_none. revert H. apply Forall_impl.
  intros e He. destruct e; cbn in *; congruence.
Qed.

(** C10.  InitDevice reads the client rectangle exactly once, as its first
    call.  Every swap-chain description it passes, on either path, and
    every viewport it binds carry the width and height computed from that
    one rectangle; when InitDevice succeeds exactly one swap chain was
    requested and one viewport bound, so the two sizes agree (the viewport
    holds them as FLOAT, exactly so below 2^24). *)
Theorem InitDevice_single_size_read D P s :
  let o := InitDevice D P s in
  let rc := p_GetClientRect P (log s) (m_hWnd (renderer s)) in
  let width := to_UINT (rc_right rc - rc_left rc) in
  let height := to_UINT (rc_bottom rc - rc_top rc) in
  exists rest,
    log (final o) = log s ++ EvGetClientRect (m_hWnd (renderer s)) rc :: rest /\
    client_rects rest = [] /\
    Forall (fun sz => sz = (width, height)) (swap_chain_sizes rest) /\
    Forall (fun sz => sz = (FLOAT_of_UINT width, FLOAT_of_UINT height))
      (viewport_sizes rest) /\
    (forall hr, returned o = Some hr -> 0 <= hr ->
       swap_chain_sizes rest = [(width, height)] /\
       viewport_sizes rest = [(FLOAT_of_UINT width, FLOAT_of_UINT height)] /\
       (width < 2 ^ 24 -> height < 2 ^ 24 ->
        viewport_sizes rest =
          map (fun sz => (inject_Z (fst sz), inject_Z (snd sz)))
            (swap_chain_sizes rest))).
Proof.
  destruct s as [r l]. cbv zeta. cbn [log renderer].
  destruct (InitDevice_calls D P r l)
    as (levs & hr1 & revs & R & E & F1 & F2 & Hneg & Hpos & _).
  cbv zeta in *.
  set (o := InitDevice D P (mkState r l)) in *.
  set (rc := p_GetClientRect P l (m_hWnd r)) in *.
  set (width := to_UINT (rc_right rc - rc_left rc)) in *.
  set (height := to_UINT (rc_bottom rc - rc_top rc)) in *.
  exists (levs ++ revs). split; [exact E|].
  assert (Hc : forall A (f : Event -> option A),
             (forall e, is_create e = true -> f e = None) ->
             collect f (levs ++ revs) = collect f revs).
  { intros A f Hf. rewrite collect_app.
    rewrite (collect_created f levs Hf (loop_run_creates _ _ _ _ _ R)).
    reflexivity. }
  unfold viewport_sizes, client_rects, swap_chain_sizes, viewport_calls.
  rewrite (Hc _ client_rect_of client_rect_of_create).
  rewrite (Hc _ swap_chain_size_of swap_chain_size_of_create).
  rewrite (Hc _ viewport_of viewport_of_create).
  fold (client_rects revs) (swap_chain_sizes revs) (viewport_calls revs).
  split; [apply client_rects_none; exact F2|].
  destruct (Z.lt_ge_cases hr1 0) as [Hlt|Hge].
  - destruct (Hneg Hlt) as [-> Eo]. cbn [swap_chain_sizes viewport_calls collect flat_map].
    split; [constructor|]. split; [constructor|].
    intros hr' Hr Hhr. rewrite Eo in Hr. cbn in Hr. injection Hr as <-. absurd_hr.
  - specialize (Hpos Hge).
    match type of Hpos with _ = init_with_device _ _ _ (mkState ?r1 ?l1) =>
      destruct (init_with_device_sizes P width height r1 l1) as (revs2 & E2 & S1 & S2);
      pose proof (init_with_device_viewport P width height r1 l1) as V
    end.
    cbv zeta in E2. rewrite <- Hpos in E2, V.
    assert (revs2 = revs).
    { rewrite E2 in E.
      change (l ++ ?g :: levs ++ revs) with (l ++ [g] ++ levs ++ revs) in E.
      change (l ++ ?g :: levs) with (l ++ [g] ++ levs) in E.
      rewrite <- !app_assoc in E. do 3 apply app_inv_head in E. exact E. }
    subst revs2.
    split; [exact S1|].
    split.
    { clear - S2. induction S2 as [|c cs Hc _ IH]; cbn; [constructor|].
      rewrite Hc. cbn. constructor; [reflexivity | exact IH]. }
    intros hr Hr Hhr. apply returned_done in Hr.
    destruct (V hr (final o) Hr Hhr) as (revs3 & E3 & V1 & V2 & _).
    assert (revs3 = revs).
    { cbn [log] in E3. rewrite E3 in E.
      change (l ++ ?g :: levs ++ revs) with (l ++ [g] ++ levs ++ revs) in E.
      change (l ++ ?g :: levs) with (l ++ [g] ++ levs) in E.
      rewrite <- !app_assoc in E. do 3 apply app_inv_head in E. exact E. }
    subst revs3. rewrite V1, V2.
    cbn [flat_map map snd app viewport Width Height fst].
    repeat split.
    intros Hw Hh. rewrite !FLOAT_of_UINT_exact by assumption. reflexivity.
Qed.

Lemma InitDevice_single_size_read_witness :
  exists rest,
    log (final (InitDevice false host_dxgi12 fresh)) =
      EvGetClientRect h_window rc_1280x720 :: rest /\
    swap_chain_sizes rest = [(1280, 720)] /\
    viewport_sizes rest = [(1280%Q, 720%Q)].
Proof.
  destruct (InitDevice_single_size_read false host_dxgi12 fresh)
    as (rest & E & _ & _ & _ & H).
  exists rest. split; [exact E|].
  destruct (H S_OK) as (H1 & H2 & _).
  - vm_compute. reflexivity.
  - unfold S_OK. lia.
  - split; [exact H1 | exact H2].
Defined.

(** ** The swap-chain stage *)

Lemma find_call_stages f flags types levs hr0 hr g revs :
  loop_run flags types levs hr0 hr ->
  f g = false ->
  (forall e, is_create e = true -> f e = false) ->
  find_call f (g :: levs ++ revs) = find_call f revs.
Proof.
  intros R Hg Hf. cbn [find_call]. rewrite Hg.
  apply find_call_skip.
  generalize (loop_run_creates _ _ _ _ _ R). apply Forall_impl. exact Hf.
Qed.

Lemma is_query_create iid e : is_create e = true -> is_query iid e = false.
Proof. destruct e; cbn; congruence. Qed.

Lemma is_swap_chain_creation_create e :
  is_create e = true -> is_swap_chain_creation e = false.
Proof. destruct e; cbn; congruence. Qed.

Ltac observe :=
  cbn [find_call is_query IID_eqb is_swap_chain_creation is_window_association
       is_get_parent collect flat_map swap_chain_sizes swap_chain_size_of checked_hr
       last_checked map last app renderer log
       m_hWnd m_pDevice m_pSwapChain m_pSwapChain1 m_pImmediateContext] in *.

(** The swap-chain stage in every run of the later stages, also one that
    stops at a call through null. *)
Lemma init_with_device_swap_chain_path P w h r l :
  let o := init_with_device P w h (mkState r l) in
  exists revs,
    log (final o) = l ++ revs /\
    forall f h2 f2 post,
      find_call (is_query IID_IDXGIFactory2) revs =
        Some (EvQueryInterface f IID_IDXGIFactory2 h2 f2, post) ->
      (f2 <> nullptr ->
       (exists hsc sc1 rest,
          find_call is_swap_chain_creation post =
            Some (EvCreateSwapChainForHwnd f2 (m_pDevice r) (m_hWnd r)
                    (swap_chain_desc1 w h) hsc sc1, rest) /\
          swap_chain_sizes rest = [] /\
          (0 <= hsc ->
           (exists hq sc rest',
              rest = EvQueryInterface sc1 IID_IDXGISwapChain hq sc :: rest' /\
              m_pSwapChain (renderer (final o)) = sc) \/
           sc1 = nullptr /\ rest = [] /\ returned o = None)) \/
       returned o = None /\ swap_chain_sizes post = [] /\
       (m_pDevice r = nullptr \/ m_pImmediateContext r = nullptr)) /\
      (f2 = nullptr ->
       exists hsc sc rest,
         post = EvCreateSwapChain f (m_pDevice r) (swap_chain_desc w h (m_hWnd r))
                  hsc sc :: rest /\
         swap_chain_sizes rest = [] /\
         m_pSwapChain (renderer (final o)) = sc).
Proof.
  cbv zeta.
  destruct r as [hWnd0 drv0 lvl0 dev0 dev1_0 ctx0 ctx1_0 sc0 sc1_0 rtv0].
  run.
  all: norm_log; (eexists; split; [log_eq|]).
  all: intros f h2' f2 post Hf; observe; try discriminate.
  all: injection Hf as <- <- <- <-.
  all: arith_hyps; split; intros Hn; try contradiction; try (exfalso; congruence).
  all: try (do 3 eexists; (split; [reflexivity|]); split; reflexivity).
  all: try (right; split; [reflexivity|]; split; [reflexivity|]; auto; fail).
  all: left; do 3 eexists; (split; [reflexivity|]); (split; [reflexivity|]).
  all: intros Hpos; try absurd_hr.
  all: first [ left; do 3 eexists; split; reflexivity
             | right; split; [assumption|]; split; reflexivity ].
Qed.

(** The new calls of a returning InitDevice, split by stage. *)
Lemma InitDevice_done_calls D P r l hr s' evs :
  InitDevice D P (mkState r l) = Done hr s' ->
  log s' = l ++ evs ->
  let hWnd := m_hWnd r in
  let rc := p_GetClientRect P l hWnd in
  exists levs hr1 revs,
    loop_run (createDeviceFlags D) driverTypes levs S_OK hr1 /\
    evs = EvGetClientRect hWnd rc :: levs ++ revs /\
    let s1 := mkState (fold_left apply_create levs r)
                (l ++ EvGetClientRect hWnd rc :: levs) in
    (hr1 < 0 /\ hr = hr1 /\ s' = s1 /\ revs = [] \/
     0 <= hr1 /\
     init_with_device P (to_UINT (rc_right rc - rc_left rc))
       (to_UINT (rc_bottom rc - rc_top rc)) s1 = Done hr s' /\
     log s' = log s1 ++ revs).
Proof.
  intros E El. cbv zeta.
  destruct (InitDevice_done D P r l hr s' E)
    as (levs & hr1 & R & [(H1 & -> & ->)|(H1 & E1)]).
  - exists levs, hr1, []. split; [exact R|].
    cbn [log] in El. apply app_inv_head in El. subst evs.
    rewrite app_nil_r. split; [reflexivity|]. left. auto.
  - cbv zeta in E1.
    match type of E1 with init_with_device _ ?w ?h (mkState ?r1 ?l1) = _ =>
      destruct (init_with_device_frame P w h r1 l1) as (revs & E2 & _)
    end.
    cbv zeta in E2. rewrite E1 in E2. cbn [final] in E2.
    exists levs, hr1, revs. split; [exact R|].
    split.
    + rewrite E2 in El. rewrite <- app_assoc in El. apply app_inv_head in El.
      cbn [app] in El. symmetry. exact El.
    + right. auto.
Qed.

(** C4.  The swap-chain path is chosen by whether the IDXGIFactory2 query
    stored a non-null pointer, and this holds in every run that reaches
    the query.  If it did not, the very next call is the legacy
    CreateSwapChain on the factory with buffer count 1, format
    R8G8B8A8_UNORM, the client width and height, refresh rate 60/1,
    Windowed TRUE and the window as OutputWindow; no other swap chain is
    requested and its result becomes m_pSwapChain.  If it did, the swap
    chain is created with CreateSwapChainForHwnd on that factory, for the
    device and the window, with the client width and height, the same
    format and one buffer (every other field of the description zero but
    the sample count and the render-target usage); no legacy creation
    call is made, and after a successful creation the result is queried
    for IDXGISwapChain, which becomes m_pSwapChain.  The only runs on
    this path without the creation call are those that do not return
    because the created device or context is null, and the only ones
    without the IDXGISwapChain query after a success those that do not
    return because the swap chain stored is null. *)
Theorem InitDevice_swap_chain_path D P s evs f h2 f2 post :
  log (final (InitDevice D P s)) = log s ++ evs ->
  find_call (is_query IID_IDXGIFactory2) evs =
    Some (EvQueryInterface f IID_IDXGIFactory2 h2 f2, post) ->
  let o := InitDevice D P s in
  let s' := final o in
  let rc := p_GetClientRect P (log s) (m_hWnd (renderer s)) in
  let width := to_UINT (rc_right rc - rc_left rc) in
  let height := to_UINT (rc_bottom rc - rc_top rc) in
  (f2 <> nullptr ->
   (exists hsc sc1 rest,
      find_call is_swap_chain_creation post =
        Some (EvCreateSwapChainForHwnd f2 (m_pDevice (renderer s'))
                (m_hWnd (renderer s))
                {| sd1_Width := width;
                   sd1_Height := height;
                   sd1_Format := DXGI_FORMAT_R8G8B8A8_UNORM;
                   sd1_Stereo := 0;
                   sd1_SampleDesc := {| Count := 1; Quality := 0 |};
                   sd1_BufferUsage := DXGI_USAGE_RENDER_TARGET_OUTPUT;
                   sd1_BufferCount := 1;
                   sd1_Scaling := 0;
                   sd1_SwapEffect := 0;
                   sd1_AlphaMode := 0;
                   sd1_Flags := 0 |}
                hsc sc1, rest) /\
      swap_chain_sizes rest = [] /\
      (0 <= hsc ->
       (exists hq sc rest',
          rest = EvQueryInterface sc1 IID_IDXGISwapChain hq sc :: rest' /\
          m_pSwapChain (renderer s') = sc) \/
       sc1 = nullptr /\ rest = [] /\ returned o = None)) \/
   returned o = None /\ swap_chain_sizes post = [] /\
   (m_pDevice (renderer s') = nullptr \/
    m_pImmediateContext (renderer s') = nullptr)) /\
  (f2 = nullptr ->
   exists hsc sc rest,
     post =
       EvCreateSwapChain f (m_pDevice (renderer s'))
         {| sd_BufferDesc :=
              {| md_Width := width;
                 md_Height := height;
                 md_RefreshRate := {| Numerator := 60; Denominator := 1 |};
                 md_Format := DXGI_FORMAT_R8G8B8A8_UNORM;
                 md_ScanlineOrdering := 0;
                 md_Scaling := 0 |};
            sd_SampleDesc := {| Count := 1; Quality := 0 |};
            sd_BufferUsage := DXGI_USAGE_RENDER_TARGET_OUTPUT;
            sd_BufferCount := 1;
            sd_OutputWindow := m_hWnd (renderer s);
            sd_Windowed := TRUE;
            sd_SwapEffect := 0;
            sd_Flags := 0 |}
         hsc sc :: rest /\
     swap_chain_sizes rest = [] /\
     m_pSwapChain (renderer s') = sc).
Proof.
  intros El Hf o s' rc width height. destruct s as [r l].
  subst o s' width height rc. cbn [log renderer] in *.
  destruct (InitDevice_calls D P r l)
    as (levs & hr1 & revs & R & E & _ & _ & Hneg & Hpos & _ & _ & _ & Hd & Hc).
  cbv zeta in *.
  rewrite E in El. apply app_inv_head in El. subst evs.
  erewrite find_call_stages in Hf;
    [| exact R | reflexivity | apply is_query_create].
  destruct (Z.lt_ge_cases hr1 0) as [N|N].
  - exfalso. destruct (Hneg N) as [-> _]. discriminate.
  - specialize (Hpos N). clear Hneg.
    match type of Hpos with _ = init_with_device _ ?w ?h (mkState ?r1 ?l1) =>
      destruct (init_with_device_swap_chain_path P w h r1 l1)
        as (revs' & El' & Hpath)
    end.
    cbv zeta in El', Hpath. rewrite <- Hpos in El', Hpath.
    rewrite E in El'. rewrite app_comm_cons, app_assoc in El'.
    apply app_inv_head in El'. subst revs'.
    destruct (created_frame levs r) as (Hw & _). cbv zeta in Hw.
    specialize (Hpath f h2 f2 post Hf).
    rewrite Hw, <- Hd, <- Hc in Hpath. exact Hpath.
Qed.

Lemma InitDevice_swap_chain_path_witness :
  (exists hsc sc1 rest,
     find_call is_swap_chain_creation
       (skipn 8 (log (final (InitDevice false host_dxgi12 fresh)))) =
       Some (EvCreateSwapChainForHwnd h_factory2 h_device h_window
               {| sd1_Width := 1280;
                  sd1_Height := 720;
                  sd1_Format := DXGI_FORMAT_R8G8B8A8_UNORM;
                  sd1_Stereo := 0;
                  sd1_SampleDesc := {| Count := 1; Quality := 0 |};
                  sd1_BufferUsage := DXGI_USAGE_RENDER_TARGET_OUTPUT;
                  sd1_BufferCount := 1;
                  sd1_Scaling := 0;
                  sd1_SwapEffect := 0;
                  sd1_AlphaMode := 0;
                  sd1_Flags := 0 |}
               hsc sc1, rest) /\
     swap_chain_sizes rest = [] /\
     (0 <= hsc ->
      exists hq sc rest',
        rest = EvQueryInterface sc1 IID_IDXGISwapChain hq sc :: rest' /\
        h_swapChain = sc)) /\
  (exists hsc sc rest,
     skipn 9 (log (final (InitDevice false host_dx11_0 fresh))) =
       EvCreateSwapChain h_factory h_device
         {| sd_BufferDesc :=
              {| md_Width := 1280;
                 md_Height := 720;
                 md_RefreshRate := {| Numerator := 60; Denominator := 1 |};
                 md_Format := DXGI_FORMAT_R8G8B8A8_UNORM;
                 md_ScanlineOrdering := 0;
                 md_Scaling := 0 |};
            sd_SampleDesc := {| Count := 1; Quality := 0 |};
            sd_BufferUsage := DXGI_USAGE_RENDER_TARGET_OUTPUT;
            sd_BufferCount := 1;
            sd_OutputWindow := h_window;
            sd_Windowed := TRUE;
            sd_SwapEffect := 0;
            sd_Flags := 0 |}
         hsc sc :: rest /\
     swap_chain_sizes rest = [] /\
     h_swapChain = sc).
Proof.
  split.
  - assert (El : log (final (InitDevice false host_dxgi12 fresh)) =
                 log fresh ++ log (final (InitDevice false host_dxgi12 fresh)))
      by (vm_compute; reflexivity).
    assert (Hf : find_call (is_query IID_IDXGIFactory2)
                   (log (final (InitDevice false host_dxgi12 fresh))) =
                 Some (EvQueryInterface h_factory IID_IDXGIFactory2 S_OK h_factory2,
                       skipn 8 (log (final (InitDevice false host_dxgi12 fresh)))))
      by (vm_compute; reflexivity).
    assert (Hn : h_factory2 <> nullptr) by (vm_compute; discriminate).
    destruct (proj1 (InitDevice_swap_chain_path false host_dxgi12 fresh _ _ _ _ _
                       El Hf) Hn)
      as [(hsc & sc1 & rest & F & S & Q)|(C & _)].
    + exists hsc, sc1, rest. split; [exact F|]. split; [exact S|].
      intros Hp. destruct (Q Hp) as [(hq & sc & rest' & E1 & E2)|(_ & _ & C)].
      * exists hq, sc, rest'. split; [exact E1|]. vm_compute in E2. exact E2.
      * vm_compute in C. discriminate C.
    + vm_compute in C. discriminate C.
  - assert (El : log (final (InitDevice false host_dx11_0 fresh)) =
                 log fresh ++ log (final (InitDevice false host_dx11_0 fresh)))
      by (vm_compute; reflexivity).
    assert (Hf : find_call (is_query IID_IDXGIFactory2)
                   (log (final (InitDevice false host_dx11_0 fresh))) =
                 Some (EvQueryInterface h_factory IID_IDXGIFactory2 E_NOINTERFACE
                         nullptr,
                       skipn 9 (log (final (InitDevice false host_dx11_0 fresh)))))
      by (vm_compute; reflexivity).
    destruct (proj2 (InitDevice_swap_chain_path false host_dx11_0 fresh _ _ _ _ _
                       El Hf) eq_refl)
      as (hsc & sc & rest & E1 & S & E2).
    exists hsc, sc, rest. split; [|split; [exact S|]].
    + rewrite E1. vm_compute. reflexivity.
    + vm_compute in E2. exact E2.
Defined.

Lemma is_get_parent_create e : is_create e = true -> is_get_parent e = false.
Proof. destruct e; cbn; congruence. Qed.

Lemma is_window_association_create e :
  is_create e = true -> is_window_association e = false.
Proof. destruct e; cbn; congruence. Qed.

Lemma init_with_device_upgrade P w h r l :
  forall hr s',
  init_with_device P w h (mkState r l) = Done hr s' ->
  exists revs,
    log s' = l ++ revs /\
    forall dev h1 d1 post,
      find_call (is_query IID_ID3D11Device1) revs =
        Some (EvQueryInterface dev IID_ID3D11Device1 h1 d1, post) ->
      exists f2 dv hw sd hsc sc1 rest,
        (h1 < 0 /\
         post = EvCreateSwapChainForHwnd f2 dv hw sd hsc sc1 :: rest \/
         0 <= h1 /\
         exists ctx h2 c1,
           post = EvQueryInterface ctx IID_ID3D11DeviceContext1 h2 c1
                    :: EvCreateSwapChainForHwnd f2 dv hw sd hsc sc1 :: rest) /\
        (hr = S_OK \/
         hr < 0 /\
         last_checked (EvCreateSwapChainForHwnd f2 dv hw sd hsc sc1 :: rest) =
           Some hr).
Proof.
  destruct r as [hWnd0 drv0 lvl0 dev0 dev1_0 ctx0 ctx1_0 sc0 sc1_0 rtv0].
  run_done.
  all: norm_log; (eexists; split; [log_eq|]).
  all: intros dev h1' d1 post Hf; observe; try discriminate.
  all: injection Hf as <- <- <- <-.
  all: arith_hyps; do 7 eexists.
  all: split;
    [ first [ left; split; [assumption | reflexivity]
            | right; split; [assumption | do 3 eexists; reflexivity] ]
    | observe;
      first [ left; reflexivity | right; split; [assumption | reflexivity] ] ].
Qed.

Lemma init_with_device_window_association P w h r l :
  forall hr s',
  init_with_device P w h (mkState r l) = Done hr s' ->
  exists revs,
    log s' = l ++ revs /\
    forall e post,
      find_call is_swap_chain_creation revs = Some (e, post) ->
      exists factory hm rest,
        find_call is_window_association post =
          Some (EvMakeWindowAssociation factory (m_hWnd r)
                  DXGI_MWA_NO_ALT_ENTER hm,
                EvRelease factory :: rest) /\
        (exists a hp rest0,
           find_call is_get_parent revs =
             Some (EvGetParent a IID_IDXGIFactory1 hp factory, rest0)) /\
        (forall hsc, checked_hr e = Some hsc -> hsc < 0 ->
                     rest = [] /\ hr = hsc).
Proof.
  destruct r as [hWnd0 drv0 lvl0 dev0 dev1_0 ctx0 ctx1_0 sc0 sc1_0 rtv0].
  run_done.
  all: norm_log; (eexists; split; [log_eq|]).
  all: intros e post Hf; observe; try discriminate.
  all: injection Hf as <- <-.
  all: arith_hyps; do 3 eexists.
  all: split; [reflexivity|].
  all: split; [do 3 eexists; reflexivity|].
  all: observe; intros hsc Hsc Hneg; injection Hsc as ->.
  all: try absurd_hr.
  all: split; reflexivity.
Qed.

(** C6.  On the per-window path the upgrade queries decide nothing: after
    the ID3D11Device1 query the only call before CreateSwapChainForHwnd is
    the ID3D11DeviceContext1 query, made exactly when the device query
    succeeded, and swap-chain creation follows whatever the two queries
    returned.  InitDevice then returns S_OK, or else a failure that is the
    HRESULT of the last tested call from swap-chain creation on; so when
    swap-chain creation and every tested call after it succeed, InitDevice
    returns S_OK even though an upgrade query failed. *)
Theorem InitDevice_upgrade_best_effort D P s hr s' evs dev h1 d1 post :
  InitDevice D P s = Done hr s' ->
  log s' = log s ++ evs ->
  find_call (is_query IID_ID3D11Device1) evs =
    Some (EvQueryInterface dev IID_ID3D11Device1 h1 d1, post) ->
  exists f2 dv hw sd hsc sc1 rest,
    (h1 < 0 /\
     post = EvCreateSwapChainForHwnd f2 dv hw sd hsc sc1 :: rest \/
     0 <= h1 /\
     exists ctx h2 c1,
       post = EvQueryInterface ctx IID_ID3D11DeviceContext1 h2 c1
                :: EvCreateSwapChainForHwnd f2 dv hw sd hsc sc1 :: rest) /\
    (hr = S_OK \/
     hr < 0 /\
     last_checked (EvCreateSwapChainForHwnd f2 dv hw sd hsc sc1 :: rest) =
       Some hr) /\
    ((forall c, In c (collect checked_hr
                        (EvCreateSwapChainForHwnd f2 dv hw sd hsc sc1 :: rest)) ->
                0 <= c) ->
     hr = S_OK).
Proof.
  intros E El Hf. destruct s as [r l]. cbn [log renderer] in *.
  destruct (InitDevice_done_calls D P r l hr s' evs E El)
    as (levs & hr1 & revs & R & -> & [(_ & _ & _ & ->)|(H1 & E1 & El1)]).
  - exfalso.
    erewrite find_call_stages in Hf;
      [discriminate | exact R | reflexivity | apply is_query_create].
  - erewrite find_call_stages in Hf;
      [| exact R | reflexivity | apply is_query_create].
    destruct (init_with_device_upgrade P _ _ _ _ hr s' E1) as (revs' & El' & Hup).
    rewrite El' in El1. cbn [log] in El1. apply app_inv_head in El1. subst revs'.
    destruct (Hup dev h1 d1 post Hf)
      as (f2 & dv & hw & sd & hsc & sc1 & rest & Hpost & Hret).
    exists f2, dv, hw, sd, hsc, sc1, rest.
    split; [exact Hpost|]. split; [exact Hret|].
    intros Hall. destruct Hret as [Hok|[Hneg Hlast]]; [exact Hok|].
    exfalso. unfold last_checked in Hlast.
    set (cs := collect checked_hr _) in *.
    assert (Hin : In (Some hr) (map Some cs)).
    { rewrite <- Hlast. apply last_In.
      destruct cs; [cbn in Hlast; discriminate | discriminate]. }
    apply in_map_iff in Hin. destruct Hin as (c & Ec & Hc).
    injection Ec as ->. specialize (Hall hr Hc). absurd_hr.
Qed.

Lemma InitDevice_upgrade_best_effort_witness :
  exists f2 dv hw sd hsc sc1 rest,
    (E_NOINTERFACE < 0 /\
     skipn 9 (log (final (InitDevice false host_no_v1 fresh))) =
       EvCreateSwapChainForHwnd f2 dv hw sd hsc sc1 :: rest \/
     0 <= E_NOINTERFACE /\
     exists ctx h2 c1,
       skipn 9 (log (final (InitDevice false host_no_v1 fresh))) =
         EvQueryInterface ctx IID_ID3D11DeviceContext1 h2 c1
           :: EvCreateSwapChainForHwnd f2 dv hw sd hsc sc1 :: rest) /\
    (S_OK = S_OK \/
     S_OK < 0 /\
     last_checked (EvCreateSwapChainForHwnd f2 dv hw sd hsc sc1 :: rest) =
       Some S_OK) /\
    ((forall c, In c (collect checked_hr
                        (EvCreateSwapChainForHwnd f2 dv hw sd hsc sc1 :: rest)) ->
                0 <= c) ->
     S_OK = S_OK).
Proof.
  apply (InitDevice_upgrade_best_effort false host_no_v1 fresh S_OK
           (final (InitDevice false host_no_v1 fresh))
           (log (final (InitDevice false host_no_v1 fresh)))
           h_device E_NOINTERFACE nullptr
           (skipn 9 (log (final (InitDevice false host_no_v1 fresh))))).
  - vm_compute. reflexivity.
  - vm_compute. reflexivity.
  - vm_compute. reflexivity.
Defined.

(** C9.  In every InitDevice that returns after making a swap-chain
    creation call, on either path, that call is followed by
    MakeWindowAssociation on the factory, for the window, with
    DXGI_MWA_NO_ALT_ENTER, and then at once by the Release of the factory;
    when the creation call failed these are the last two calls and
    InitDevice returns the failure code of the creation call. *)
Theorem InitDevice_window_association D P s hr s' evs e post :
  InitDevice D P s = Done hr s' ->
  log s' = log s ++ evs ->
  find_call is_swap_chain_creation evs = Some (e, post) ->
  exists factory hm rest,
    find_call is_window_association post =
      Some (EvMakeWindowAssociation factory (m_hWnd (renderer s))
              DXGI_MWA_NO_ALT_ENTER hm,
            EvRelease factory :: rest) /\
    (exists a hp rest0,
       find_call is_get_parent evs =
         Some (EvGetParent a IID_IDXGIFactory1 hp factory, rest0)) /\
    (forall hsc, checked_hr e = Some hsc -> hsc < 0 -> rest = [] /\ hr = hsc).
Proof.
  intros E El Hf. destruct s as [r l]. cbn [log renderer] in *.
  destruct (InitDevice_done_calls D P r l hr s' evs E El)
    as (levs & hr1 & revs & R & -> & [(_ & _ & _ & ->)|(H1 & E1 & El1)]).
  - exfalso.
    erewrite find_call_stages in Hf;
      [discriminate | exact R | reflexivity | apply is_swap_chain_creation_create].
  - erewrite find_call_stages in Hf;
      [| exact R | reflexivity | apply is_swap_chain_creation_create].
    destruct (init_with_device_window_association P _ _ _ _ hr s' E1)
      as (revs' & El' & Hwa).
    rewrite El' in El1. cbn [log] in El1. apply app_inv_head in El1. subst revs'.
    destruct (Hwa e post Hf) as (factory & hm & rest & H2 & H3 & H4).
    destruct (created_frame levs r) as (Hw & _). cbv zeta in Hw.
    rewrite Hw in H2.
    exists factory, hm, rest. split; [exact H2|]. split; [|exact H4].
    erewrite find_call_stages;
      [exact H3 | exact R | reflexivity | apply is_get_parent_create].
Qed.

Lemma InitDevice_window_association_witness :
  exists factory hm rest,
    find_call is_window_association
      [EvMakeWindowAssociation h_factory h_window DXGI_MWA_NO_ALT_ENTER S_OK;
       EvRelease h_factory] =
      Some (EvMakeWindowAssociation factory h_window DXGI_MWA_NO_ALT_ENTER hm,
            EvRelease factory :: rest) /\
    (exists a hp rest0,
       find_call is_get_parent
         (log (final (InitDevice false host_no_swap_chain fresh))) =
         Some (EvGetParent a IID_IDXGIFactory1 hp factory, rest0)) /\
    (forall hsc,
       checked_hr
         (EvCreateSwapChain h_factory h_device
            (swap_chain_desc 1280 720 h_window) E_FAIL nullptr) = Some hsc ->
       hsc < 0 -> rest = [] /\ E_FAIL = hsc).
Proof.
  apply (InitDevice_window_association false host_no_swap_chain fresh E_FAIL
           (final (InitDevice false host_no_swap_chain fresh))
           (log (final (InitDevice false host_no_swap_chain fresh)))).
  - vm_compute. reflexivity.
  - vm_compute. reflexivity.
  - vm_compute. reflexivity.
Defined.

Lemma InitDevice_success_all_resources_witness :
  m_pDevice (renderer initialized) <> nullptr /\
  m_pImmediateContext (renderer initialized) <> nullptr /\
  m_pSwapChain (renderer initialized) <> nullptr /\
  m_pRenderTargetView (renderer initialized) <> nullptr.
Proof.
  apply (InitDevice_success_all_resources false host_dxgi12 fresh S_OK initialized).
  - intros l this pResource _. cbn. discriminate.
  - vm_compute. reflexivity.
  - unfold S_OK. lia.
Defined.

(** * Further properties *)

Lemma loop_run_last flags types evs hr0 hr :
  loop_run flags types evs hr0 hr ->
  last (map snd (creations evs)) hr0 = hr.
Proof.
  induction 1; try reflexivity.
  - change (creations (?a :: ?b)) with (creations [a] ++ creations b).
    cbn [creations collect flat_map creation_of app map snd].
    rewrite last_cons_default. exact IHloop_run.
  - change (creations (?a :: ?c :: ?b)) with (creations [a; c] ++ creations b).
    cbn [creations collect flat_map creation_of app map snd].
    rewrite !last_cons_default. exact IHloop_run.
Qed.

Lemma loop_run_tested flags types evs hr0 hr :
  loop_run flags types evs hr0 hr ->
  collect tested_hr evs = map snd (creations evs) /\
  collect stage_hr evs = [].
Proof.
  induction 1 as [ | | ? ? ? ? ? ? ? ? ? ? ? ? [IH1 IH2] | | ? ? ? ? ? ? ? ? ? ? ? ? ? ? [IH1 IH2]];
    split; try reflexivity.
  - change (collect tested_hr (?a :: ?b)) with (collect tested_hr [a] ++ collect tested_hr b).
    change (creations (?a :: ?b)) with (creations [a] ++ creations b).
    rewrite map_app, IH1. reflexivity.
  - exact IH2.
  - change (collect tested_hr (?a :: ?c :: ?b))
      with (collect tested_hr [a; c] ++ collect tested_hr b).
    change (creations (?a :: ?c :: ?b)) with (creations [a; c] ++ creations b).
    rewrite map_app, IH1. reflexivity.
  - exact IH2.
Qed.

Lemma loop_run_nonempty flags d types evs hr0 hr :
  loop_run flags (d :: types) evs hr0 hr -> creations evs <> [].
Proof. inversion 1; discriminate. Qed.

Lemma last_app_nonempty {A} (a b : list A) d : b <> [] -> last (a ++ b) d = last b d.
Proof.
  intros Hb. induction a as [|x a IH]; [reflexivity|].
  cbn [app]. destruct (a ++ b) eqn:E.
  - destruct a; [cbn in E; congruence | discriminate].
  - rewrite <- IH. reflexivity.
Qed.

Lemma last_map_Some {A} (l : list A) d :
  l <> [] -> last (map Some l) None = Some (last l d).
Proof.
  induction l as [|a [|b l] IH]; intros H; [congruence | reflexivity |].
  change (map Some (a :: b :: l)) with (Some a :: map Some (b :: l)).
  rewrite !last_cons_default.
  specialize (IH ltac:(discriminate)).
  change (map Some (b :: l)) with (Some b :: map Some l) in IH.
  rewrite !last_cons_default in IH.
  change (map Some (b :: l)) with (Some b :: map Some l).
  destruct l as [|c l]; [reflexivity|].
  change (map Some (c :: l)) with (Some c :: map Some l) in *.
  rewrite !last_cons_default in *. exact IH.
Qed.

Ltac observe_hr :=
  cbn [collect flat_map tested_hr stage_hr last_tested removelast map last app] in *.

Lemma init_with_device_fail_fast P w h r l :
  forall hr s',
  init_with_device P w h (mkState r l) = Done hr s' ->
  exists revs,
    log s' = l ++ revs /\
    (hr = S_OK \/ hr < 0) /\
    collect stage_hr revs <> [] /\
    collect tested_hr revs = collect stage_hr revs /\
    (hr < 0 -> last (map Some (collect stage_hr revs)) None = Some hr) /\
    Forall (fun x => 0 <= x) (removelast (collect stage_hr revs)) /\
    (hr = S_OK -> Forall (fun x => 0 <= x) (collect stage_hr revs)).
Proof.
  destruct r as [hWnd0 drv0 lvl0 dev0 dev1_0 ctx0 ctx1_0 sc0 sc1_0 rtv0].
  run_done.
  all: norm_log; (eexists; split; [log_eq|]); observe_hr; arith_hyps.
  all: split; [first [left; reflexivity | right; assumption]|].
  all: split; [discriminate|].
  all: split; [reflexivity|].
  all: split; [intros Hneg; first [reflexivity | absurd_hr]|].
  all: split; [repeat constructor; assumption|].
  all: intros Hok; first [repeat constructor; assumption | absurd_hr].
Qed.

(** X1.  A returning InitDevice returns S_OK or a failure, never another
    success code.  A failure returned is the HRESULT of the last call whose
    result InitDevice tests; once the device exists the stages are
    fail-fast, so every tested call before that last one succeeded. *)
Theorem InitDevice_fail_fast D P s hr s' evs :
  InitDevice D P s = Done hr s' ->
  log s' = log s ++ evs ->
  (hr = S_OK \/ hr < 0) /\
  (hr < 0 -> last_tested evs = Some hr) /\
  Forall (fun x => 0 <= x) (removelast (collect stage_hr evs)) /\
  (hr = S_OK -> Forall (fun x => 0 <= x) (collect stage_hr evs)).
Proof.
  intros E El. destruct s as [r l]. cbn [log renderer] in *.
  destruct (InitDevice_done_calls D P r l hr s' evs E El)
    as (levs & hr1 & revs & R & -> & [(Hneg & -> & _ & ->)|(H1 & E1 & El1)]).
  - rewrite app_nil_r.
    destruct (loop_run_tested _ _ _ _ _ R) as [T1 T2].
    unfold last_tested.
    rewrite (collect_cons_none tested_hr) by reflexivity.
    rewrite (collect_cons_none stage_hr) by reflexivity.
    rewrite T1, T2.
    split; [right; exact Hneg|].
    split.
    + intros _. rewrite <- (loop_run_last _ _ _ _ _ R).
      apply last_map_Some.
      intros N. apply (loop_run_nonempty _ _ _ _ _ _ R).
      destruct (creations levs); [reflexivity | discriminate].
    + split; [constructor | intros; constructor].
  - destruct (init_with_device_fail_fast P _ _ _ _ hr s' E1)
      as (revs' & El' & Hret & Hne & Ht & Hlast & Hpre & Hok).
    rewrite El' in El1. cbn [log] in El1. apply app_inv_head in El1. subst revs'.
    destruct (loop_run_tested _ _ _ _ _ R) as [T1 T2].
    assert (S : collect stage_hr
                  (EvGetClientRect (m_hWnd r) (p_GetClientRect P l (m_hWnd r))
                     :: levs ++ revs) = collect stage_hr revs).
    { rewrite (collect_cons_none stage_hr) by reflexivity. rewrite collect_app, T2.
      reflexivity. }
    rewrite S.
    split; [exact Hret|]. split; [|split; assumption].
    intros Hneg. unfold last_tested.
    rewrite (collect_cons_none tested_hr) by reflexivity.
    rewrite collect_app, Ht, map_app.
    rewrite last_app_nonempty; [exact (Hlast Hneg)|].
    destruct (collect stage_hr revs); [congruence | discriminate].
Qed.

Lemma InitDevice_fail_fast_witness :
  (E_FAIL = S_OK \/ E_FAIL < 0) /\
  (E_FAIL < 0 ->
   last_tested (log (final (InitDevice false host_no_swap_chain fresh))) =
     Some E_FAIL) /\
  Forall (fun x => 0 <= x)
    (removelast
       (collect stage_hr (log (final (InitDevice false host_no_swap_chain fresh))))) /\
  (E_FAIL = S_OK ->
   Forall (fun x => 0 <= x)
     (collect stage_hr (log (final (InitDevice false host_no_swap_chain fresh))))).
Proof.
  apply (InitDevice_fail_fast false host_no_swap_chain fresh E_FAIL
           (final (InitDevice false host_no_swap_chain fresh))
           (log (final (InitDevice false host_no_swap_chain fresh)))).
  - vm_compute. reflexivity.
  - vm_compute. reflexivity.
Defined.

Ltac chain :=
  repeat match goal with
         | |- _ -> _ => intro; try solve [absurd_hr]
         | |- _ /\ _ => split
         | |- exists _, _ => eexists
         | |- _ = _ => reflexivity
         end.

Lemma init_with_device_factory_chain P w h r l :
  forall hr s',
  init_with_device P w h (mkState r l) = Done hr s' ->
  exists revs h1 dd post,
    log s' = l ++ revs /\
    revs = EvQueryInterface (m_pDevice r) IID_IDXGIDevice h1 dd :: post /\
    (h1 < 0 -> post = [] /\ hr = h1) /\
    (0 <= h1 ->
     exists h2 ad post2,
       post = EvGetAdapter dd h2 ad :: post2 /\
       (h2 < 0 -> post2 = [EvRelease dd] /\ hr = h2) /\
       (0 <= h2 ->
        exists h3 f post3,
          post2 = EvGetParent ad IID_IDXGIFactory1 h3 f
                    :: EvRelease ad :: EvRelease dd :: post3 /\
          (h3 < 0 -> post3 = [] /\ hr = h3) /\
          (0 <= h3 ->
           exists h4 f2 post4,
             post3 = EvQueryInterface f IID_IDXGIFactory2 h4 f2 :: post4))).
Proof.
  destruct r as [hWnd0 drv0 lvl0 dev0 dev1_0 ctx0 ctx1_0 sc0 sc1_0 rtv0].
  run_done.
  all: norm_log; arith_hyps; cbn [m_pDevice].
  all: do 4 eexists; (split; [reflexivity|]); (split; [reflexivity|]).
  all: chain.
Qed.

(** X2.  The factory is reached from the device in three steps, each made
    on what the step before stored: the device is queried for IDXGIDevice,
    GetAdapter is called on the result, GetParent(IDXGIFactory1) on the
    adapter.  The adapter is released right after GetParent and the DXGI
    device right after that, also when a later step failed.  A failing
    step ends InitDevice with that step's HRESULT and nothing but those
    releases after it; when all three succeed the next call queries the
    factory GetParent stored for IDXGIFactory2. *)
Theorem InitDevice_factory_chain D P s hr s' evs dev h1 dd post :
  InitDevice D P s = Done hr s' ->
  log s' = log s ++ evs ->
  find_call (is_query IID_IDXGIDevice) evs =
    Some (EvQueryInterface dev IID_IDXGIDevice h1 dd, post) ->
  dev = m_pDevice (renderer s') /\
  (h1 < 0 -> post = [] /\ hr = h1) /\
  (0 <= h1 ->
   exists h2 ad post2,
     post = EvGetAdapter dd h2 ad :: post2 /\
     (h2 < 0 -> post2 = [EvRelease dd] /\ hr = h2) /\
     (0 <= h2 ->
      exists h3 f post3,
        post2 = EvGetParent ad IID_IDXGIFactory1 h3 f
                  :: EvRelease ad :: EvRelease dd :: post3 /\
        (h3 < 0 -> post3 = [] /\ hr = h3) /\
        (0 <= h3 ->
         exists h4 f2 post4,
           post3 = EvQueryInterface f IID_IDXGIFactory2 h4 f2 :: post4))).
Proof.
  intros E El Hf. destruct s as [r l]. cbn [log renderer] in *.
  destruct (InitDevice_done_calls D P r l hr s' evs E El)
    as (levs & hr1 & revs & R & -> & [(_ & _ & _ & ->)|(H1 & E1 & El1)]).
  - exfalso.
    erewrite find_call_stages in Hf;
      [discriminate | exact R | reflexivity | apply is_query_create].
  - erewrite find_call_stages in Hf;
      [| exact R | reflexivity | apply is_query_create].
    destruct (init_with_device_factory_chain P _ _ _ _ hr s' E1)
      as (revs' & h1' & dd' & post' & El' & Er & Hchain).
    rewrite El' in El1. cbn [log] in El1. apply app_inv_head in El1. subst revs'.
    subst revs. cbn [find_call is_query IID_eqb] in Hf.
    injection Hf as <- <- <- <-.
    split; [|exact Hchain].
    match type of E1 with init_with_device _ ?w ?h (mkState ?r1 ?l1) = _ =>
      destruct (init_with_device_frame P w h r1 l1) as (_ & _ & _ & _ & _ & _ & _ & Hd & _)
    end.
    cbv zeta in Hd. rewrite E1 in Hd. cbn [final] in Hd. symmetry. exact Hd.
Qed.

Lemma InitDevice_factory_chain_witness :
  h_device = m_pDevice (renderer initialized) /\
  (S_OK < 0 -> skipn 3 (log initialized) = [] /\ S_OK = S_OK) /\
  (0 <= S_OK ->
   exists h2 ad post2,
     skipn 3 (log initialized) = EvGetAdapter h_dxgiDevice h2 ad :: post2 /\
     (h2 < 0 -> post2 = [EvRelease h_dxgiDevice] /\ S_OK = h2) /\
     (0 <= h2 ->
      exists h3 f post3,
        post2 = EvGetParent ad IID_IDXGIFactory1 h3 f
                  :: EvRelease ad :: EvRelease h_dxgiDevice :: post3 /\
        (h3 < 0 -> post3 = [] /\ S_OK = h3) /\
        (0 <= h3 ->
         exists h4 f2 post4,
           post3 = EvQueryInterface f IID_IDXGIFactory2 h4 f2 :: post4))).
Proof.
  apply (InitDevice_factory_chain false host_dxgi12 fresh S_OK initialized
           (log initialized) h_device S_OK h_dxgiDevice (skipn 3 (log initialized))).
  - vm_compute. reflexivity.
  - vm_compute. reflexivity.
  - vm_compute. reflexivity.
Defined.

(** ** Reference accounting *)

Lemma hands_out_null p : hands_out p nullptr = 0%nat.
Proof.
  unfold hands_out, is_null. destruct (p =? nullptr); reflexivity.
Qed.

Lemma hands_out_set p q : is_null q = false -> hands_out p q = same p q.
Proof.
  unfold hands_out, same, is_null. intros Hq.
  destruct (p =? q) eqn:E; [|rewrite andb_false_r; reflexivity].
  apply Z.eqb_eq in E. subst q. rewrite Hq. reflexivity.
Qed.

Lemma acquired_app p a b : acquired p (a ++ b) = (acquired p a + acquired p b)%nat.
Proof. unfold acquired. rewrite map_app, list_sum_app. reflexivity. Qed.

Lemma released_app p a b : released p (a ++ b) = (released p a + released p b)%nat.
Proof. unfold released. rewrite map_app, list_sum_app. reflexivity. Qed.

Lemma released_created p evs :
  Forall (fun e => is_create e = true) evs -> released p evs = 0%nat.
Proof.
  induction 1 as [|e evs He _ IH]; [reflexivity|].
  change (e :: evs) with ([e] ++ evs). rewrite released_app, IH.
  destruct e; cbn in *; try discriminate; reflexivity.
Qed.

Ltac ledger :=
  cbn [released acquired list_sum fold_right map released_by acquired_by] in *;
  repeat match goal with
         | |- context [if ?p =? ?q then 1%nat else 0%nat] =>
             change (if p =? q then 1%nat else 0%nat) with (same p q)
         end;
  repeat match goal with
         | H : is_null ?q = false |- context [hands_out ?p ?q] =>
             rewrite (hands_out_set p q H)
         end.

Lemma init_with_device_never_over_releases P w h r l :
  let o := init_with_device P w h (mkState r l) in
  exists revs,
    log (final o) = l ++ revs /\
    forall p, (released p revs <= acquired p revs)%nat.
Proof.
  cbv zeta.
  destruct r as [hWnd0 drv0 lvl0 dev0 dev1_0 ctx0 ctx1_0 sc0 sc1_0 rtv0].
  run; norm_log; (eexists; split; [log_eq|]); intros x; ledger; lia.
Qed.

(** X3.  Whatever the platform answers and wherever the run ends,
    InitDevice never gives back a reference it was not handed: for every
    pointer the Release calls it has made are at most the times a call
    stored that pointer through an out-parameter. *)
Theorem InitDevice_never_over_releases D P s :
  exists evs,
    log (final (InitDevice D P s)) = log s ++ evs /\
    forall p, (released p evs <= acquired p evs)%nat.
Proof.
  destruct s as [r l]. cbn [log].
  destruct (InitDevice_calls D P r l)
    as (levs & hr1 & revs & R & E & _ & _ & Hneg & Hpos & _).
  cbv zeta in *. eexists. split; [exact E|].
  intros p.
  change (?g :: levs ++ revs) with ([g] ++ levs ++ revs).
  rewrite !released_app, !acquired_app.
  rewrite (released_created p levs (loop_run_creates _ _ _ _ _ R)).
  cbn [released list_sum fold_right map released_by].
  destruct (Z.lt_ge_cases hr1 0) as [Hlt|Hge].
  - destruct (Hneg Hlt) as [-> _]. cbn. lia.
  - specialize (Hpos Hge).
    match type of Hpos with _ = init_with_device _ ?w ?h (mkState ?r1 ?l1) =>
      destruct (init_with_device_never_over_releases P w h r1 l1) as (revs2 & E2 & Hb)
    end.
    cbv zeta in E2. rewrite <- Hpos in E2.
    assert (revs2 = revs).
    { rewrite E2 in E.
      change (l ++ ?g :: levs ++ revs) with (l ++ [g] ++ levs ++ revs) in E.
      change (l ++ ?g :: levs) with (l ++ [g] ++ levs) in E.
      rewrite <- !app_assoc in E. do 3 apply app_inv_head in E. exact E. }
    subst revs2. specialize (Hb p). lia.
Qed.

Lemma hands_out_cases p q :
  hands_out p q = if is_null q then 0%nat else same p q.
Proof.
  destruct (is_null q) eqn:E.
  - apply Z.eqb_eq in E. subst q. apply hands_out_null.
  - apply hands_out_set. exact E.
Qed.

Lemma released_set_handles p qs :
  released p (map EvRelease (set_handles qs)) = list_sum (map (hands_out p) qs).
Proof.
  induction qs as [|q qs IH]; [reflexivity|].
  cbn [map list_sum fold_right]. fold (list_sum (map (hands_out p) qs)).
  rewrite <- IH, hands_out_cases. unfold set_handles. cbn [filter].
  destruct (is_null q); cbn [negb map]; [reflexivity|].
  unfold released. cbn [map list_sum fold_right released_by]. reflexivity.
Qed.

Lemma acquired_set_handles p qs : acquired p (map EvRelease (set_handles qs)) = 0%nat.
Proof.
  unfold set_handles. induction qs as [|q qs IH]; [reflexivity|].
  cbn [filter]. destruct (negb (is_null q)); [|exact IH].
  cbn [map]. unfold acquired in *. cbn [map list_sum fold_right acquired_by].
  exact IH.
Qed.

(** One CleanupDevice gives back exactly the references the handles stand
    for and acquires none. *)
Lemma cleanup_calls_ledger p r :
  released p (cleanup_calls r) = held p r /\ acquired p (cleanup_calls r) = 0%nat.
Proof.
  unfold cleanup_calls. rewrite released_app, acquired_app.
  rewrite released_set_handles, acquired_set_handles.
  unfold set_handles. cbn [filter].
  destruct (negb (is_null (m_pImmediateContext r))); cbn; unfold held; split; lia.
Qed.

Ltac hr_hyps :=
  repeat match goal with
         | H : (_ <? 0) = true |- _ => apply Z.ltb_lt in H
         | H : (_ <? 0) = false |- _ => apply Z.ltb_ge in H
         | H : (0 <=? _) = true |- _ => apply Z.leb_le in H
         | H : (0 <=? _) = false |- _ => apply Z.leb_gt in H
         | H : (_ =? E_INVALIDARG) = true |- _ => apply Z.eqb_eq in H
         | H : (_ =? E_INVALIDARG) = false |- _ => apply Z.eqb_neq in H
         end.

Ltac failed_out C H hr q :=
  let E := fresh in
  pose proof C as E; rewrite H in E; cbn [fst snd] in E;
  let N := fresh in
  assert (N : hr < 0) by zlia;
  specialize (E N); clear N.

Ltac null_creation C :=
  match goal with
  | H : p_D3D11CreateDevice _ ?l' ?a ?b ?c ?e = (?hr, ?q1, ?fl, ?q2) |- _ =>
      is_var q1;
      let E := fresh in
      let N := fresh in
      pose proof (C l' a b c e) as E; rewrite H in E; cbn [fst snd] in E;
      assert (N : hr < 0) by zlia;
      destruct (E N) as [-> ->]; clear N E
  end.

Lemma create_device_loop_ledger D P types :
  stores_null_on_failure P ->
  forall hr0 r l,
    m_pDevice r = nullptr -> m_pImmediateContext r = nullptr ->
    exists evs hr,
      create_device_loop D P types hr0 (mkState r l) =
        Done hr (mkState (fold_left apply_create evs r) (l ++ evs)) /\
      loop_run (createDeviceFlags D) types evs hr0 hr /\
      forall x,
        acquired x evs =
        (hands_out x (m_pDevice (fold_left apply_create evs r)) +
         hands_out x (m_pImmediateContext (fold_left apply_create evs r)))%nat.
Proof.
  intros (C & _).
  induction types as [|d rest IH]; intros hr0 r l Hd Hc.
  - exists [], hr0. cbn. rewrite app_nil_r.
    split; [reflexivity|]. split; [constructor|].
    intros x. rewrite Hd, Hc, hands_out_null. reflexivity.
  - destruct r as [hWnd0 drv0 lvl0 dev0 dev1_0 ctx0 ctx1_0 sc0 sc1_0 rtv0].
    cbn [m_pDevice m_pImmediateContext] in Hd, Hc. subst dev0 ctx0.
    cbn [create_device_loop]. run; hr_hyps.
    + (* retry succeeded *)
      null_creation C.
      norm_log.
      match goal with
      | |- exists evs hr, Done ?h (mkState _ (l ++ ?ev)) = _ /\ _ => exists ev, h
      end.
      split; [reflexivity|]. subst.
      split; [apply run_retry_created; assumption|].
      intros x. cbn. rewrite !hands_out_null. lia.
    + match goal with
      | H : p_D3D11CreateDevice P ?l' ?a ?b ?c ?e = (?hr, ?q1, _, ?q2) |- _ =>
          let E := fresh in
          pose proof (C l' a b c e) as E; rewrite H in E; cbn [fst snd] in E;
          destruct E as [-> ->]; [zlia|]
      end.
      null_creation C.
      match goal with
      | |- context [create_device_loop D P rest ?h (mkState ?r' ?l')] =>
          destruct (IH h r' l' eq_refl eq_refl) as (evs & hr & -> & R & A)
      end.
      norm_log.
      match goal with
      | |- exists evs hr, Done ?h (mkState _ (l ++ ?ev)) = _ /\ _ => exists ev, h
      end.
      split; [reflexivity|]. subst.
      split; [apply run_retry_next; assumption|].
      intros x.
      change (acquired x (?a :: ?b :: evs)) with (acquired x ([a; b] ++ evs)).
      rewrite acquired_app, A. cbn. rewrite !hands_out_null. reflexivity.
    + norm_log.
      match goal with
      | |- exists evs hr, Done ?h (mkState _ (l ++ ?ev)) = _ /\ _ => exists ev, h
      end.
      split; [reflexivity|].
      split; [apply run_created; assumption|].
      intros x. cbn. lia.
    + match goal with
      | H : p_D3D11CreateDevice P ?l' ?a ?b ?c ?e = (?hr, ?q1, _, ?q2), N : ?hr < 0 |- _ =>
          let E := fresh in
          pose proof (C l' a b c e) as E; rewrite H in E; cbn [fst snd] in E;
          destruct (E N) as [-> ->]
      end.
      match goal with
      | |- context [create_device_loop D P rest ?h (mkState ?r' ?l')] =>
          destruct (IH h r' l' eq_refl eq_refl) as (evs & hr & -> & R & A)
      end.
      norm_log.
      match goal with
      | |- exists evs hr, Done ?h (mkState _ (l ++ ?ev)) = _ /\ _ => exists ev, h
      end.
      split; [reflexivity|].
      split; [apply run_next; assumption|].
      intros x.
      change (acquired x (?a :: evs)) with (acquired x ([a] ++ evs)).
      rewrite acquired_app, A. cbn. rewrite !hands_out_null. reflexivity.
Qed.

Ltac null_out C1 C2 C3 C4 C5 C6 C7 :=
  repeat match goal with
         | H : p_QueryInterface _ ?l' ?a ?b = (?hr, ?q) |- _ =>
             is_var q;
             let E := fresh in
             let N := fresh in
             pose proof (C1 l' a b) as E; rewrite H in E; cbn [fst snd] in E;
             assert (N : hr < 0) by zlia;
             specialize (E N); subst q; clear N
         | H : p_GetAdapter _ ?l' ?a = (?hr, ?q) |- _ =>
             is_var q;
             let E := fresh in
             let N := fresh in
             pose proof (C2 l' a) as E; rewrite H in E; cbn [fst snd] in E;
             assert (N : hr < 0) by zlia;
             specialize (E N); subst q; clear N
         | H : p_GetParent _ ?l' ?a ?b = (?hr, ?q) |- _ =>
             is_var q;
             let E := fresh in
             let N := fresh in
             pose proof (C3 l' a b) as E; rewrite H in E; cbn [fst snd] in E;
             assert (N : hr < 0) by zlia;
             specialize (E N); subst q; clear N
         | H : p_CreateSwapChainForHwnd _ ?l' ?a ?b ?c ?d = (?hr, ?q) |- _ =>
             is_var q;
             let E := fresh in
             let N := fresh in
             pose proof (C4 l' a b c d) as E; rewrite H in E; cbn [fst snd] in E;
             assert (N : hr < 0) by zlia;
             specialize (E N); subst q; clear N
         | H : p_CreateSwapChain _ ?l' ?a ?b ?c = (?hr, ?q) |- _ =>
             is_var q;
             let E := fresh in
             let N := fresh in
             pose proof (C5 l' a b c) as E; rewrite H in E; cbn [fst snd] in E;
             assert (N : hr < 0) by zlia;
             specialize (E N); subst q; clear N
         | H : p_GetBuffer _ ?l' ?a ?b ?c = (?hr, ?q) |- _ =>
             is_var q;
             let E := fresh in
             let N := fresh in
             pose proof (C6 l' a b c) as E; rewrite H in E; cbn [fst snd] in E;
             assert (N : hr < 0) by zlia;
             specialize (E N); subst q; clear N
         | H : p_CreateRenderTargetView _ ?l' ?a ?b = (?hr, ?q) |- _ =>
             is_var q;
             let E := fresh in
             let N := fresh in
             pose proof (C7 l' a b) as E; rewrite H in E; cbn [fst snd] in E;
             assert (N : hr < 0) by zlia;
             specialize (E N); subst q; clear N
         end.

Ltac null_known :=
  repeat match goal with
         | H : is_null ?q = true |- _ =>
             is_var q; apply Z.eqb_eq in H; subst q
         end.

Lemma init_with_device_ledger P w h r l :
  stores_null_on_failure P ->
  m_pDevice1 r = nullptr -> m_pImmediateContext1 r = nullptr ->
  m_pSwapChain r = nullptr -> m_pSwapChain1 r = nullptr ->
  m_pRenderTargetView r = nullptr ->
  forall hr s',
  init_with_device P w h (mkState r l) = Done hr s' ->
  exists revs,
    log s' = l ++ revs /\
    forall x,
      (hands_out x (m_pDevice r) + hands_out x (m_pImmediateContext r) +
       acquired x revs =
       released x revs + held x (renderer s'))%nat.
Proof.
  intros (_ & C1 & C2 & C3 & C4 & C5 & C6 & C7).
  destruct r as [hWnd0 drv0 lvl0 dev0 dev1_0 ctx0 ctx1_0 sc0 sc1_0 rtv0].
  cbn [m_pDevice m_pDevice1 m_pImmediateContext m_pImmediateContext1
       m_pSwapChain m_pSwapChain1 m_pRenderTargetView].
  intros -> -> -> -> ->.
  run_done.
  all: hr_hyps; null_out C1 C2 C3 C4 C5 C6 C7; null_known.
  all: norm_log; (eexists; split; [log_eq|]); intros x.
  all: unfold held;
       cbn [renderer m_pDevice m_pDevice1 m_pImmediateContext m_pImmediateContext1
            m_pSwapChain m_pSwapChain1 m_pRenderTargetView];
       ledger; rewrite ?hands_out_null.
  all: repeat match goal with H : _ -> _ |- _ => clear H end.
  all: lia.
Qed.

(** X4.  On a platform that stores null through the out-parameter of a
    failing call, an object that starts without handles is left balanced
    by InitDevice followed by one CleanupDevice, whether InitDevice
    succeeded or returned a failure at any stage: CleanupDevice returns,
    and for every pointer the two together have released exactly as many
    references as they were handed.  Nothing is leaked and nothing is
    released twice. *)
Theorem InitDevice_CleanupDevice_balanced D P s hr s1 :
  stores_null_on_failure P ->
  no_handles (renderer s) ->
  InitDevice D P s = Done hr s1 ->
  exists evs,
    CleanupDevice s1 = Done tt (mkState (renderer s1) (log s ++ evs)) /\
    forall p, released p evs = acquired p evs.
Proof.
  intros C (N1 & N2 & N3 & N4 & N5 & N6 & N7) E.
  destruct s as [r l]. cbn [renderer log] in *.
  destruct (create_device_loop_ledger D P driverTypes C S_OK r
              (l ++ [EvGetClientRect (m_hWnd r) (p_GetClientRect P l (m_hWnd r))])
              N1 N3)
    as (levs & hr1 & Eloop & R & A).
  unfold InitDevice in E.
  cbv beta iota zeta delta [bind member GetClientRect emit ret FAILED] in E.
  cbn [renderer log] in E. rewrite Eloop in E.
  destruct (created_frame levs r) as (_ & F2 & F3 & F4 & F5 & F6).
  cbv zeta in *.
  rewrite CleanupDevice_calls.
  destruct (hr1 <? 0) eqn:Hhr.
  - injection E as <- <-. cbn [renderer log]. norm_log.
    eexists. split; [reflexivity|]. intros p.
    change (?g :: levs ++ ?c) with ([g] ++ levs ++ c).
    rewrite !released_app, !acquired_app.
    rewrite (released_created p levs (loop_run_creates _ _ _ _ _ R)), A.
    destruct (cleanup_calls_ledger p (fold_left apply_create levs r)) as [-> ->].
    unfold held. rewrite F2, F3, F4, F5, F6, N2, N4, N5, N6, N7.
    cbn [released acquired list_sum fold_right map released_by acquired_by].
    rewrite !hands_out_null. lia.
  - match type of E with init_with_device _ ?w ?h (mkState ?r1 ?l1) = _ =>
      destruct (init_with_device_ledger P w h r1 l1 C) with (hr := hr) (s' := s1)
        as (revs & El & B); try congruence
    end.
    rewrite El. norm_log.
    eexists. split; [reflexivity|]. intros p.
    change (?g :: levs ++ revs ++ ?c) with ([g] ++ levs ++ revs ++ c).
    rewrite !released_app, !acquired_app.
    rewrite (released_created p levs (loop_run_creates _ _ _ _ _ R)), A.
    destruct (cleanup_calls_ledger p (renderer s1)) as [-> ->].
    specialize (B p).
    cbn [released acquired list_sum fold_right map released_by acquired_by].
    lia.
Qed.

Lemma host_dxgi12_stores_null : stores_null_on_failure host_dxgi12.
Proof.
  unfold stores_null_on_failure, host_dxgi12, host.
  cbn [p_D3D11CreateDevice p_QueryInterface p_GetAdapter p_GetParent
       p_CreateSwapChainForHwnd p_CreateSwapChain p_GetBuffer
       p_CreateRenderTargetView].
  repeat split; intros; cbn in *; try reflexivity; try (exfalso; zlia).
  - exfalso. unfold create_any in *. zlia.
  - exfalso. unfold create_any in *. zlia.
  - destruct riid; cbn in *; try reflexivity; exfalso; zlia.
Qed.

Lemma InitDevice_CleanupDevice_balanced_witness :
  exists evs,
    CleanupDevice initialized =
      Done tt (mkState (renderer initialized) (log fresh ++ evs)) /\
    forall p, released p evs = acquired p evs.
Proof.
  apply (InitDevice_CleanupDevice_balanced false host_dxgi12 fresh S_OK initialized).
  - exact host_dxgi12_stores_null.
  - vm_compute. repeat split.
  - vm_compute. reflexivity.
Defined.

Lemma is_get_buffer_create e : is_create e = true -> is_get_buffer e = false.
Proof. destruct e; cbn; congruence. Qed.

(** ** The render-target stage *)

Lemma init_with_device_render_target P w h r l :
  forall hr s',
  init_with_device P w h (mkState r l) = Done hr s' ->
  exists revs,
    log s' = l ++ revs /\
    forall sc n riid hgb bb post,
      find_call is_get_buffer revs = Some (EvGetBuffer sc n riid hgb bb, post) ->
      sc = m_pSwapChain (renderer s') /\ n = 0 /\ riid = IID_ID3D11Texture2D /\
      (hgb < 0 -> post = [] /\ hr = hgb) /\
      (0 <= hgb ->
       exists hv rtv post2,
         post = EvCreateRenderTargetView (m_pDevice r) bb hv rtv
                  :: EvRelease bb :: post2 /\
         m_pRenderTargetView (renderer s') = rtv /\
         (hv < 0 -> post2 = [] /\ hr = hv) /\
         (0 <= hv ->
          post2 = [ EvOMSetRenderTargets (m_pImmediateContext r) [rtv] nullptr;
                    EvRSSetViewports (m_pImmediateContext r) [viewport w h] ] /\
          hr = S_OK)).
Proof.
  destruct r as [hWnd0 drv0 lvl0 dev0 dev1_0 ctx0 ctx1_0 sc0 sc1_0 rtv0].
  run_done.
  all: norm_log; (eexists; split; [log_eq|]).
  all: intros sc n riid hgb bb post Hf;
       cbn [find_call is_get_buffer] in Hf; try discriminate.
  all: injection Hf as <- <- <- <- <- <-.
  all: arith_hyps;
       cbn [renderer m_pDevice m_pImmediateContext m_pSwapChain m_pRenderTargetView].
  all: chain.
Qed.

(** X6.  The render target is set up from the swap chain InitDevice keeps:
    buffer 0 is fetched from m_pSwapChain as an ID3D11Texture2D; a failure
    ends InitDevice with that HRESULT.  Otherwise the view is created on
    the device over that buffer and stored in m_pRenderTargetView, and the
    buffer is released at once, also when view creation failed (which ends
    InitDevice with that HRESULT).  After a successful creation the only
    calls left bind that single view, without a depth-stencil view, and one
    viewport, both on the immediate context, and InitDevice returns S_OK. *)
Theorem InitDevice_render_target D P s hr s' evs sc n riid hgb bb post :
  InitDevice D P s = Done hr s' ->
  log s' = log s ++ evs ->
  find_call is_get_buffer evs = Some (EvGetBuffer sc n riid hgb bb, post) ->
  sc = m_pSwapChain (renderer s') /\ n = 0 /\ riid = IID_ID3D11Texture2D /\
  (hgb < 0 -> post = [] /\ hr = hgb) /\
  (0 <= hgb ->
   exists hv rtv post2,
     post = EvCreateRenderTargetView (m_pDevice (renderer s')) bb hv rtv
              :: EvRelease bb :: post2 /\
     m_pRenderTargetView (renderer s') = rtv /\
     (hv < 0 -> post2 = [] /\ hr = hv) /\
     (0 <= hv ->
      exists vp,
        post2 = [ EvOMSetRenderTargets (m_pImmediateContext (renderer s')) [rtv]
                    nullptr;
                  EvRSSetViewports (m_pImmediateContext (renderer s')) [vp] ] /\
        hr = S_OK)).
Proof.
  intros E El Hf. destruct s as [r l]. cbn [log renderer] in *.
  destruct (InitDevice_done_calls D P r l hr s' evs E El)
    as (levs & hr1 & revs & R & -> & [(_ & _ & _ & ->)|(H1 & E1 & El1)]).
  - exfalso.
    erewrite find_call_stages in Hf;
      [discriminate | exact R | reflexivity | apply is_get_buffer_create].
  - erewrite find_call_stages in Hf;
      [| exact R | reflexivity | apply is_get_buffer_create].
    destruct (init_with_device_render_target P _ _ _ _ hr s' E1)
      as (revs' & El' & Hrt).
    rewrite El' in El1. cbn [log] in El1. apply app_inv_head in El1. subst revs'.
    match type of E1 with init_with_device _ ?w ?h (mkState ?r1 ?l1) = _ =>
      destruct (init_with_device_frame P w h r1 l1)
        as (_ & _ & _ & _ & _ & _ & _ & Hd & Hc)
    end.
    cbv zeta in Hd, Hc. rewrite E1 in Hd, Hc. cbn [final] in Hd, Hc.
    destruct (Hrt sc n riid hgb bb post Hf) as (G1 & G2 & G3 & G4 & G5).
    rewrite <- Hd, <- Hc in G5.
    repeat (split; [assumption|]).
    intros Hpos. destruct (G5 Hpos) as (hv & rtv & post2 & Gp & Gr & Gn & Gs).
    exists hv, rtv, post2. repeat (split; [assumption|]).
    intros Hv. destruct (Gs Hv) as [-> ->]. eexists. split; reflexivity.
Qed.

Lemma InitDevice_render_target_witness :
  h_swapChain = m_pSwapChain (renderer initialized) /\ 0 = 0 /\
  IID_ID3D11Texture2D = IID_ID3D11Texture2D /\
  (S_OK < 0 -> skipn 16 (log initialized) = [] /\ S_OK = S_OK) /\
  (0 <= S_OK ->
   exists hv rtv post2,
     skipn 16 (log initialized) =
       EvCreateRenderTargetView (m_pDevice (renderer initialized)) h_backBuffer
         hv rtv :: EvRelease h_backBuffer :: post2 /\
     m_pRenderTargetView (renderer initialized) = rtv /\
     (hv < 0 -> post2 = [] /\ S_OK = hv) /\
     (0 <= hv ->
      exists vp,
        post2 = [ EvOMSetRenderTargets (m_pImmediateContext (renderer initialized))
                    [rtv] nullptr;
                  EvRSSetViewports (m_pImmediateContext (renderer initialized))
                    [vp] ] /\
        S_OK = S_OK)).
Proof.
  apply (InitDevice_render_target false host_dxgi12 fresh S_OK initialized
           (log initialized) h_swapChain 0 IID_ID3D11Texture2D S_OK h_backBuffer
           (skipn 16 (log initialized))).
  - vm_compute. reflexivity.
  - vm_compute. reflexivity.
  - vm_compute. reflexivity.
Defined.

(** ** Rendering what InitDevice set up *)

Lemma Render_run P r l :
  m_pImmediateContext r <> nullptr ->
  m_pSwapChain r <> nullptr ->
  let clear :=
    EvClearRenderTargetView (m_pImmediateContext r) (m_pRenderTargetView r)
      MidnightBlue in
  Render P (mkState r l) =
  Done tt
    (mkState r
       (l ++ [clear;
              EvPresent (m_pSwapChain r) 0 0
                (p_Present P (l ++ [clear]) (m_pSwapChain r) 0 0)])).
Proof.
  destruct r as [hWnd0 drv0 lvl0 dev0 dev1_0 ctx0 ctx1_0 sc0 sc1_0 rtv0].
  cbn [m_pImmediateContext m_pSwapChain m_pRenderTargetView].
  intros Hc Hs. apply Z.eqb_neq in Hc, Hs.
  fold (is_null ctx0) in Hc. fold (is_null sc0) in Hs.
  run. norm_log. reflexivity.
Qed.

Lemma init_with_device_bound P w h r l :
  forall hr s',
  init_with_device P w h (mkState r l) = Done hr s' ->
  0 <= hr ->
  exists revs,
    log s' = l ++ revs /\
    m_pImmediateContext (renderer s') <> nullptr /\
    m_pSwapChain (renderer s') <> nullptr /\
    In (EvOMSetRenderTargets (m_pImmediateContext (renderer s'))
          [m_pRenderTargetView (renderer s')] nullptr) revs /\
    exists hgb bb hv,
      In (EvGetBuffer (m_pSwapChain (renderer s')) 0 IID_ID3D11Texture2D hgb bb)
        revs /\
      In (EvCreateRenderTargetView (m_pDevice (renderer s')) bb hv
            (m_pRenderTargetView (renderer s'))) revs.
Proof.
  destruct r as [hWnd0 drv0 lvl0 dev0 dev1_0 ctx0 ctx1_0 sc0 sc1_0 rtv0].
  run_done.
  all: intros Hhr; arith_hyps; try absurd_hr.
  all: norm_log; (eexists; split; [log_eq|]).
  all: cbn [renderer m_pDevice m_pImmediateContext m_pSwapChain m_pRenderTargetView].
  all: split; [assumption|]; split; [assumption|].
  all: split; [cbn [In]; tauto|].
  all: do 3 eexists; split; cbn [In];
       repeat first [left; reflexivity | right].
Qed.

(** X5.  After a successful InitDevice, Render returns and draws on what
    InitDevice set up: it clears, on the immediate context, the very view
    that InitDevice bound as the render target and created over buffer 0
    of the swap chain, and that swap chain is the one it presents; the
    object is left as InitDevice left it. *)
Theorem Render_after_InitDevice D P s hr s1 evs :
  InitDevice D P s = Done hr s1 ->
  0 <= hr ->
  log s1 = log s ++ evs ->
  let r := renderer s1 in
  (exists hp,
     Render P s1 =
     Done tt
       (mkState r
          (log s1 ++
           [ EvClearRenderTargetView (m_pImmediateContext r)
               (m_pRenderTargetView r) MidnightBlue;
             EvPresent (m_pSwapChain r) 0 0 hp ]))) /\
  In (EvOMSetRenderTargets (m_pImmediateContext r) [m_pRenderTargetView r]
        nullptr) evs /\
  exists hgb bb hv,
    In (EvGetBuffer (m_pSwapChain r) 0 IID_ID3D11Texture2D hgb bb) evs /\
    In (EvCreateRenderTargetView (m_pDevice r) bb hv (m_pRenderTargetView r)) evs.
Proof.
  intros E Hhr El r0. subst r0. destruct s as [r l]. cbn [log renderer] in *.
  destruct (InitDevice_done_calls D P r l hr s1 evs E El)
    as (levs & hr1 & revs & R & -> & [(Hneg & -> & _ & _)|(H1 & E1 & El1)]).
  - absurd_hr.
  - destruct (init_with_device_bound P _ _ _ _ hr s1 E1 Hhr)
      as (revs' & El' & Hc & Hs & Ho & hgb & bb & hv & Hg & Hv).
    rewrite El' in El1. cbn [log] in El1. apply app_inv_head in El1. subst revs'.
    split.
    + destruct s1 as [r1 l1]. cbn [renderer log] in *.
      eexists. apply Render_run; assumption.
    + split; [right; apply in_or_app; right; exact Ho|].
      exists hgb, bb, hv.
      split; right; apply in_or_app; right; assumption.
Qed.

Lemma Render_after_InitDevice_witness :
  (exists hp,
     Render host_dxgi12 initialized =
     Done tt
       (mkState (renderer initialized)
          (log initialized ++
           [ EvClearRenderTargetView (m_pImmediateContext (renderer initialized))
               (m_pRenderTargetView (renderer initialized)) MidnightBlue;
             EvPresent (m_pSwapChain (renderer initialized)) 0 0 hp ]))) /\
  In (EvOMSetRenderTargets (m_pImmediateContext (renderer initialized))
        [m_pRenderTargetView (renderer initialized)] nullptr) (log initialized) /\
  exists hgb bb hv,
    In (EvGetBuffer (m_pSwapChain (renderer initialized)) 0 IID_ID3D11Texture2D
          hgb bb) (log initialized) /\
    In (EvCreateRenderTargetView (m_pDevice (renderer initialized)) bb hv
          (m_pRenderTargetView (renderer initialized))) (log initialized).
Proof.
  apply (Render_after_InitDevice false host_dxgi12 fresh S_OK initialized
           (log initialized)).
  - vm_compute. reflexivity.
  - unfold S_OK. lia.
  - vm_compute. reflexivity.
Defined.

(** X16.  Render has no guard of its own.  On an object without an
    immediate context it calls through null before anything is drawn; with
    a context but no swap chain it still issues the clear and then calls
    through null instead of presenting.  In neither case does it return or
    present a frame. *)
Theorem Render_without_resources P s :
  m_pImmediateContext (renderer s) = nullptr \/ m_pSwapChain (renderer s) = nullptr ->
  returned (Render P s) = None /\
  (m_pImmediateContext (renderer s) = nullptr -> final (Render P s) = s) /\
  (m_pImmediateContext (renderer s) <> nullptr ->
   final (Render P s) =
     mkState (renderer s)
       (log s ++
        [EvClearRenderTargetView (m_pImmediateContext (renderer s))
           (m_pRenderTargetView (renderer s)) MidnightBlue])).
Proof.
  destruct s as [r l].
  destruct r as [hWnd0 drv0 lvl0 dev0 dev1_0 ctx0 ctx1_0 sc0 sc1_0 rtv0].
  cbn [renderer log m_pImmediateContext m_pSwapChain m_pRenderTargetView].
  intros H. run; arith_hyps.
  - repeat split; auto. intros; contradiction.
  - repeat split; auto. intros; contradiction.
  - exfalso. destruct H; contradiction.
Qed.

Lemma Render_without_resources_witness :
  returned (Render host_dxgi12 fresh) = None /\
  (m_pImmediateContext (renderer fresh) = nullptr ->
   final (Render host_dxgi12 fresh) = fresh) /\
  (m_pImmediateContext (renderer fresh) <> nullptr ->
   final (Render host_dxgi12 fresh) =
     mkState (renderer fresh)
       (log fresh ++
        [EvClearRenderTargetView (m_pImmediateContext (renderer fresh))
           (m_pRenderTargetView (renderer fresh)) MidnightBlue])).
Proof.
  apply (Render_without_resources host_dxgi12 fresh).
  left. vm_compute. reflexivity.
Defined.

(** ** What the device-creation calls are given *)

Lemma loop_run_args flags types evs hr0 hr :
  loop_run flags types evs hr0 hr ->
  (length evs <= 2 * length types)%nat /\
  (types <> [] -> 1 <= length evs)%nat /\
  length (creations evs) = length evs /\
  forall e, In e evs ->
    exists d lv h dev lvl ctx,
      e = EvD3D11CreateDevice d flags lv D3D11_SDK_VERSION h dev lvl ctx /\
      In d types /\ (lv = featureLevels \/ lv = tl featureLevels).
Proof.
  induction 1;
    try (destruct IHloop_run as (I1 & I2 & I3 & I4)).
  - split; [cbn; lia|]. split; [congruence|]. split; [reflexivity|].
    intros e He. destruct He.
  - split; [cbn; lia|]. split; [intros _; cbn; lia|]. split; [reflexivity|].
    intros e He. destruct He as [<-|He]; [|destruct He].
    do 6 eexists. split; [reflexivity|]. split; [left|]; auto.
  - split; [cbn [length]; lia|]. split; [intros _; cbn [length]; lia|].
    split; [change (creations (?a :: evs)) with (creations [a] ++ creations evs);
            rewrite length_app, I3; reflexivity|].
    intros e He. destruct He as [<-|He].
    + do 6 eexists. split; [reflexivity|]. split; [left|]; auto.
    + destruct (I4 e He) as (d' & lv & h & dv & lvl & cx & -> & Hd & Hl).
      do 6 eexists. split; [reflexivity|]. split; [right|]; auto.
  - split; [cbn; lia|]. split; [intros _; cbn; lia|]. split; [reflexivity|].
    intros e He. destruct He as [<-|[<-|He]]; [| |destruct He];
      do 6 eexists; (split; [reflexivity|]); (split; [left|]); auto.
  - split; [cbn [length]; lia|]. split; [intros _; cbn [length]; lia|].
    split; [change (creations (?a :: ?b :: evs))
              with (creations [a; b] ++ creations evs);
            rewrite length_app, I3; reflexivity|].
    intros e He. destruct He as [<-|[<-|He]].
    + do 6 eexists. split; [reflexivity|]. split; [left|]; auto.
    + do 6 eexists. split; [reflexivity|]. split; [left|]; auto.
    + destruct (I4 e He) as (d' & lv & h & dv & lvl & cx & -> & Hd & Hl).
      do 6 eexists. split; [reflexivity|]. split; [right|]; auto.
Qed.

(** X7.  InitDevice makes at least one and at most six D3D11CreateDevice
    calls.  Each of them asks for the debug layer exactly in a debug build
    and for nothing else, passes D3D11_SDK_VERSION, names one of the three
    driver types, and offers either the four feature levels from 11_1 down
    to 10_0 or the same list without 11_1. *)
Theorem InitDevice_creation_calls D P s :
  exists evs,
    log (final (InitDevice D P s)) = log s ++ evs /\
    (1 <= length (creations evs) <= 6)%nat /\
    forall d f lv sdk hr dev lvl ctx,
      In (EvD3D11CreateDevice d f lv sdk hr dev lvl ctx) evs ->
      f = (if D then D3D11_CREATE_DEVICE_DEBUG else 0) /\
      sdk = D3D11_SDK_VERSION /\
      In d [D3D_DRIVER_TYPE_HARDWARE; D3D_DRIVER_TYPE_WARP;
            D3D_DRIVER_TYPE_REFERENCE] /\
      (lv = [D3D_FEATURE_LEVEL_11_1; D3D_FEATURE_LEVEL_11_0;
             D3D_FEATURE_LEVEL_10_1; D3D_FEATURE_LEVEL_10_0] \/
       lv = [D3D_FEATURE_LEVEL_11_0; D3D_FEATURE_LEVEL_10_1;
             D3D_FEATURE_LEVEL_10_0]).
Proof.
  destruct s as [r l]. cbn [log].
  destruct (InitDevice_calls D P r l)
    as (levs & hr1 & revs & R & E & F1 & _).
  cbv zeta in *. eexists. split; [exact E|].
  destruct (loop_run_args _ _ _ _ _ R) as (L1 & L2 & L3 & L4).
  split.
  - unfold creations. rewrite (collect_cons_none creation_of) by reflexivity.
    rewrite collect_app. fold (creations levs) (creations revs).
    rewrite (creations_none revs F1), app_nil_r, L3.
    cbn [length driverTypes] in L1. split; [apply L2; discriminate | lia].
  - intros d f lv sdk hr dev lvl ctx [Hg|Hin]; [discriminate|].
    apply in_app_or in Hin. destruct Hin as [Hin|Hin].
    + destruct (L4 _ Hin) as (d' & lv' & h & dv & lvl' & cx & Ee & Hd & Hl).
      injection Ee as -> -> -> -> -> -> -> ->.
      repeat split; auto; try (unfold createDeviceFlags; destruct D; reflexivity).
    + exfalso. rewrite Forall_forall in F1. specialize (F1 _ Hin). discriminate.
Qed.

(** ** The window *)

Lemma window_of_create e : is_create e = true -> window_of e = None.
Proof. destruct e; cbn; congruence. Qed.

Lemma init_with_device_window P w h r l :
  let o := init_with_device P w h (mkState r l) in
  exists revs,
    log (final o) = l ++ revs /\
    Forall (fun x => x = m_hWnd r) (collect window_of revs).
Proof.
  cbv zeta.
  destruct r as [hWnd0 drv0 lvl0 dev0 dev1_0 ctx0 ctx1_0 sc0 sc1_0 rtv0].
  run; norm_log; (eexists; split; [log_eq|]);
    cbn [collect flat_map window_of app sd_OutputWindow swap_chain_desc m_hWnd];
    repeat constructor.
Qed.

Lemma InitDevice_windows D P s :
  exists evs,
    log (final (InitDevice D P s)) = log s ++ evs /\
    Forall (fun hWnd => hWnd = m_hWnd (renderer s)) (collect window_of evs) /\
    m_hWnd (renderer (final (InitDevice D P s))) = m_hWnd (renderer s).
Proof.
  destruct s as [r l]. cbn [log renderer].
  destruct (InitDevice_calls D P r l)
    as (levs & hr1 & revs & R & E & _ & _ & Hneg & Hpos & Hw & _).
  cbv zeta in *. eexists. split; [exact E|]. split; [|exact Hw].
  change (?g :: levs ++ revs) with ([g] ++ levs ++ revs).
  rewrite !collect_app.
  rewrite (collect_created window_of levs window_of_create
             (loop_run_creates _ _ _ _ _ R)).
  cbn [collect flat_map window_of app]. constructor; [reflexivity|].
  destruct (Z.lt_ge_cases hr1 0) as [Hlt|Hge].
  - destruct (Hneg Hlt) as [-> _]. constructor.
  - specialize (Hpos Hge).
    match type of Hpos with _ = init_with_device _ ?w ?h (mkState ?r1 ?l1) =>
      destruct (init_with_device_window P w h r1 l1) as (revs2 & E2 & Hf)
    end.
    cbv zeta in E2. rewrite <- Hpos in E2.
    assert (revs2 = revs).
    { rewrite E2 in E.
      change (l ++ ?g :: levs ++ revs) with (l ++ [g] ++ levs ++ revs) in E.
      change (l ++ ?g :: levs) with (l ++ [g] ++ levs) in E.
      rewrite <- !app_assoc in E. do 3 apply app_inv_head in E. exact E. }
    subst revs2.
    destruct (created_frame levs r) as (Hh & _). cbv zeta in Hh.
    rewrite Hh in Hf. exact Hf.
Qed.

(** X8.  InitDevice works on one window throughout: the client-rectangle
    query, the swap-chain creation on either path and the window
    association all name m_hWnd, and InitDevice leaves m_hWnd as it was. *)
Theorem InitDevice_one_window D P s :
  exists evs,
    log (final (InitDevice D P s)) = log s ++ evs /\
    Forall (fun hWnd => hWnd = m_hWnd (renderer s)) (collect window_of evs) /\
    m_hWnd (renderer (final (InitDevice D P s))) = m_hWnd (renderer s).
Proof. exact (InitDevice_windows D P s). Qed.

(** ** Renderer::InitWindow *)

Ltac answers :=
  repeat match goal with
         | |- context [w_CreateWindow ?W ?l ?a ?b ?c ?d ?e ?f ?g ?h ?i ?j ?k] =>
             generalize (w_CreateWindow W l a b c d e f g h i j k); intro
         | |- context [w_AdjustWindowRect ?W ?l ?a ?b ?c] =>
             generalize (w_AdjustWindowRect W l a b c); intro
         | |- context [w_RegisterClassEx ?W ?l ?a] =>
             generalize (w_RegisterClassEx W l a); intro
         | |- context [w_LoadCursor ?W ?l ?a ?b] =>
             generalize (w_LoadCursor W l a b); intro
         | |- context [w_LoadIcon ?W ?l ?a ?b] =>
             generalize (w_LoadIcon W l a b); intro
         end.

Ltac window_cases :=
  unfold InitWindow; cbv zeta;
  cbn [wemit wlog object m_hInstance];
  answers;
  repeat match goal with
         | |- context [if ?b then _ else _] => destruct b eqn:?
         end;
  cbn [wemit wlog object m_hInstance fst snd].

(** X9.  InitWindow returns S_OK or E_FAIL.  It returns S_OK exactly when
    its last call is ShowWindow, for the window it stored in m_hWnd and
    with the nCmdShow it was given; that window is then non-null,
    m_hInstance is the instance passed in, and ShowWindow was called once.
    When it returns E_FAIL no window has been shown. *)
Theorem InitWindow_result sz W hInst n s :
  let hr := fst (InitWindow sz W hInst n s) in
  let s' := snd (InitWindow sz W hInst n s) in
  exists evs,
    wlog s' = wlog s ++ evs /\
    (hr = S_OK /\
     m_hWnd (object s') <> nullptr /\
     m_hInstance s' = hInst /\
     filter is_show_window evs = [WShowWindow (m_hWnd (object s')) n] /\
     last evs (WPostQuitMessage 0) = WShowWindow (m_hWnd (object s')) n \/
     hr = E_FAIL /\ filter is_show_window evs = []).
Proof.
  destruct s as [hi r l]. window_cases.
  - eexists. rewrite <- !app_assoc. split; [reflexivity|].
    right. split; reflexivity.
  - eexists. rewrite <- !app_assoc. split; [reflexivity|].
    right. split; reflexivity.
  - eexists. rewrite <- !app_assoc. split; [reflexivity|].
    left. cbn [set_m_hWnd m_hWnd]. apply Z.eqb_neq in Heqb0.
    repeat split; auto.
Qed.

(** X10.  When RegisterClassEx answers 0, InitWindow returns E_FAIL at
    once: the object is exactly as before (neither m_hInstance nor m_hWnd
    is written) and no window is created. *)
Theorem InitWindow_registration_failed sz W hInst n s hr s' evs wcex :
  InitWindow sz W hInst n s = (hr, s') ->
  wlog s' = wlog s ++ evs ->
  In (WRegisterClassEx wcex 0) evs ->
  hr = E_FAIL /\
  m_hInstance s' = m_hInstance s /\
  object s' = object s /\
  filter is_create_window evs = [] /\
  last evs (WPostQuitMessage 0) = WRegisterClassEx wcex 0.
Proof.
  destruct s as [hi r l]. cbn [wlog m_hInstance object]. revert hr s'.
  window_cases; intros hr s' E El Hin;
    injection E as <- <-; cbn [wemit wlog m_hInstance object] in *;
    rewrite <- !app_assoc in El; apply app_inv_head in El; subst evs;
    cbn [app In] in Hin.
  - destruct Hin as [Hin|[Hin|[Hin|[Hin|[]]]]]; try discriminate.
    apply Z.eqb_eq in Heqb. subst.
    injection Hin as <-. repeat split; reflexivity.
  - exfalso. apply Z.eqb_neq in Heqb.
    destruct Hin as [Hin|[Hin|[Hin|[Hin|[Hin|[Hin|[]]]]]]]; try discriminate.
    injection Hin as _ Ha. congruence.
  - exfalso. apply Z.eqb_neq in Heqb.
    destruct Hin as [Hin|[Hin|[Hin|[Hin|[Hin|[Hin|[Hin|[]]]]]]]]; try discriminate.
    injection Hin as _ Ha. congruence.
Qed.

(** X11.  When CreateWindow answers null, InitWindow returns E_FAIL
    without showing anything, but the object has changed: m_hInstance is
    the instance passed in and m_hWnd has been overwritten with null,
    whatever it held before. *)
Theorem InitWindow_creation_failed sz W hInst n s hr s' evs
    cls title st x y w h parent menu inst param :
  InitWindow sz W hInst n s = (hr, s') ->
  wlog s' = wlog s ++ evs ->
  In (WCreateWindow cls title st x y w h parent menu inst param nullptr) evs ->
  hr = E_FAIL /\
  m_hInstance s' = hInst /\
  m_hWnd (object s') = nullptr /\
  filter is_show_window evs = [].
Proof.
  destruct s as [hi r l]. cbn [wlog m_hInstance object]. revert hr s'.
  window_cases; intros hr s' E El Hin;
    injection E as <- <-; cbn [wemit wlog m_hInstance object] in *;
    rewrite <- !app_assoc in El; apply app_inv_head in El; subst evs;
    cbn [app In] in Hin.
  - exfalso. destruct Hin as [Hin|[Hin|[Hin|[Hin|[]]]]]; discriminate.
  - destruct Hin as [Hin|[Hin|[Hin|[Hin|[Hin|[Hin|[]]]]]]]; try discriminate.
    apply Z.eqb_eq in Heqb0. cbn [set_m_hWnd m_hWnd].
    repeat split; auto.
  - exfalso. apply Z.eqb_neq in Heqb0.
    destruct Hin as [Hin|[Hin|[Hin|[Hin|[Hin|[Hin|[Hin|[]]]]]]]]; try discriminate.
    injection Hin; intros; unfold nullptr in *; congruence.
Qed.

Lemma InitWindow_registration_failed_witness :
  E_FAIL = E_FAIL /\
  m_hInstance (snd (InitWindow 80 win32_no_class 1 10 unborn)) = m_hInstance unborn /\
  object (snd (InitWindow 80 win32_no_class 1 10 unborn)) = object unborn /\
  filter is_create_window (wlog (snd (InitWindow 80 win32_no_class 1 10 unborn))) = [] /\
  last (wlog (snd (InitWindow 80 win32_no_class 1 10 unborn))) (WPostQuitMessage 0) =
    WRegisterClassEx the_class 0.
Proof.
  apply (InitWindow_registration_failed 80 win32_no_class 1 10 unborn E_FAIL
           (snd (InitWindow 80 win32_no_class 1 10 unborn))
           (wlog (snd (InitWindow 80 win32_no_class 1 10 unborn))) the_class).
  - vm_compute. reflexivity.
  - vm_compute. reflexivity.
  - vm_compute. tauto.
Defined.

Lemma InitWindow_creation_failed_witness :
  E_FAIL = E_FAIL /\
  m_hInstance (snd (InitWindow 80 win32_no_window 1 10 unborn)) = 1 /\
  m_hWnd (object (snd (InitWindow 80 win32_no_window 1 10 unborn))) = nullptr /\
  filter is_show_window (wlog (snd (InitWindow 80 win32_no_window 1 10 unborn))) = [].
Proof.
  apply (InitWindow_creation_failed 80 win32_no_window 1 10 unborn E_FAIL
           (snd (InitWindow 80 win32_no_window 1 10 unborn))
           (wlog (snd (InitWindow 80 win32_no_window 1 10 unborn)))
           "DoomNETWindowClass"%string "Doom.NET"%string
           13238272 CW_USEDEFAULT CW_USEDEFAULT 1296 759 0 0 1 0).
  - vm_compute. reflexivity.
  - vm_compute. reflexivity.
  - vm_compute. tauto.
Defined.

(** X12.  The window comes from the class just registered: the
    CreateWindow call names the class and the instance of the one
    RegisterClassEx call before it, whose window procedure is
    Renderer::WndProc; the three calls RegisterClassEx, AdjustWindowRect
    and CreateWindow follow one another directly, in this order.  Its
    position is left to the system, it has no
    parent and no menu, and its size is the extent of the rectangle that
    AdjustWindowRect returned for a 1280 by 720 client area under
    WS_OVERLAPPEDWINDOW without a menu.  The style passed to CreateWindow
    is that style without the thick frame and the maximize box.  The
    handle returned is stored in m_hWnd and no other member of the object
    but m_hInstance is written. *)
Theorem InitWindow_window_from_class sz W hInst n s hr s' evs
    cls title st x y w h parent menu inst param hWnd :
  InitWindow sz W hInst n s = (hr, s') ->
  wlog s' = wlog s ++ evs ->
  In (WCreateWindow cls title st x y w h parent menu inst param hWnd) evs ->
  (exists wcex atom adjusted,
     In (WRegisterClassEx wcex atom) evs /\ atom <> 0 /\
     lpszClassName wcex = cls /\ hInstance wcex = inst /\
     lpfnWndProc wcex = WNDPROC_WndProc /\
     In (WAdjustWindowRect (mkRECT 0 0 1280 720) WS_OVERLAPPEDWINDOW FALSE
           adjusted) evs /\
     w = to_int (rc_right adjusted - rc_left adjusted) /\
     h = to_int (rc_bottom adjusted - rc_top adjusted) /\
     exists pre post,
       evs = pre ++
             WRegisterClassEx wcex atom
             :: WAdjustWindowRect (mkRECT 0 0 1280 720) WS_OVERLAPPEDWINDOW FALSE
                  adjusted
             :: WCreateWindow cls title st x y w h parent menu inst param hWnd
             :: post) /\
  inst = hInst /\ x = CW_USEDEFAULT /\ y = CW_USEDEFAULT /\
  parent = 0 /\ menu = 0 /\
  Z.lor st (Z.lor WS_THICKFRAME WS_MAXIMIZEBOX) = WS_OVERLAPPEDWINDOW /\
  Z.land st (Z.lor WS_THICKFRAME WS_MAXIMIZEBOX) = 0 /\
  object s' = set_m_hWnd hWnd (object s) /\
  m_hInstance s' = hInst.
Proof.
  destruct s as [hi r l]. cbn [wlog m_hInstance object]. revert hr s'.
  window_cases; intros hr s' E El Hin;
    injection E as <- <-; cbn [wemit wlog m_hInstance object] in *;
    rewrite <- !app_assoc in El; apply app_inv_head in El; subst evs;
    cbn [app In] in Hin.
  - exfalso. destruct Hin as [Hin|[Hin|[Hin|[Hin|[]]]]]; discriminate.
  - destruct Hin as [Hin|[Hin|[Hin|[Hin|[Hin|[Hin|[]]]]]]]; try discriminate.
    injection Hin as <- <- <- <- <- <- <- <- <- <- <- <-.
    apply Z.eqb_neq in Heqb.
    split; [|repeat split; reflexivity].
    do 3 eexists. cbn [app In lpszClassName hInstance lpfnWndProc].
    split; [do 3 right; left; reflexivity|].
    split; [exact Heqb|].
    do 3 (split; [reflexivity|]).
    split; [do 4 right; left; reflexivity|].
    do 2 (split; [reflexivity|]).
    match goal with
    | |- exists pre post, ?a :: ?b :: ?c :: _ = _ => exists [a; b; c]
    end.
    eexists. reflexivity.
  - destruct Hin as [Hin|[Hin|[Hin|[Hin|[Hin|[Hin|[Hin|[]]]]]]]]; try discriminate.
    injection Hin as <- <- <- <- <- <- <- <- <- <- <- <-.
    apply Z.eqb_neq in Heqb.
    split; [|repeat split; reflexivity].
    do 3 eexists. cbn [app In lpszClassName hInstance lpfnWndProc].
    split; [do 3 right; left; reflexivity|].
    split; [exact Heqb|].
    do 3 (split; [reflexivity|]).
    split; [do 4 right; left; reflexivity|].
    do 2 (split; [reflexivity|]).
    match goal with
    | |- exists pre post, ?a :: ?b :: ?c :: _ = _ => exists [a; b; c]
    end.
    eexists. reflexivity.
Qed.

Lemma InitWindow_window_from_class_witness :
  (exists wcex atom adjusted,
     In (WRegisterClassEx wcex atom) (wlog (snd (InitWindow 80 win32_ok 1 10 unborn))) /\
     atom <> 0 /\
     lpszClassName wcex = "DoomNETWindowClass"%string /\ hInstance wcex = 1 /\
     lpfnWndProc wcex = WNDPROC_WndProc /\
     In (WAdjustWindowRect (mkRECT 0 0 1280 720) WS_OVERLAPPEDWINDOW FALSE
           adjusted) (wlog (snd (InitWindow 80 win32_ok 1 10 unborn))) /\
     1296 = to_int (rc_right adjusted - rc_left adjusted) /\
     759 = to_int (rc_bottom adjusted - rc_top adjusted) /\
     exists pre post,
       wlog (snd (InitWindow 80 win32_ok 1 10 unborn)) =
         pre ++
         WRegisterClassEx wcex atom
         :: WAdjustWindowRect (mkRECT 0 0 1280 720) WS_OVERLAPPEDWINDOW FALSE
              adjusted
         :: WCreateWindow "DoomNETWindowClass"%string "Doom.NET"%string
              13238272 CW_USEDEFAULT CW_USEDEFAULT 1296 759 0 0 1 0 h_window
         :: post) /\
  1 = 1 /\ CW_USEDEFAULT = CW_USEDEFAULT /\ CW_USEDEFAULT = CW_USEDEFAULT /\
  0 = 0 /\ 0 = 0 /\
  Z.lor 13238272 (Z.lor WS_THICKFRAME WS_MAXIMIZEBOX) = WS_OVERLAPPEDWINDOW /\
  Z.land 13238272 (Z.lor WS_THICKFRAME WS_MAXIMIZEBOX) = 0 /\
  object (snd (InitWindow 80 win32_ok 1 10 unborn)) =
    set_m_hWnd h_window (object unborn) /\
  m_hInstance (snd (InitWindow 80 win32_ok 1 10 unborn)) = 1.
Proof.
  apply (InitWindow_window_from_class 80 win32_ok 1 10 unborn S_OK
           (snd (InitWindow 80 win32_ok 1 10 unborn))
           (wlog (snd (InitWindow 80 win32_ok 1 10 unborn)))
           "DoomNETWindowClass"%string "Doom.NET"%string
           13238272 CW_USEDEFAULT CW_USEDEFAULT 1296 759 0 0 1 0 h_window).
  - vm_compute. reflexivity.
  - vm_compute. reflexivity.
  - vm_compute. tauto.
Defined.

(** ** Renderer::WndProc *)

(** X13.  WndProc posts the quit message exactly for WM_DESTROY, once and
    with exit code 0; no other message makes it post one. *)
Theorem WndProc_quits_on_destroy W hWnd message wParam lParam l :
  exists evs,
    snd (WndProc W hWnd message wParam lParam l) = l ++ evs /\
    filter is_post_quit evs =
      if message =? WM_DESTROY then [WPostQuitMessage 0] else [].
Proof.
  unfold WndProc.
  destruct (message =? WM_PAINT) eqn:Hp.
  - apply Z.eqb_eq in Hp. subst message.
    destruct (w_BeginPaint W l hWnd) as [ps hdc].
    eexists. split; reflexivity.
  - destruct (message =? WM_DESTROY); eexists; split; reflexivity.
Qed.

(** X14.  WndProc handles two messages itself and returns 0 for them
    without calling DefWindowProc: for WM_PAINT it calls BeginPaint and
    then EndPaint for the same window with the paint structure BeginPaint
    filled, and nothing else.  Every other message is passed once, with
    its window and both parameters unchanged, to DefWindowProc, whose
    result WndProc returns. *)
Theorem WndProc_dispatch W hWnd message wParam lParam l :
  let result := fst (WndProc W hWnd message wParam lParam l) in
  exists evs,
    snd (WndProc W hWnd message wParam lParam l) = l ++ evs /\
    ((message = WM_PAINT \/ message = WM_DESTROY) /\
     result = 0 /\ filter is_def_window_proc evs = [] /\
     (message = WM_PAINT ->
      exists ps hdc, evs = [WBeginPaint hWnd ps hdc; WEndPaint hWnd ps]) \/
     message <> WM_PAINT /\ message <> WM_DESTROY /\
     evs = [WDefWindowProc hWnd message wParam lParam result] /\
     result = w_DefWindowProc W l hWnd message wParam lParam).
Proof.
  unfold WndProc. cbv zeta.
  destruct (message =? WM_PAINT) eqn:Hp.
  - apply Z.eqb_eq in Hp. subst message.
    destruct (w_BeginPaint W l hWnd) as [ps hdc].
    eexists. split; [reflexivity|]. left.
    repeat split; auto. intros _. eexists. eexists. reflexivity.
  - apply Z.eqb_neq in Hp.
    destruct (message =? WM_DESTROY) eqn:Hd.
    + apply Z.eqb_eq in Hd. subst message.
      eexists. split; [reflexivity|]. left.
      repeat split; auto. intros H. discriminate.
    + apply Z.eqb_neq in Hd.
      eexists. split; [reflexivity|]. right. repeat split; assumption.
Qed.

(** ** From the window to the device *)

(** X15.  When InitWindow has returned S_OK, the object it leaves has a
    non-null m_hWnd, the handle its CreateWindow call returned and its
    last call showed, and its device handles are untouched.  An InitDevice
    run on that object starts by reading the client rectangle of that
    window and names no other window in any call. *)
Theorem InitDevice_on_created_window sz W hInst n ws D P l :
  fst (InitWindow sz W hInst n ws) = S_OK ->
  let ws' := snd (InitWindow sz W hInst n ws) in
  let r := object ws' in
  m_hWnd r <> nullptr /\
  r = set_m_hWnd (m_hWnd r) (object ws) /\
  (exists pre cls title st x y w h parent menu inst param,
     wlog ws' =
       wlog ws ++ pre ++
       [ WCreateWindow cls title st x y w h parent menu inst param (m_hWnd r);
         WShowWindow (m_hWnd r) n ]) /\
  exists rc evs,
    log (final (InitDevice D P (mkState r l))) =
      l ++ EvGetClientRect (m_hWnd r) rc :: evs /\
    Forall (fun hWnd => hWnd = m_hWnd r) (collect window_of evs).
Proof.
  intros Hok. cbv zeta.
  assert (Hw :
    m_hWnd (object (snd (InitWindow sz W hInst n ws))) <> nullptr /\
    object (snd (InitWindow sz W hInst n ws)) =
      set_m_hWnd (m_hWnd (object (snd (InitWindow sz W hInst n ws)))) (object ws) /\
    exists pre cls title st x y w h parent menu inst param,
      wlog (snd (InitWindow sz W hInst n ws)) =
        wlog ws ++ pre ++
        [ WCreateWindow cls title st x y w h parent menu inst param
            (m_hWnd (object (snd (InitWindow sz W hInst n ws))));
          WShowWindow (m_hWnd (object (snd (InitWindow sz W hInst n ws)))) n ]).
  { revert Hok. destruct ws as [hi r l0]. window_cases; intros Hok;
      try (exfalso; revert Hok; unfold S_OK, E_FAIL; discriminate).
    apply Z.eqb_neq in Heqb0. cbn [set_m_hWnd m_hWnd].
    split; [exact Heqb0|]. split; [reflexivity|].
    eexists [_; _; _; _; _]. do 11 eexists.
    rewrite <- !app_assoc. reflexivity. }
  destruct Hw as (H1 & H2 & H3).
  split; [exact H1|]. split; [exact H2|]. split; [exact H3|].
  set (r := object (snd (InitWindow sz W hInst n ws))) in *.
  destruct (InitDevice_calls D P r l)
    as (levs & hr1 & revs & _ & E & _).
  cbv zeta in E.
  destruct (InitDevice_windows D P (mkState r l)) as (evs & E' & F & _).
  cbn [log renderer] in E', F.
  rewrite E' in E. apply app_inv_head in E. subst evs.
  do 2 eexists. split; [exact E'|].
  cbn [collect flat_map window_of app] in F. inversion F. assumption.
Qed.

Lemma InitDevice_on_created_window_witness :
  let ws' := snd (InitWindow 80 win32_ok 1 10 unborn) in
  let r := object ws' in
  m_hWnd r <> nullptr /\
  r = set_m_hWnd (m_hWnd r) (object unborn) /\
  (exists pre cls title st x y w h parent menu inst param,
     wlog ws' =
       wlog unborn ++ pre ++
       [ WCreateWindow cls title st x y w h parent menu inst param (m_hWnd r);
         WShowWindow (m_hWnd r) 10 ]) /\
  exists rc evs,
    log (final (InitDevice false host_dxgi12 (mkState r []))) =
      [] ++ EvGetClientRect (m_hWnd r) rc :: evs /\
    Forall (fun hWnd => hWnd = m_hWnd r) (collect window_of evs).
Proof.
  apply (InitDevice_on_created_window 80 win32_ok 1 10 unborn false host_dxgi12 []).
  vm_compute. reflexivity.
Defined.
